(** * SimpleMediaServer: a shallow embedding of the request handlers

    The development follows the layout of the repository:

    - [modules/rate_limiter.py]  ->  [Module RateLimiter]
    - [settings/config.py]       ->  [Module ApiConfig]
    - [modules/functions.py]     ->  [Module Functions] (with the calendar
      arithmetic of the [datetime] library it relies on in [Module Datetime])
    - [services/database.py]     ->  [Module FilesTable]
    - [routes/file.py], [routes/delete.py], [routes/compression.py],
      [routes/upload.py]         ->  [Module Routes]

    Python exceptions are values of [exn]; a call either returns or raises
    ([result]).  Handlers are state transformers over the database table,
    the local file system and the list of detached asyncio tasks
    ([Module Server]).  A handler reads the clock once: [now] is the
    instant of the request, in microseconds since the epoch.
    [Module Scenario] is a small concrete server on which the statements
    are exercised. *)

From Stdlib Require Import ZArith Lia Bool Ascii String List Sorted.
From stdpp Require Import base option list gmap strings fin_maps pretty.

Local Open Scope string_scope.
Local Open Scope list_scope.
Local Open Scope Z_scope.

(** ** Exceptions and results *)

(** The exceptions the handlers can raise.  [HTTPException] carries the
    status code and the detail text; every other exception is a plain
    Python exception that the framework turns into a 500 response. *)
Inductive exn : Type :=
| HTTPException (status_code : Z) (detail : string)
| ValueError
| TypeError
| IndexError
| OverflowError
| AttributeError
| IntegrityError
| OSError.

Inductive result (A : Type) : Type :=
| Return (a : A)
| Raise (e : exn).

Arguments Return {A} a.
Arguments Raise {A} e.

(** Status code the client observes when a handler raises [e]. *)
Definition status_of_exn (e : exn) : Z :=
  match e with
  | HTTPException code _ => code
  | _ => 500
  end.

(** ** Python string operations used by the handlers *)

Module Str.

(** [needle in hay]. *)
Fixpoint contains (needle hay : string) : bool :=
  String.prefix needle hay
  || match hay with
     | EmptyString => false
     | String _ hay' => contains needle hay'
     end.

(** [s.split(sep)] for a one character separator: every occurrence of
    the separator cuts, empty pieces are kept. *)
Fixpoint split (sep : ascii) (s : string) : list string :=
  match s with
  | EmptyString => [EmptyString]
  | String c s' =>
      if Ascii.eqb c sep then EmptyString :: split sep s'
      else match split sep s' with
           | piece :: pieces => String c piece :: pieces
           | [] => [String c EmptyString]
           end
  end.

(** [l[i]] on a list: [IndexError] out of range. *)
Definition item {A} (l : list A) (i : nat) : result A :=
  match nth_error l i with
  | Some x => Return x
  | None => Raise IndexError
  end.

(** Truth value of a string: the empty string is falsy. *)
Definition truthy (s : string) : bool :=
  match s with
  | EmptyString => false
  | _ => true
  end.

End Str.

(** ** modules/rate_limiter.py *)

Module RateLimiter.

(** [time.time()] is read at microsecond resolution: timestamps are
    integers counting microseconds, and a window of [seconds] seconds
    spans [seconds * 1000000] of them. *)
Definition TICKS_PER_SECOND : Z := 1000000.

Record t : Type := mk {
  times : nat;
  seconds : Z;
  requests : gmap string (list Z)
}.

(** [RateLimiter(times, seconds)]: no client has a queue yet. *)
Definition __init__ (times : nat) (seconds : Z) : t :=
  mk times seconds ∅.

(** [self.requests[client_ip]] on the [defaultdict]: a missing client
    starts with an empty deque. *)
Definition queue_of (rl : t) (client_ip : string) : list Z :=
  default [] (requests rl !! client_ip).

(** The [while ... popleft()] loop: the head is dropped as long as it
    is at or before [now - seconds]. *)
Fixpoint drop_expired (cutoff : Z) (request_times : list Z) : list Z :=
  match request_times with
  | [] => []
  | head :: rest =>
      if head <=? cutoff then drop_expired cutoff rest else request_times
  end.

(** [deque.append] with [maxlen]: the new item goes to the right and
    items fall off the left end beyond the capacity. *)
Definition deque_append (maxlen : nat) (q : list Z) (x : Z) : list Z :=
  let q' := q ++ [x] in
  drop (length q' - maxlen)%nat q'.

Definition __call__ (rl : t) (client_ip : string) (current_time : Z)
  : result unit * t :=
  let request_times := queue_of rl client_ip in
  let request_times :=
    drop_expired (current_time - seconds rl * TICKS_PER_SECOND) request_times in
  if (times rl <=? length request_times)%nat then
    (Raise (HTTPException 429 "Too many requests"),
     mk (times rl) (seconds rl) (<[client_ip := request_times]> (requests rl)))
  else
    (Return tt,
     mk (times rl) (seconds rl)
        (<[client_ip := deque_append (times rl) request_times current_time]>
           (requests rl))).

(** A client's requests at the given times, one after the other. *)
Fixpoint run (rl : t) (client_ip : string) (clock : list Z)
  : list (result unit) * t :=
  match clock with
  | [] => ([], rl)
  | now :: clock' =>
      let '(r, rl') := __call__ rl client_ip now in
      let '(rs, rl'') := run rl' client_ip clock' in
      (r :: rs, rl'')
  end.

End RateLimiter.

(** ** settings/config.py *)

Module ApiConfig.

(** [os.getenv(name) or default]: an unset or empty variable falls back. *)
Definition getenv_or (value : option string) (fallback : string) : string :=
  match value with
  | Some v => if Str.truthy v then v else fallback
  | None => fallback
  end.

Record t : Type := mk {
  MASTER_KEY : string;
  BASE_URL : string
}.

Definition load (API_MASTER_KEY API_BASE_URL : option string) : t :=
  mk (getenv_or API_MASTER_KEY "master_key")
     (getenv_or API_BASE_URL "http://localhost:8000").

End ApiConfig.

(** ** The [datetime] values of the Python library

    [fetch_date] and the expiry checks are built on [datetime.datetime].
    The calendar arithmetic below follows the library's own algorithms
    ([_ymd2ord], [_ord2ymd]); an instant is a number of microseconds since
    1970-01-01T00:00:00 UTC. *)

Module Datetime.

(** [tzinfo = None] is a naive value; [Some off] an aware one whose UTC
    offset is [off] microseconds. *)
Record datetime : Type := mk {
  year : Z;
  month : Z;
  day : Z;
  hour : Z;
  minute : Z;
  second : Z;
  microsecond : Z;
  tzinfo : option Z
}.

Definition MINYEAR : Z := 1.
Definition MAXYEAR : Z := 9999.
Definition US_PER_SECOND : Z := 1000000.
Definition US_PER_DAY : Z := 86400 * US_PER_SECOND.
(** Ordinal of 1970-01-01 and of 9999-12-31. *)
Definition EPOCH_ORDINAL : Z := 719163.
Definition MAX_ORDINAL : Z := 3652059.

Definition is_leap (y : Z) : bool :=
  (y mod 4 =? 0) && (negb (y mod 100 =? 0) || (y mod 400 =? 0)).

Definition days_before_year (y : Z) : Z :=
  let y := y - 1 in y * 365 + y / 4 - y / 100 + y / 400.

Definition DAYS_IN_MONTH (m : Z) : Z :=
  match m with
  | 2 => 28
  | 4 | 6 | 9 | 11 => 30
  | _ => 31
  end.

Definition days_in_month (y m : Z) : Z :=
  if (m =? 2) && is_leap y then 29 else DAYS_IN_MONTH m.

Definition DAYS_BEFORE_MONTH (m : Z) : Z :=
  match m with
  | 1 => 0 | 2 => 31 | 3 => 59 | 4 => 90 | 5 => 120 | 6 => 151
  | 7 => 181 | 8 => 212 | 9 => 243 | 10 => 273 | 11 => 304 | _ => 334
  end.

Definition days_before_month (y m : Z) : Z :=
  DAYS_BEFORE_MONTH m + (if (2 <? m) && is_leap y then 1 else 0).

Definition ymd2ord (y m d : Z) : Z :=
  days_before_year y + days_before_month y m + d.

Definition DI400Y : Z := 146097.
Definition DI100Y : Z := 36524.
Definition DI4Y : Z := 1461.

Definition ord2ymd (n : Z) : Z * Z * Z :=
  let n := n - 1 in
  let n400 := n / DI400Y in
  let n := n mod DI400Y in
  let y := n400 * 400 + 1 in
  let n100 := n / DI100Y in
  let n := n mod DI100Y in
  let n4 := n / DI4Y in
  let n := n mod DI4Y in
  let n1 := n / 365 in
  let n := n mod 365 in
  let y := y + n100 * 100 + n4 * 4 + n1 in
  if (n1 =? 4) || (n100 =? 4) then (y - 1, 12, 31)
  else
    let leapyear := (n1 =? 3) && (negb (n4 =? 24) || (n100 =? 3)) in
    let m := Z.shiftr (n + 50) 5 in
    let preceding :=
      DAYS_BEFORE_MONTH m + (if (2 <? m) && leapyear then 1 else 0) in
    if n <? preceding then
      let m := m - 1 in
      let preceding :=
        preceding
        - (DAYS_IN_MONTH m + (if (m =? 2) && leapyear then 1 else 0)) in
      (y, m, n - preceding + 1)
    else (y, m, n - preceding + 1).

(** The wall clock reading of a value, as microseconds since the epoch
    and with the offset not applied. *)
Definition wall (d : datetime) : Z :=
  ((ymd2ord (year d) (month d) (day d) - EPOCH_ORDINAL) * 86400
   + hour d * 3600 + minute d * 60 + second d) * US_PER_SECOND
  + microsecond d.

(** Calendar fields, in UTC, of an instant. *)
Definition utc_fields (t : Z) : datetime :=
  let ord := t / US_PER_DAY + EPOCH_ORDINAL in
  let r := t mod US_PER_DAY in
  let '(y, m, d) := ord2ymd ord in
  let s := r / US_PER_SECOND in
  mk y m d (s / 3600) ((s / 60) mod 60) (s mod 60)
     (r mod US_PER_SECOND) (Some 0).

(** The aware value in UTC for an instant; [None] is the library's
    [OverflowError] for a date outside years 1..9999. *)
Definition of_instant (t : Z) : option datetime :=
  let ord := t / US_PER_DAY + EPOCH_ORDINAL in
  if (ord <? 1) || (MAX_ORDINAL <? ord) then None
  else Some (utc_fields t).

(** [d.astimezone(timezone.utc)].  A naive value is read as local time:
    [local_utcoffset] gives the host's UTC offset (microseconds) for a
    local wall clock reading. *)
Definition astimezone_utc (local_utcoffset : Z -> Z) (d : datetime)
  : option datetime :=
  match tzinfo d with
  | Some off => of_instant (wall d - off)
  | None => of_instant (wall d - local_utcoffset (wall d))
  end.

(** Instant denoted by an aware value. *)
Definition timestamp (d : datetime) : option Z :=
  match tzinfo d with
  | Some off => Some (wall d - off)
  | None => None
  end.

(** [d < datetime.datetime.now(datetime.timezone.utc)], the clock
    reading [now]: an aware [d] compares by instant, a naive one cannot
    be compared with the aware right-hand side ([TypeError]). *)
Definition lt_now (d : datetime) (now : Z) : result bool :=
  match tzinfo d with
  | Some off => Return (wall d - off <? now)
  | None => Raise TypeError
  end.

(** The constructor's range checks ([ValueError] otherwise). *)
Definition valid_fields (y m d hh mm ss us : Z) : bool :=
  (MINYEAR <=? y) && (y <=? MAXYEAR)
  && (1 <=? m) && (m <=? 12)
  && (1 <=? d) && (d <=? days_in_month y m)
  && (0 <=? hh) && (hh <=? 23)
  && (0 <=? mm) && (mm <=? 59)
  && (0 <=? ss) && (ss <=? 59)
  && (0 <=? us) && (us <=? 999999).

(** *** Parsing *)

Definition digit (c : ascii) : option Z :=
  let n := Z.of_N (N_of_ascii c) in
  if (48 <=? n) && (n <=? 57) then Some (n - 48) else None.

(** [int(s)] for a string that must consist of decimal digits. *)
Fixpoint digits_acc (acc : Z) (s : string) : option Z :=
  match s with
  | EmptyString => Some acc
  | String c s' =>
      match digit c with
      | Some v => digits_acc (acc * 10 + v) s'
      | None => None
      end
  end.

Definition int_digits (s : string) : option Z :=
  match s with
  | EmptyString => None
  | _ => digits_acc 0 s
  end.

(** The [n] characters at the front, read as a number, and the rest. *)
Definition take_int (n : nat) (s : string) : option (Z * string) :=
  if (String.length s <? n)%nat then None
  else
    v ← int_digits (String.substring 0 n s);
    Some (v, String.substring n (String.length s - n) s).

Definition expect (c : ascii) (s : string) : option string :=
  match s with
  | String c' s' => if Ascii.eqb c c' then Some s' else None
  | EmptyString => None
  end.

(** [YYYY-MM-DD], exactly ten characters. *)
Definition parse_isoformat_date (dstr : string) : option (Z * Z * Z) :=
  '(y, r) ← take_int 4 dstr;
  r ← expect "-" r;
  '(m, r) ← take_int 2 r;
  r ← expect "-" r;
  '(d, r) ← take_int 2 r;
  match r with
  | EmptyString => Some (y, m, d)
  | _ => None
  end.

(** [HH[:MM[:SS[.fff[fff]]]]]. *)
Definition parse_hh_mm_ss_ff (tstr : string) : option (Z * Z * Z * Z) :=
  '(hh, r) ← take_int 2 tstr;
  match r with
  | EmptyString => Some (hh, 0, 0, 0)
  | _ =>
      r ← expect ":" r;
      '(mm, r) ← take_int 2 r;
      match r with
      | EmptyString => Some (hh, mm, 0, 0)
      | _ =>
          r ← expect ":" r;
          '(ss, r) ← take_int 2 r;
          match r with
          | EmptyString => Some (hh, mm, ss, 0)
          | _ =>
              r ← expect "." r;
              match String.length r with
              | 3%nat => us ← int_digits r; Some (hh, mm, ss, us * 1000)
              | 6%nat => us ← int_digits r; Some (hh, mm, ss, us)
              | _ => None
              end
          end
      end
  end.

(** Position of the first ['+'] or ['-']. *)
Fixpoint find_sign (s : string) : option nat :=
  match s with
  | EmptyString => None
  | String c s' =>
      if Ascii.eqb c "+" || Ascii.eqb c "-" then Some 0%nat
      else S <$> find_sign s'
  end.

(** [HH[:MM[:SS[.fff[fff]]]][+HH:MM[:SS[.ffffff]]]]; the last component
    is the UTC offset in microseconds when there is one. *)
Definition parse_isoformat_time (tstr : string)
  : option (Z * Z * Z * Z * option Z) :=
  if (String.length tstr <? 2)%nat then None
  else
    match find_sign tstr with
    | None =>
        '(hh, mm, ss, us) ← parse_hh_mm_ss_ff tstr;
        Some (hh, mm, ss, us, None)
    | Some pos =>
        '(hh, mm, ss, us) ← parse_hh_mm_ss_ff (String.substring 0 pos tstr);
        let tzstr :=
          String.substring (S pos) (String.length tstr - S pos) tstr in
        let tzlen := String.length tzstr in
        if negb ((tzlen =? 5) || (tzlen =? 8) || (tzlen =? 15))%nat then None
        else
          '(th, tm, ts, tus) ← parse_hh_mm_ss_ff tzstr;
          let sign :=
            match String.get pos tstr with
            | Some c => if Ascii.eqb c "-" then -1 else 1
            | None => 1
            end in
          let off :=
            sign * ((th * 3600 + tm * 60 + ts) * US_PER_SECOND + tus) in
          if (- US_PER_DAY <? off) && (off <? US_PER_DAY)
          then Some (hh, mm, ss, us, Some off)
          else None
    end.

(** [datetime.fromisoformat], for the strings [datetime.isoformat]
    writes: [YYYY-MM-DD], any one separator character, then the time.
    [None] is the library's [ValueError]. *)
Definition fromisoformat (date_string : string) : option datetime :=
  let dstr := String.substring 0 10 date_string in
  let tstr :=
    String.substring 11 (String.length date_string - 11) date_string in
  '(y, m, d) ← parse_isoformat_date dstr;
  '(hh, mm, ss, us, tz) ←
    (match tstr with
     | EmptyString => Some (0, 0, 0, 0, None)
     | _ => parse_isoformat_time tstr
     end);
  if valid_fields y m d hh mm ss us
  then Some (mk y m d hh mm ss us tz)
  else None.

(** *** Printing *)

Definition digit_char (v : Z) : ascii :=
  ascii_of_N (Z.to_N (48 + v mod 10)).

(** [v] in decimal, as exactly [width] digits. *)
Fixpoint zfill (width : nat) (v : Z) : string :=
  match width with
  | O => EmptyString
  | S w => zfill w (v / 10) +:+ String (digit_char v) EmptyString
  end.

Definition format_offset (off : Z) : string :=
  let sign := if off <? 0 then "-" else "+" in
  let a := Z.abs off in
  let s := a / US_PER_SECOND in
  let us := a mod US_PER_SECOND in
  sign +:+ zfill 2 (s / 3600) +:+ ":" +:+ zfill 2 ((s / 60) mod 60)
  +:+ (if (s mod 60 =? 0) && (us =? 0) then ""
       else ":" +:+ zfill 2 (s mod 60)
            +:+ (if us =? 0 then "" else "." +:+ zfill 6 us)).

(** [d.isoformat(sep)]. *)
Definition isoformat (sep : string) (d : datetime) : string :=
  zfill 4 (year d) +:+ "-" +:+ zfill 2 (month d) +:+ "-" +:+ zfill 2 (day d)
  +:+ sep +:+ zfill 2 (hour d) +:+ ":" +:+ zfill 2 (minute d)
  +:+ ":" +:+ zfill 2 (second d)
  +:+ (if microsecond d =? 0 then "" else "." +:+ zfill 6 (microsecond d))
  +:+ match tzinfo d with
      | Some off => format_offset off
      | None => ""
      end.

End Datetime.

(** ** modules/functions.py *)

Module Functions.

(** What the host supplies to [fetch_date]: the local time zone used for
    naive values, and [datetime.strptime(_, "%Y-%m-%d %H:%M:%S")], whose
    pattern matching is the library's ([None] is its [ValueError]). *)
Record host : Type := mk_host {
  local_utcoffset : Z -> Z;
  strptime : string -> option Datetime.datetime
}.

(** [fetch_date(date_str)] for a string argument.  The first attempt is
    [fromisoformat]; a [ValueError] there leads to the [strptime]
    attempt, whose own exceptions leave the function; any other
    exception of the first attempt is printed and [None] is returned. *)
Definition fetch_date (h : host) (date_str : string)
  : result (option Datetime.datetime) :=
  match Datetime.fromisoformat date_str with
  | Some d =>
      match Datetime.astimezone_utc (local_utcoffset h) d with
      | Some d' => Return (Some d')
      | None => Return None
      end
  | None =>
      match strptime h date_str with
      | Some d =>
          match Datetime.astimezone_utc (local_utcoffset h) d with
          | Some d' => Return (Some d')
          | None => Raise OverflowError
          end
      | None => Raise ValueError
      end
  end.

(** [authorize_admin(request)]; [authorization] is
    [request.headers.get("Authorization")]. *)
Definition authorize_admin (config : ApiConfig.t)
    (authorization : option string) : result bool :=
  match authorization with
  | None => Raise (HTTPException 401 "Unauthorized")
  | Some authorization =>
      if negb (Str.truthy authorization)
      then Raise (HTTPException 401 "Unauthorized")
      else
        let token :=
          if Str.contains "Bearer" authorization
          then Str.item (Str.split " " authorization) 1
          else Return authorization in
        match token with
        | Raise e => Raise e
        | Return token =>
            if negb (String.eqb token (ApiConfig.MASTER_KEY config))
            then Raise (HTTPException 403 "Forbidden")
            else Return true
        end
  end.

End Functions.

(** ** services/database.py: the [files] table

    A table is the list of its rows in insertion order, together with the
    largest row id handed out so far ([AUTOINCREMENT]).  Timestamps are
    stored as text, the way the engine and the driver write them. *)

Module FilesTable.

Record row : Type := mk_row {
  id : Z;
  file_path : string;
  storage_path : string;
  file_name : string;
  file_type : string;
  file_size : Z;
  access_count : Z;
  last_accessed : option string;
  expires_at : option string;
  uploaded_at : string
}.

Record t : Type := mk {
  rows : list row;
  sequence : Z
}.

(** [CREATE TABLE IF NOT EXISTS] on a fresh database. *)
Definition create_table : t := mk [] 0.

(** The engine's [CURRENT_TIMESTAMP]: UTC, whole seconds,
    [YYYY-MM-DD HH:MM:SS]. *)
Definition CURRENT_TIMESTAMP (now : Z) : string :=
  let d := Datetime.utc_fields now in
  Datetime.isoformat " "
    (Datetime.mk (Datetime.year d) (Datetime.month d) (Datetime.day d)
       (Datetime.hour d) (Datetime.minute d) (Datetime.second d) 0 None).

(** The driver's adapter for a [datetime] parameter. *)
Definition adapt_datetime (d : Datetime.datetime) : string :=
  Datetime.isoformat " " d.

Definition has_path (p : string) (r : row) : bool :=
  String.eqb (file_path r) p.

(** [SELECT * FROM files WHERE file_path = ?] and [fetchone()]. *)
Definition select_by_path (p : string) (tbl : t) : option row :=
  List.find (has_path p) (rows tbl).

(** [SET access_count = access_count + 1,
         last_accessed = CURRENT_TIMESTAMP]. *)
Definition touch (now : Z) (r : row) : row :=
  mk_row (id r) (file_path r) (storage_path r) (file_name r) (file_type r)
    (file_size r) (access_count r + 1) (Some (CURRENT_TIMESTAMP now))
    (expires_at r) (uploaded_at r).

(** [UPDATE files SET ... WHERE file_path = ?]. *)
Definition update_access (now : Z) (p : string) (tbl : t) : t :=
  mk (List.map (fun r => if has_path p r then touch now r else r) (rows tbl))
     (sequence tbl).

Definition next_id (tbl : t) : Z :=
  1 + List.fold_right Z.max (sequence tbl) (List.map id (rows tbl)).

(** [add_new_file]: the new row id, or [IntegrityError] when the unique
    [file_path] is taken. *)
Definition add_new_file (p storage file_name file_type : string)
    (file_size : Z) (uploaded_at : Datetime.datetime)
    (expires_at : option Datetime.datetime) (tbl : t)
  : result Z * t :=
  match select_by_path p tbl with
  | Some _ => (Raise IntegrityError, tbl)
  | None =>
      let i := next_id tbl in
      (Return i,
       mk (rows tbl
           ++ [mk_row i p storage file_name file_type file_size 0 None
                 (adapt_datetime <$> expires_at)
                 (adapt_datetime uploaded_at)])
          i)
  end.

Definition get_file_by_id (file_id : Z) (tbl : t) : option row :=
  List.find (fun r => id r =? file_id) (rows tbl).

(** [get_file]: the row as it was read, and the table after the access
    update that a hit triggers. *)
Definition get_file (now : Z) (p : string) (tbl : t) : option row * t :=
  match select_by_path p tbl with
  | Some file_data => (Some file_data, update_access now p tbl)
  | None => (None, tbl)
  end.

(** [delete_file]: whether a row was removed. *)
Definition delete_file (p : string) (tbl : t) : bool * t :=
  let kept := List.filter (fun r => negb (has_path p r)) (rows tbl) in
  ((length kept <? length (rows tbl))%nat, mk kept (sequence tbl)).

Definition update_file_access (now : Z) (p : string) (tbl : t) : t :=
  update_access now p tbl.

Definition get_file_they_have_expired_at_not_null (tbl : t) : list row :=
  List.filter (fun r => bool_decide (is_Some (expires_at r))) (rows tbl).

(** [count_all_by_file_type]: the dict built from the rows of
    [SELECT file_type, COUNT( * ) ... GROUP BY file_type]. *)
Definition count_all_by_file_type (tbl : t) : gmap string Z :=
  List.fold_right
    (fun r counts =>
       <[file_type r := 1 + default 0 (counts !! file_type r)]> counts)
    ∅ (rows tbl).

End FilesTable.

(** ** Byte strings and the local file system *)

(** The handlers only measure, concatenate and store [bytes] objects, so
    their contents stay abstract. *)
Class Bytes (B : Type) : Type := {
  len : B -> Z;
  bytes_empty : B;
  bytes_concat : B -> B -> B;
  len_nonneg : forall b, 0 <= len b;
  len_empty : len bytes_empty = 0;
  len_concat : forall a b, len (bytes_concat a b) = len a + len b;
  concat_empty : forall b, bytes_concat bytes_empty b = b
}.

Module FS.

Inductive node (B : Type) : Type :=
| Dir
| File (content : B).

Arguments Dir {B}.
Arguments File {B} content.

(** Why the operating system refuses to create a file at a path: a name
    longer than the file system allows ([OSError], "File name too
    long"), or a path that holds a NUL character ([ValueError],
    "embedded null byte"). *)
Inductive refusal : Type :=
| NameTooLong
| EmbeddedNull.

Definition exn_of_refusal (r : refusal) : exn :=
  match r with
  | NameTooLong => OSError
  | EmbeddedNull => ValueError
  end.

Section WithBytes.
Context {B : Type} `{Bytes B}.

(** [os.path.exists(path)]. *)
Definition path_exists (path : string) (fs : gmap string (node B)) : bool :=
  bool_decide (is_Some (fs !! path)).

(** [open(path, "wb")] on a path the operating system accepts: the file
    is created or truncated. *)
Definition open_wb (path : string) (fs : gmap string (node B))
  : result (gmap string (node B)) :=
  match fs !! path with
  | Some Dir => Raise OSError
  | _ => Return (<[path := File bytes_empty]> fs)
  end.

(** [buffer.write(chunk)] on the file opened at [path]. *)
Definition write (path : string) (chunk : B) (fs : gmap string (node B))
  : gmap string (node B) :=
  match fs !! path with
  | Some (File content) => <[path := File (bytes_concat content chunk)]> fs
  | _ => fs
  end.

(** [open(path, "rb")] and [read()]. *)
Definition read (path : string) (fs : gmap string (node B)) : result B :=
  match fs !! path with
  | Some (File content) => Return content
  | _ => Raise OSError
  end.

(** [os.remove(path)]. *)
Definition remove (path : string) (fs : gmap string (node B))
  : result (gmap string (node B)) :=
  match fs !! path with
  | Some (File _) => Return (delete path fs)
  | _ => Raise OSError
  end.

End WithBytes.

(** [os.path.splitext] and [os.path.join] on POSIX paths. *)

(** [s.rfind(c)], [-1] when [c] does not occur. *)
Fixpoint rfind_from (c : ascii) (s : string) (i : Z) (found : Z) : Z :=
  match s with
  | EmptyString => found
  | String c' s' =>
      rfind_from c s' (i + 1) (if Ascii.eqb c c' then i else found)
  end.

Definition rfind (c : ascii) (s : string) : Z := rfind_from c s 0 (-1).

Fixpoint all_dots (s : string) : bool :=
  match s with
  | EmptyString => true
  | String c s' => Ascii.eqb c "." && all_dots s'
  end.

Definition splitext (p : string) : string * string :=
  let sepIndex := rfind "/" p in
  let dotIndex := rfind "." p in
  if (sepIndex <? dotIndex)
     && negb (all_dots (String.substring (Z.to_nat (sepIndex + 1))
                          (Z.to_nat (dotIndex - (sepIndex + 1))) p))
  then (String.substring 0 (Z.to_nat dotIndex) p,
        String.substring (Z.to_nat dotIndex)
          (String.length p - Z.to_nat dotIndex) p)
  else (p, "").

(** [os.path.join(a, b)] for a non-empty [a] without trailing slash. *)
Definition join (a b : string) : string :=
  if String.prefix "/" b then b else a +:+ "/" +:+ b.

End FS.

(** ** Values exchanged with the client *)

#[local] Set Warnings "-register-all".

(** Decoded JSON; the numbers are the integers. *)
Inductive json : Type :=
| JNull
| JBool (b : bool)
| JInt (n : Z)
| JStr (s : string)
| JArr (items : list json)
| JObj (fields : list (string * json)).

Inductive response : Type :=
| JSONResponse (status_code : Z) (content : json)
| FileResponse (path media_type : string) (headers : list (string * string))
| StreamingResponse (path : string) (chunk_size : Z) (media_type : string)
    (headers : list (string * string)).

Definition status_code_of (r : response) : Z :=
  match r with
  | JSONResponse code _ => code
  | FileResponse _ _ _ => 200
  | StreamingResponse _ _ _ _ => 200
  end.

(** [response.headers[k] = v].  The framework encodes a header value as
    latin-1; the strings of this development are sequences of 8-bit
    characters, which latin-1 always encodes, so the assignment is total
    here.  A file name outside latin-1 is outside these strings. *)
Fixpoint set_header (k v : string) (hs : list (string * string))
  : list (string * string) :=
  match hs with
  | [] => [(k, v)]
  | (k', v') :: hs' =>
      if String.eqb k k' then (k, v) :: hs' else (k', v') :: set_header k v hs'
  end.

(** [d.get(key)] on a decoded JSON object. *)
Fixpoint dict_get (key : string) (fields : list (string * json)) : option json :=
  match fields with
  | [] => None
  | (k, v) :: fields' => if String.eqb k key then Some v else dict_get key fields'
  end.

(** ** The server state and the handler monad *)

(** Work handed to [asyncio.create_task] without being awaited. *)
Inductive task : Type :=
| UpdateFileAccess (file_path : string)
| AutoDeleteExpiredFile (file_data : option FilesTable.row) (data_id : option Z).

Inductive level : Type := INFO | WARNING | ERROR | SUCCESS.

Module Server.

Section WithBytes.
Context {B : Type} `{Bytes B}.

(** What lies outside the repository: the host of [fetch_date], the
    configuration, [mimetypes.guess_type] (its first component),
    [uuid.uuid4()] as the sequence of identifiers it returns, the
    image library behind [_compress_bytes_sync] ([None] when it
    raises), [int()] on a string ([None] is [ValueError]), the
    instant at which [services/database.py] was imported, and what the
    operating system says to the creation of a file at a path ([None]
    when it accepts the path). *)
Record env : Type := mk_env {
  host : Functions.host;
  config : ApiConfig.t;
  guess_type : string -> option string;
  uuid4 : nat -> string;
  compress_bytes_sync : B -> Z -> option Z -> bool -> bool -> option B;
  int_of_str : string -> option Z;
  import_time : Z;
  refuses : string -> option FS.refusal
}.

(** The database table, the storage directory, the detached tasks not
    run yet, the number of identifiers drawn from [uuid4], and the
    lines the compression task logged. *)
Record world : Type := mk_world {
  db : FilesTable.t;
  fs : gmap string (FS.node B);
  tasks : list task;
  drawn : nat;
  log : list (level * string)
}.

Definition set_db (d : FilesTable.t) (w : world) : world :=
  mk_world d (fs w) (tasks w) (drawn w) (log w).
Definition set_fs (f : gmap string (FS.node B)) (w : world) : world :=
  mk_world (db w) f (tasks w) (drawn w) (log w).
Definition set_tasks (ts : list task) (w : world) : world :=
  mk_world (db w) (fs w) ts (drawn w) (log w).
Definition set_drawn (n : nat) (w : world) : world :=
  mk_world (db w) (fs w) (tasks w) n (log w).
Definition set_log (l : list (level * string)) (w : world) : world :=
  mk_world (db w) (fs w) (tasks w) (drawn w) l.

(** A handler: from a state to a returned value or a raised exception,
    and the state left behind in either case. *)
Definition M (A : Type) : Type := world -> result A * world.

Definition ret {A} (a : A) : M A := fun w => (Return a, w).
Definition raise {A} (e : exn) : M A := fun w => (Raise e, w).
Definition bind {A C} (m : M A) (k : A -> M C) : M C :=
  fun w =>
    match m w with
    | (Return a, w') => k a w'
    | (Raise e, w') => (Raise e, w')
    end.

(** [try: m except <exceptions accepted by handles>: handler]. *)
Definition try_except {A} (m : M A) (handles : exn -> bool)
    (handler : exn -> M A) : M A :=
  fun w =>
    match m w with
    | (Raise e, w') => if handles e then handler e w' else (Raise e, w')
    | r => r
    end.

Definition lift {A} (r : result A) : M A := fun w => (r, w).
Definition get_world : M world := fun w => (Return w, w).
Definition modify (f : world -> world) : M unit := fun w => (Return tt, f w).

(** [except Exception] accepts everything modelled here, and
    [except HTTPException] only the framework's exception. *)
Definition is_Exception (e : exn) : bool := true.
Definition is_HTTPException (e : exn) : bool :=
  match e with
  | HTTPException _ _ => true
  | _ => false
  end.
Definition is_ValueError (e : exn) : bool :=
  match e with
  | ValueError => true
  | _ => false
  end.

End WithBytes.

Arguments env B : clear implicits.
Arguments world B : clear implicits.

End Server.

Notation "'do' x <- m ; k" := (Server.bind m (fun x => k))
  (at level 10, x name, m at level 100, k at level 200,
   format "'[v' 'do'  x  <-  m ; '/' k ']'").

(** ** The route handlers *)

Module Routes.

Section WithEnv.
Context {B : Type} `{Bytes B}.
Variable E : Server.env B.

Abbreviation M := (@Server.M B).

(** Database calls and file system calls, as steps of a handler. *)
Definition db_get_file (now : Z) (file_path : string)
  : M (option FilesTable.row) :=
  fun w =>
    let '(file_data, d) := FilesTable.get_file now file_path (Server.db w) in
    (Return file_data, Server.set_db d w).

Definition db_delete_file (file_path : string) : M bool :=
  fun w =>
    let '(deleted, d) := FilesTable.delete_file file_path (Server.db w) in
    (Return deleted, Server.set_db d w).

Definition db_add_new_file (file_path storage_path file_name file_type : string)
    (file_size : Z) (expires_at : option Datetime.datetime) : M Z :=
  fun w =>
    let '(r, d) :=
      FilesTable.add_new_file file_path storage_path file_name file_type
        file_size (Datetime.utc_fields (Server.import_time E)) expires_at
        (Server.db w) in
    (r, Server.set_db d w).

Definition os_path_exists (path : string) : M bool :=
  fun w => (Return (FS.path_exists path (Server.fs w)), w).

Definition os_remove (path : string) : M unit :=
  fun w =>
    match FS.remove path (Server.fs w) with
    | Return f => (Return tt, Server.set_fs f w)
    | Raise e => (Raise e, w)
    end.

(** [asyncio.create_task(...)] that nobody awaits. *)
Definition create_task (t : task) : M unit :=
  Server.modify (fun w => Server.set_tasks (Server.tasks w ++ [t]) w).

(** The test shared by the view, delete and compress handlers:
    [file_data.get("expires_at") and
     fetch_date(file_data.get("expires_at")) < datetime.now(utc)]. *)
Definition is_expired (now : Z) (file_data : FilesTable.row) : result bool :=
  match FilesTable.expires_at file_data with
  | None => Return false
  | Some text =>
      if negb (Str.truthy text) then Return false
      else
        match Functions.fetch_date (Server.host E) text with
        | Raise e => Raise e
        | Return None => Raise TypeError
        | Return (Some d) => Datetime.lt_now d now
        end
  end.

(** *** routes/file.py *)

Definition set_cors_headers (headers : list (string * string))
  : list (string * string) :=
  set_header "X-Content-Type-Options" "nosniff"
    (set_header "Access-Control-Allow-Origin" "*" headers).

(** The stored type, else the type guessed from the name, else
    [application/octet-stream]. *)
Definition resolve_content_type (stored : string) (file_name : string)
  : string :=
  if negb (Str.truthy stored) || String.eqb stored "application/octet-stream"
  then
    match Server.guess_type E file_name with
    | Some guessed =>
        if Str.truthy guessed then guessed else "application/octet-stream"
    | None => "application/octet-stream"
    end
  else stored.

Definition serve_file (now : Z) (file_path : string) (as_download : bool)
  : M response :=
  do file_data <- db_get_file now file_path;
  match file_data with
  | None => Server.raise (HTTPException 404 "File not found")
  | Some file_data =>
      do expired <- Server.lift (is_expired now file_data);
      if expired then Server.raise (HTTPException 410 "File has expired")
      else
        let storage_path := FilesTable.storage_path file_data in
        do on_disk <- os_path_exists storage_path;
        if negb (Str.truthy storage_path) || negb on_disk
        then Server.raise (HTTPException 404 "File not found in storage")
        else
          let content_type :=
            resolve_content_type (FilesTable.file_type file_data)
              (FilesTable.file_name file_data) in
          do _ <- create_task (UpdateFileAccess file_path);
          let inline_name :=
            "inline; filename=" +:+ FilesTable.file_name file_data in
          if negb as_download
             && (String.prefix "video/" content_type
                 || String.prefix "audio/" content_type)
          then
            Server.ret
              (StreamingResponse storage_path 8192 content_type
                 (set_cors_headers
                    (set_header "Content-Disposition" inline_name [])))
          else if negb as_download
                  && String.eqb content_type "application/pdf"
          then
            Server.ret
              (FileResponse storage_path content_type
                 (set_cors_headers
                    (set_header "Content-Disposition" inline_name [])))
          else if negb as_download && String.prefix "image/" content_type
          then
            Server.ret
              (FileResponse storage_path content_type (set_cors_headers []))
          else
            let disposition :=
              if as_download then "attachment" else "inline" in
            Server.ret
              (FileResponse storage_path content_type
                 (set_header "Content-Disposition"
                    (disposition +:+ "; filename="
                     +:+ FilesTable.file_name file_data)
                    (set_cors_headers [])))
  end.

Definition view_file (now : Z) (file_path : string) : M response :=
  serve_file now file_path false.

Definition download_file (now : Z) (file_path : string) : M response :=
  serve_file now file_path true.

(** *** routes/delete.py *)

Definition delete_file (now : Z) (file_path : string) : M response :=
  do file_data <- db_get_file now file_path;
  match file_data with
  | None => Server.raise (HTTPException 404 "File not found")
  | Some file_data =>
      do expired <- Server.lift (is_expired now file_data);
      if expired then Server.raise (HTTPException 410 "File has expired")
      else
        let storage_path := FilesTable.storage_path file_data in
        do on_disk <- os_path_exists storage_path;
        if negb (Str.truthy storage_path) || negb on_disk
        then Server.raise (HTTPException 404 "File not found in storage")
        else
          Server.try_except
            (do _ <- os_remove storage_path;
             do _ <- db_delete_file file_path;
             Server.ret
               (JSONResponse 200
                  (JObj [("message", JStr "File deleted successfully")])))
            Server.is_Exception
            (fun _ => Server.raise (HTTPException 500 "Error deleting file"))
  end.

(** *** routes/compression.py *)

Record compression_params : Type := mk_params {
  quality : Z;
  max_width : option Z;
  to_webp : bool;
  lossless : bool
}.

(** Truth value of a decoded JSON value. *)
Definition json_truthy (v : json) : bool :=
  match v with
  | JNull => false
  | JBool b => b
  | JInt n => negb (n =? 0)
  | JStr s => Str.truthy s
  | JArr items => match items with [] => false | _ => true end
  | JObj fields => match fields with [] => false | _ => true end
  end.

(** [int(v)]. *)
Definition int_of_json (v : json) : result Z :=
  match v with
  | JBool b => Return (if b then 1 else 0)
  | JInt n => Return n
  | JStr s =>
      match Server.int_of_str E s with
      | Some n => Return n
      | None => Raise ValueError
      end
  | _ => Raise TypeError
  end.

(** [body.get(key, default)]; [body] must be a dict. *)
Definition body_get (body : json) (key : string) (default : json)
  : result json :=
  match body with
  | JObj fields =>
      Return (match dict_get key fields with
              | Some v => v
              | None => default
              end)
  | _ => Raise AttributeError
  end.

Definition parse_params (body : json) : result compression_params :=
  match body_get body "quality" (JInt 75) with
  | Raise e => Raise e
  | Return q =>
      match (if json_truthy q then int_of_json q else Return 75) with
      | Raise e => Raise e
      | Return quality =>
          match body_get body "max_width" JNull with
          | Raise e => Raise e
          | Return mw =>
              match (if json_truthy mw
                     then match int_of_json mw with
                          | Return n => Return (Some n)
                          | Raise e => Raise e
                          end
                     else Return None) with
              | Raise e => Raise e
              | Return max_width =>
                  match body_get body "to_webp" (JBool false),
                        body_get body "lossless" (JBool false) with
                  | Return tw, Return ll =>
                      Return (mk_params quality max_width
                                (json_truthy tw) (json_truthy ll))
                  | Raise e, _ => Raise e
                  | _, Raise e => Raise e
                  end
              end
          end
      end
  end.

Definition logger (lvl : level) (message : string) : M unit :=
  Server.modify (fun w => Server.set_log (Server.log w ++ [(lvl, message)]) w).

Definition fs_read (path : string) : M B :=
  fun w => (FS.read path (Server.fs w), w).

(** [open(path, "wb")].  A path that is not on disk yet has to be
    created, which the operating system can refuse. *)
Definition fs_open_wb (path : string) : M unit :=
  fun w =>
    match (if FS.path_exists path (Server.fs w) then None
           else Server.refuses E path) with
    | Some refusal => (Raise (FS.exn_of_refusal refusal), w)
    | None =>
        match FS.open_wb path (Server.fs w) with
        | Return f => (Return tt, Server.set_fs f w)
        | Raise e => (Raise e, w)
        end
    end.

Definition fs_write (path : string) (chunk : B) : M unit :=
  Server.modify (fun w => Server.set_fs (FS.write path chunk (Server.fs w)) w).

Definition compress_image_bytes (input_bytes : B) (p : compression_params)
  : M B :=
  match Server.compress_bytes_sync E input_bytes (quality p) (max_width p)
          (to_webp p) (lossless p) with
  | Some out => Server.ret out
  | None => Server.raise OSError
  end.

Definition replace_file (storage_path : string) (new_bytes : B) : M bool :=
  Server.try_except
    (do _ <- fs_open_wb storage_path;
     do _ <- fs_write storage_path new_bytes;
     Server.ret true)
    Server.is_Exception
    (fun _ =>
       do _ <- logger ERROR ("Error replacing file " +:+ storage_path);
       Server.ret false).

Definition create_image_compression_task (storage_path : string)
    (p : compression_params) : M unit :=
  Server.try_except
    (do input_bytes <- fs_read storage_path;
     do compressed_bytes <- compress_image_bytes input_bytes p;
     do success <- replace_file storage_path compressed_bytes;
     if negb success
     then logger ERROR ("Failed to replace file " +:+ storage_path)
     else logger SUCCESS ("Successfully compressed image " +:+ storage_path))
    Server.is_Exception
    (fun _ => logger ERROR ("Error compressing image " +:+ storage_path)).

(** [await asyncio.create_task(coro)]: the handler is suspended until
    the task has run to its end, and gets its result or exception. *)
Definition await_create_task {A} (coro : M A) : M A := coro.

(** [body] is the decoded request body, [None] when [request.json()]
    cannot decode it. *)
Definition compress_file (now : Z) (file_path : string) (body : option json)
  : M response :=
  Server.try_except
    (do file_data <- db_get_file now file_path;
     match file_data with
     | None => Server.raise (HTTPException 404 "File not found")
     | Some file_data =>
         do expired <- Server.lift (is_expired now file_data);
         if expired then Server.raise (HTTPException 410 "File has expired")
         else
           do body <- Server.lift (match body with
                                   | Some b => Return b
                                   | None => Raise ValueError
                                   end);
           do parsed <-
             Server.try_except
               (do p <- Server.lift (parse_params body); Server.ret (inl p))
               Server.is_ValueError
               (fun _ =>
                  Server.ret
                    (inr (JSONResponse 400
                            (JObj [("message",
                                    JStr "Invalid query parameters")]))));
           match parsed with
           | inr bad_request => Server.ret bad_request
           | inl p =>
               let storage_path := FilesTable.storage_path file_data in
               do _ <-
                 Server.try_except
                   (await_create_task
                      (create_image_compression_task storage_path p))
                   Server.is_Exception
                   (fun _ =>
                      Server.raise
                        (HTTPException 500 "Error creating compression task"));
               Server.ret
                 (JSONResponse 200
                    (JObj [("message", JStr "File compressed successfully")]))
           end
     end)
    Server.is_Exception
    (fun _ =>
       Server.ret
         (JSONResponse 500 (JObj [("message", JStr "Error compressing file")]))).

(** *** routes/upload.py *)

Definition STORAGE_DIR : string := "storage".

(** [5 * 1024 * 1024 * 1024]. *)
Definition file_size_limit : Z := 5 * 1024 * 1024 * 1024.

(** The [UploadFile] of the request: its name, its declared content
    type, and the chunks that successive [file.read(1024 * 1024)] calls
    return before the end of the stream. *)
Record UploadFile : Type := mk_upload {
  filename : option string;
  content_type : option string;
  chunks : list B
}.

(** [uuid.uuid4()]: the next identifier of the sequence. *)
Definition uuid4 : M string :=
  fun w =>
    (Return (Server.uuid4 E (Server.drawn w)),
     Server.set_drawn (S (Server.drawn w)) w).

Definition get_safe_filename (filename : option string) : M string :=
  match filename with
  | Some name =>
      if negb (Str.truthy name)
      then do u <- uuid4; Server.ret (u +:+ ".bin")
      else
        let ext := snd (FS.splitext name) in
        let ext := if Str.truthy ext then ext else ".bin" in
        do u <- uuid4; Server.ret (u +:+ ext)
  | None => do u <- uuid4; Server.ret (u +:+ ".bin")
  end.

(** [f"{base}_{counter}{ext}"]. *)
Definition numbered (base : string) (counter : N) (ext : string) : string :=
  base +:+ "_" +:+ pretty counter +:+ ext.

(** The [while os.path.exists(...): counter += 1] loop.  Each turn
    meets one more existing path, so the loop ends within as many turns
    as there are paths on disk; [fuel] is that bound. *)
Fixpoint first_free (fs : gmap string (FS.node B)) (base ext : string)
    (fuel : nat) (counter : N) : string :=
  match fuel with
  | O => numbered base counter ext
  | S fuel' =>
      if FS.path_exists (numbered base counter ext) fs
      then first_free fs base ext fuel' (counter + 1)%N
      else numbered base counter ext
  end.

Definition get_unique_path (preferred_path : string) : M string :=
  fun w =>
    let fs := Server.fs w in
    if negb (FS.path_exists preferred_path fs)
    then (Return preferred_path, w)
    else
      let '(base, ext) := FS.splitext preferred_path in
      (Return (first_free fs base ext (S (size fs)) 1%N), w).

(** The read loop of [upload_file], [file_size] being the bytes
    received so far. *)
Fixpoint stream_to_disk (storage_path : string) (chunks : list B)
    (file_size : Z) : M Z :=
  match chunks with
  | [] => Server.ret file_size
  | chunk :: rest =>
      if len chunk =? 0 then Server.ret file_size
      else
        let file_size := file_size + len chunk in
        if file_size_limit <? file_size
        then
          do _ <- os_remove storage_path;
          Server.raise
            (HTTPException 413 "File too large, max size is 5120.0MB")
        else
          do _ <- fs_write storage_path chunk;
          stream_to_disk storage_path rest file_size
  end.

(** The text of [str(e)] in the 500 detail is not modelled beyond the
    class of the exception. *)
Definition str_exn (e : exn) : string :=
  match e with
  | HTTPException _ detail => detail
  | ValueError => "ValueError"
  | TypeError => "TypeError"
  | IndexError => "IndexError"
  | OverflowError => "OverflowError"
  | AttributeError => "AttributeError"
  | IntegrityError => "IntegrityError"
  | OSError => "OSError"
  end.

Definition option_truthy (s : option string) : bool :=
  match s with
  | Some s => Str.truthy s
  | None => false
  end.

(** [expiry_days] is the optional form field. *)
Definition upload_file (now : Z) (file : UploadFile) (expiry_days : option Z)
  : M response :=
  Server.try_except
    (do safe_filename <- get_safe_filename (filename file);
     let original_filename :=
       if option_truthy (filename file)
       then default safe_filename (filename file)
       else safe_filename in
     do storage_path <- get_unique_path (FS.join STORAGE_DIR safe_filename);
     do _ <- fs_open_wb storage_path;
     do file_size <- stream_to_disk storage_path (chunks file) 0;
     let content_type :=
       if negb (option_truthy (content_type file))
          || bool_decide (content_type file = Some "application/octet-stream")
       then
         match Server.guess_type E original_filename with
         | Some guessed =>
             if Str.truthy guessed then guessed
             else "application/octet-stream"
         | None => "application/octet-stream"
         end
       else default "" (content_type file) in
     do expires_at <-
       Server.lift
         (match expiry_days with
          | Some days =>
              if days =? 0 then Return None
              else
                match Datetime.of_instant (now + days * Datetime.US_PER_DAY) with
                | Some d => Return (Some d)
                | None => Raise OverflowError
                end
          | None => Return None
          end);
     let url_path := safe_filename in
     do file_data_id <-
       db_add_new_file url_path storage_path original_filename content_type
         file_size expires_at;
     let file_url :=
       ApiConfig.BASE_URL (Server.config E) +:+ "/file/view/" +:+ url_path in
     let download_url :=
       ApiConfig.BASE_URL (Server.config E) +:+ "/file/download/"
       +:+ url_path in
     do _ <-
       (match expires_at with
        | Some _ =>
            create_task (AutoDeleteExpiredFile None (Some file_data_id))
        | None => Server.ret tt
        end);
     Server.ret
       (JSONResponse 200
          (JObj [("success", JBool true);
                 ("file_name", JStr original_filename);
                 ("file_size", JInt file_size);
                 ("content_type", JStr content_type);
                 ("file_url", JStr file_url);
                 ("download_url", JStr download_url);
                 ("expires_at",
                  match expires_at with
                  | Some d => JStr (Datetime.isoformat "T" d)
                  | None => JNull
                  end)])))
    (fun e => negb (Server.is_HTTPException e))
    (fun e =>
       Server.raise
         (HTTPException 500 ("Error uploading file: " +:+ str_exn e))).

(** One element of [results]: the object [upload_file] returned, or
    the [{"error": ..., "file_name": ...}] dict built for a failure. *)
Inductive upload_entry : Type :=
| Uploaded (r : response)
| Failed (detail : string) (file_name : option string).

(** [upload_multiple_files]'s loop over [files]. *)
Fixpoint upload_each (now : Z) (files : list UploadFile)
    (expiry_days : option Z) (results : list upload_entry)
  : M (list upload_entry) :=
  match files with
  | [] => Server.ret results
  | file :: rest =>
      do results <-
        Server.try_except
          (do file_result <- upload_file now file expiry_days;
           Server.ret (results ++ [Uploaded file_result]))
          Server.is_HTTPException
          (fun e =>
             Server.ret
               (results ++ [Failed (str_exn e) (filename file)]));
      upload_each now rest expiry_days results
  end.

(** ["error" in r]: a key test on a dict; a response object supports
    no membership test. *)
Definition has_error_key (r : upload_entry) : result bool :=
  match r with
  | Failed _ _ => Return true
  | Uploaded _ => Raise TypeError
  end.

(** [[r for r in results if keep(r)]]. *)
Fixpoint comprehension (keep : upload_entry -> result bool)
    (results : list upload_entry) : result (list upload_entry) :=
  match results with
  | [] => Return []
  | r :: rest =>
      match keep r with
      | Raise e => Raise e
      | Return k =>
          match comprehension keep rest with
          | Raise e => Raise e
          | Return kept => Return (if k then r :: kept else kept)
          end
      end
  end.

Definition not_has_error_key (r : upload_entry) : result bool :=
  match has_error_key r with
  | Return b => Return (negb b)
  | Raise e => Raise e
  end.

(** The JSON rendering of one element of [results]. *)
Definition entry_json (r : upload_entry) : result json :=
  match r with
  | Failed detail file_name =>
      Return (JObj [("error", JStr detail);
                    ("file_name",
                     match file_name with
                     | Some n => JStr n
                     | None => JNull
                     end)])
  | Uploaded _ => Raise TypeError
  end.

Fixpoint entries_json (results : list upload_entry) : result (list json) :=
  match results with
  | [] => Return []
  | r :: rest =>
      match entry_json r, entries_json rest with
      | Return j, Return js => Return (j :: js)
      | Raise e, _ => Raise e
      | _, Raise e => Raise e
      end
  end.

Definition upload_multiple_files (now : Z) (files : list UploadFile)
    (expiry_days : option Z) : M response :=
  match files with
  | [] => Server.raise (HTTPException 400 "No files provided")
  | _ =>
      do results <- upload_each now files expiry_days [];
      do uploaded <- Server.lift (comprehension not_has_error_key results);
      do failed <- Server.lift (comprehension has_error_key results);
      do rendered <- Server.lift (entries_json results);
      Server.ret
        (JSONResponse 200
           (JObj [("success", JBool true);
                  ("uploaded_count", JInt (Z.of_nat (length uploaded)));
                  ("failed_count", JInt (Z.of_nat (length failed)));
                  ("files", JArr rendered)]))
  end.

(** *** The detached tasks *)

(** [auto_delete_expired_file_task], run to its end: the task sleeps
    until the expiry instant and then removes the stored bytes. *)
Definition auto_delete_expired_file_task (file_data : option FilesTable.row)
    (data_id : option Z) : M unit :=
  let has_id :=
    match data_id with
    | Some i => negb (i =? 0)
    | None => false
    end in
  if negb (bool_decide (is_Some file_data)) && negb has_id then Server.ret tt
  else
    do file_data <-
      (if has_id
       then fun w =>
              (Return (FilesTable.get_file_by_id (default 0 data_id)
                         (Server.db w)), w)
       else Server.ret file_data);
    match file_data with
    | None => Server.ret tt
    | Some file_data =>
        match FilesTable.expires_at file_data with
        | Some text =>
            if negb (Str.truthy text) then Server.ret tt
            else
              do expires_at <-
                Server.lift (Functions.fetch_date (Server.host E) text);
              match expires_at with
              | None => Server.raise TypeError
              | Some _ =>
                  Server.try_except
                    (os_remove (FilesTable.storage_path file_data))
                    Server.is_Exception
                    (fun _ => Server.ret tt)
              end
        | None => Server.ret tt
        end
    end.

Definition db_update_file_access (now : Z) (file_path : string) : M unit :=
  Server.modify
    (fun w =>
       Server.set_db
         (FilesTable.update_file_access now file_path (Server.db w)) w).

(** One detached task, run at time [now]. *)
Definition run_task (now : Z) (t : task) : M unit :=
  match t with
  | UpdateFileAccess file_path => db_update_file_access now file_path
  | AutoDeleteExpiredFile file_data data_id =>
      auto_delete_expired_file_task file_data data_id
  end.

(** The event loop runs the pending tasks in the order of their
    creation; a task's exception stays inside the task. *)
Fixpoint run_all (now : Z) (ts : list task) (w : Server.world B)
  : Server.world B :=
  match ts with
  | [] => w
  | t :: ts' => run_all now ts' (snd (run_task now t w))
  end.

Definition run_pending (now : Z) (w : Server.world B) : Server.world B :=
  run_all now (Server.tasks w) (Server.set_tasks [] w).

(** [startup_event]: one deletion task per row that has an expiry. *)
Definition startup_event : M unit :=
  fun w =>
    let all_files :=
      FilesTable.get_file_they_have_expired_at_not_null (Server.db w) in
    (Return tt,
     Server.set_tasks
       (Server.tasks w
        ++ List.map (fun file_data => AutoDeleteExpiredFile (Some file_data) None)
             all_files)
       w).

End WithEnv.

End Routes.

(** ** The routes with their dependencies, and main.py's error pages *)

Module App.

(** What a dependency reads from the request. *)
Record request : Type := mk_request {
  client_host : string;
  authorization : option string
}.

(** The limiter each route module creates when it is imported. *)
Definition file_rate_limiter : RateLimiter.t := RateLimiter.__init__ 200 5.
Definition upload_rate_limiter : RateLimiter.t := RateLimiter.__init__ 10 10.
Definition delete_rate_limiter : RateLimiter.t := RateLimiter.__init__ 20 5.
Definition compression_rate_limiter : RateLimiter.t := RateLimiter.__init__ 20 5.

Section WithEnv.
Context {B : Type} `{Bytes B}.
Variable E : Server.env B.

(** A route declared with [dependencies=[Depends(rate_limiter)]], and with
    [Depends(authorize_admin)] behind it when [admin] is set: the
    dependencies run in that order and the handler runs only if none of
    them raises. *)
Definition route {A : Type} (admin : bool) (handler : Server.M A)
    (req : request) (now : Z) (rl : RateLimiter.t) (w : Server.world B)
  : result A * RateLimiter.t * Server.world B :=
  match RateLimiter.__call__ rl (client_host req) now with
  | (Raise e, rl') => (Raise e, rl', w)
  | (Return _, rl') =>
      match (if admin
             then Functions.authorize_admin (Server.config E) (authorization req)
             else Return true) with
      | Raise e => (Raise e, rl', w)
      | Return _ => let '(r, w') := handler w in (r, rl', w')
      end
  end.

(** [GET /file/view/{file_path}] and [GET /file/download/{file_path}]. *)
Definition get_view (file_path : string) (req : request) (now : Z) :=
  route false (Routes.view_file E now file_path) req now.
Definition get_download (file_path : string) (req : request) (now : Z) :=
  route false (Routes.download_file E now file_path) req now.

(** [POST /api/upload] and [POST /api/upload/multiple]. *)
Definition post_upload (file : Routes.UploadFile) (expiry_days : option Z)
    (req : request) (now : Z) :=
  route true (Routes.upload_file E now file expiry_days) req now.
Definition post_upload_multiple (files : list Routes.UploadFile)
    (expiry_days : option Z) (req : request) (now : Z) :=
  route false (Routes.upload_multiple_files E now files expiry_days) req now.

(** [DELETE /api/delete/{file_path}]. *)
Definition delete_delete (file_path : string) (req : request) (now : Z) :=
  route true (Routes.delete_file E now file_path) req now.

(** [POST /api/compress/{file_path}]. *)
Definition post_compress (file_path : string) (body : option json)
    (req : request) (now : Z) :=
  route true (Routes.compress_file E now file_path body) req now.

(** The limiters are module-level objects: the two routes of
    routes/file.py use the one created there, the two of
    routes/upload.py the one created there. *)
Record limiters : Type := mk_limiters {
  file_limiter : RateLimiter.t;
  upload_limiter : RateLimiter.t;
  delete_limiter : RateLimiter.t;
  compression_limiter : RateLimiter.t
}.

(** The limiters once the route modules are imported. *)
Definition boot : limiters :=
  mk_limiters file_rate_limiter upload_rate_limiter delete_rate_limiter
    compression_rate_limiter.

Inductive endpoint : Type :=
| View (file_path : string)
| Download (file_path : string)
| Upload (file : Routes.UploadFile (B := B)) (expiry_days : option Z)
| UploadMultiple (files : list (Routes.UploadFile (B := B)))
    (expiry_days : option Z)
| Delete (file_path : string)
| Compress (file_path : string) (body : option json).

(** One request to the application. *)
Definition dispatch (ep : endpoint) (req : request) (now : Z) (ls : limiters)
    (w : Server.world B) : result response * limiters * Server.world B :=
  match ep with
  | View file_path =>
      let '(r, rl, w') := get_view file_path req now (file_limiter ls) w in
      (r, mk_limiters rl (upload_limiter ls) (delete_limiter ls)
            (compression_limiter ls), w')
  | Download file_path =>
      let '(r, rl, w') := get_download file_path req now (file_limiter ls) w in
      (r, mk_limiters rl (upload_limiter ls) (delete_limiter ls)
            (compression_limiter ls), w')
  | Upload file expiry_days =>
      let '(r, rl, w') :=
        post_upload file expiry_days req now (upload_limiter ls) w in
      (r, mk_limiters (file_limiter ls) rl (delete_limiter ls)
            (compression_limiter ls), w')
  | UploadMultiple files expiry_days =>
      let '(r, rl, w') :=
        post_upload_multiple files expiry_days req now (upload_limiter ls) w in
      (r, mk_limiters (file_limiter ls) rl (delete_limiter ls)
            (compression_limiter ls), w')
  | Delete file_path =>
      let '(r, rl, w') := delete_delete file_path req now (delete_limiter ls) w in
      (r, mk_limiters (file_limiter ls) (upload_limiter ls) rl
            (compression_limiter ls), w')
  | Compress file_path body =>
      let '(r, rl, w') :=
        post_compress file_path body req now (compression_limiter ls) w in
      (r, mk_limiters (file_limiter ls) (upload_limiter ls) (delete_limiter ls)
            rl, w')
  end.


End WithEnv.

(** What main.py's exception handlers send. *)
Inductive error_page : Type :=
| JSONError (status_code : Z) (content : json)
| TemplateError (name : string) (message : string) (status_code : Z).

Definition is_api (path : string) : bool := String.prefix "/api" path.

(** [route_not_found_handler], registered for 404. *)
Definition route_not_found_handler (path : string) : error_page :=
  if is_api path
  then JSONError 404 (JObj [("error", JStr "Route not found")])
  else TemplateError "/errors/404.html" "Route not found" 404.

(** [rate_limit_handler], registered for 429. *)
Definition rate_limit_handler (path : string) : error_page :=
  if is_api path
  then JSONError 429 (JObj [("error", JStr "Too many requests")])
  else TemplateError "/errors/429.html" "Too many requests" 429.

(** [http_exception_handler], registered for 500, on an [HTTPException]. *)
Definition http_exception_handler (path : string) (status_code : Z)
    (detail : string) : error_page :=
  if is_api path
  then JSONError status_code (JObj [("error", JStr detail)])
  else TemplateError "/errors/500.html" detail status_code.

(** [file_expired_handler], registered for 410. *)
Definition file_expired_handler (path : string) : error_page :=
  if is_api path
  then JSONError 410 (JObj [("error", JStr "File has expired")])
  else TemplateError "/errors/410.html" "File has expired" 410.

End App.

(** ** A concrete deployment

    Byte strings known by their length only, a host whose local time is
    UTC (and one whose local time is UTC+6), and a server holding one
    stored file.  The scenarios of the theorems below run on these. *)

Module Scenario.

#[global] Instance sized_bytes : Bytes N := {|
  len := Z.of_N;
  bytes_empty := 0%N;
  bytes_concat := N.add;
  len_nonneg := N2Z.is_nonneg;
  len_empty := eq_refl;
  len_concat := N2Z.inj_add;
  concat_empty := N.add_0_l
|}.

Definition utc_host : Functions.host :=
  Functions.mk_host (fun _ => 0) (fun _ => None).

(** A host six hours east of UTC. *)
Definition dhaka_host : Functions.host :=
  Functions.mk_host (fun _ => 6 * 3600 * Datetime.US_PER_SECOND) (fun _ => None).

(** The image library halves every image it is given, and the file
    system refuses a path of more than 255 characters. *)
Definition E : Server.env N :=
  Server.mk_env utc_host (ApiConfig.load None None)
    (fun _ => None)
    (fun n => "id" +:+ pretty (N.of_nat n))
    (fun input _ _ _ _ => Some (input / 2)%N)
    Datetime.int_digits
    0
    (fun path =>
       if (255 <? String.length path)%nat then Some FS.NameTooLong else None).

(** 2025-05-11 12:56:56 UTC. *)
Definition noon : Z := 1746968216 * Datetime.US_PER_SECOND.

Definition photo : FilesTable.row :=
  FilesTable.mk_row 1 "photo.jpg" "storage/photo.jpg" "holiday.jpg"
    "image/jpeg" 2048 0 None None "2025-05-01 08:00:00+00:00".

(** A row whose expiry is the instant [noon]. *)
Definition stale : FilesTable.row :=
  FilesTable.mk_row 2 "stale.bin" "storage/stale.bin" "old.bin"
    "application/octet-stream" 10 0 None
    (Some "2025-05-11 12:56:56+00:00") "2025-05-01 08:00:00+00:00".

(** A row whose bytes are gone from the disk. *)
Definition orphan : FilesTable.row :=
  FilesTable.mk_row 3 "orphan.bin" "storage/orphan.bin" "lost.bin"
    "application/octet-stream" 10 0 None None "2025-05-01 08:00:00+00:00".

(** A row whose storage path is a directory, which cannot be removed
    as a file. *)
Definition folder : FilesTable.row :=
  FilesTable.mk_row 4 "folder.bin" "storage/folder" "folder.bin"
    "application/octet-stream" 10 0 None None "2025-05-01 08:00:00+00:00".

Definition w0 : Server.world N :=
  Server.mk_world
    (FilesTable.mk [photo; stale; orphan; folder] 4)
    (<["storage/photo.jpg" := FS.File 2048%N]>
       (<["storage/stale.bin" := FS.File 10%N]>
          (<["storage/folder" := FS.Dir]> ∅)))
    [] 0 [].

Definition MiB : N := (1024 * 1024)%N.

(** An upload of 5 GiB and one byte, read in chunks of 1 MiB. *)
Definition oversized : Routes.UploadFile :=
  Routes.mk_upload (Some "movie.mkv") (Some "video/x-matroska")
    (repeat MiB (5 * 1024) ++ [1%N]).

Definition small : Routes.UploadFile :=
  Routes.mk_upload (Some "notes.txt") (Some "text/plain") [12%N].

(** An upload whose file name has an extension of 300 characters. *)
Definition long_extension : Routes.UploadFile :=
  Routes.mk_upload
    (Some ("notes." +:+ string_of_list_ascii (repeat "x"%char 300)))
    (Some "text/plain") [12%N].

End Scenario.

(** ** Notions used in the statements *)

Module Notions.

(** The two lines the compression task can log about a stored image. *)
Definition compressed_ok (path : string) : level * string :=
  (SUCCESS, "Successfully compressed image " +:+ path).
Definition compressed_failed (path : string) : level * string :=
  (ERROR, "Error compressing image " +:+ path).

(** The 500 body of the compress handler. *)
Definition error_compressing : response :=
  JSONResponse 500 (JObj [("message", JStr "Error compressing file")]).

(** Bytes received in all: the sum of the chunk sizes. *)
Definition received {B : Type} `{Bytes B} (chunks : list B) : Z :=
  fold_right Z.add 0 (List.map len chunks).

(** Entries of [results] that are the object [upload_file] returned. *)
Definition is_uploaded (r : Routes.upload_entry) : bool :=
  match r with
  | Routes.Uploaded _ => true
  | Routes.Failed _ _ => false
  end.

(** The times at which the requests of a run were let through. *)
Fixpoint allowed_times (clock : list Z) (results : list (result unit))
  : list Z :=
  match clock, results with
  | now :: clock', Return _ :: results' => now :: allowed_times clock' results'
  | _ :: clock', Raise _ :: results' => allowed_times clock' results'
  | _, _ => []
  end.

(** A table as the engine keeps it: unique paths, unique ids, and no id
    above the [AUTOINCREMENT] sequence. *)
Definition table_ok (tbl : FilesTable.t) : Prop :=
  NoDup (List.map FilesTable.file_path (FilesTable.rows tbl))
  /\ NoDup (List.map FilesTable.id (FilesTable.rows tbl))
  /\ Forall (fun r => FilesTable.id r <= FilesTable.sequence tbl)
       (FilesTable.rows tbl).

(** [response.headers.get(name)] on a file or streaming response. *)
Definition header (name : string) (r : response) : option string :=
  match r with
  | JSONResponse _ _ => None
  | FileResponse _ _ hs | StreamingResponse _ _ _ hs =>
      snd <$> List.find (fun kv => String.eqb (fst kv) name) hs
  end.

(** The file a file or streaming response reads. *)
Definition served_path (r : response) : option string :=
  match r with
  | JSONResponse _ _ => None
  | FileResponse path _ _ | StreamingResponse path _ _ _ => Some path
  end.

(** The expiry instant an upload at [now] asks for: [expiry_days] days
    later, none when the field is absent or 0. *)
Definition expiry_instant (now : Z) (expiry_days : option Z) : option Z :=
  match expiry_days with
  | Some days => if days =? 0 then None else Some (now + days * Datetime.US_PER_DAY)
  | None => None
  end.

(** [file.filename or safe_filename]. *)
Definition original_name (filename : option string) (safe_filename : string)
  : string :=
  match filename with
  | Some name => if Str.truthy name then name else safe_filename
  | None => safe_filename
  end.

(** The path [upload_file] stores an upload under: the free path
    [get_unique_path] picks for the safe name. *)
Definition upload_path {B : Type} `{Bytes B} (E : Server.env B)
    (file : Routes.UploadFile (B := B)) (w : Server.world B) : string :=
  match Routes.get_safe_filename E (Routes.filename file) w with
  | (Return safe_filename, w1) =>
      match Routes.get_unique_path
              (FS.join Routes.STORAGE_DIR safe_filename) w1 with
      | (Return storage_path, _) => storage_path
      | (Raise _, _) => ""
      end
  | (Raise _, _) => ""
  end.

(** The row a deletion task works on: the one looked up by [data_id]
    when an id is given, the one it was handed otherwise. *)
Definition task_row (file_data : option FilesTable.row) (data_id : option Z)
    (tbl : FilesTable.t) : option FilesTable.row :=
  match data_id with
  | Some i => if i =? 0 then file_data else FilesTable.get_file_by_id i tbl
  | None => file_data
  end.

(** The tasks of a world are deletion tasks for rows of its table that
    carry an expiry. *)
Definition deletion_of (tbl : FilesTable.t) (t : task) : Prop :=
  exists row, t = AutoDeleteExpiredFile (Some row) None
              /\ In row (FilesTable.rows tbl)
              /\ is_Some (FilesTable.expires_at row).





End Notions.

Import Notions.

(** * Properties *)

(** ** The rate limiter *)

Section RateLimiterFacts.

Import RateLimiter.

Lemma filter_all_kept (cutoff : Z) (q : list Z) :
  Forall (fun t => cutoff < t) q ->
  List.filter (fun t => cutoff <? t) q = q.
Proof.
  induction 1 as [|t q Ht _ IH]; simpl; [reflexivity|].
  rewrite IH. destruct (Z.ltb_spec cutoff t); [reflexivity | lia].
Qed.

(** On a queue in arrival order, popping expired heads removes exactly
    the timestamps outside the window. *)
Lemma drop_expired_filter (cutoff : Z) (q : list Z) :
  StronglySorted Z.le q ->
  drop_expired cutoff q = List.filter (fun t => cutoff <? t) q.
Proof.
  induction 1 as [|t q Hq IH Ht]; simpl; [reflexivity|].
  destruct (Z.leb_spec t cutoff) as [Hle|Hgt].
  - destruct (Z.ltb_spec cutoff t); [lia | exact IH].
  - destruct (Z.ltb_spec cutoff t); [|lia].
    f_equal. symmetry. apply filter_all_kept.
    eapply Forall_impl; [exact Ht|]. simpl. intros; lia.
Qed.

(** Below its capacity the bounded deque appends without dropping. *)
Lemma deque_append_room (maxlen : nat) (q : list Z) (x : Z) :
  (length q < maxlen)%nat -> deque_append maxlen q x = q ++ [x].
Proof.
  intros Hlen. unfold deque_append.
  replace (length (q ++ [x]) - maxlen)%nat with 0%nat; [reflexivity|].
  rewrite length_app. simpl. lia.
Qed.

Lemma queue_of_insert (rl : t) (ip : string) (q : list Z) :
  queue_of (mk (times rl) (seconds rl) (<[ip := q]> (requests rl))) ip = q.
Proof. unfold queue_of. simpl. by rewrite lookup_insert_eq. Qed.

(** Requests of other clients do not touch a client's queue. *)
Lemma call_other_client (rl : t) (ip ip' : string) (now : Z) :
  ip <> ip' -> queue_of (snd (__call__ rl ip now)) ip' = queue_of rl ip'.
Proof.
  intros Hne. unfold __call__, queue_of.
  destruct (_ <=? _)%nat; simpl; by rewrite lookup_insert_ne.
Qed.

(** With a clock that does not run backwards the queue stays in arrival
    order and never holds a timestamp of the future. *)
Lemma call_keeps_order (rl : t) (ip : string) (now : Z) :
  StronglySorted Z.le (queue_of rl ip) ->
  Forall (fun t => t <= now) (queue_of rl ip) ->
  StronglySorted Z.le (queue_of (snd (__call__ rl ip now)) ip)
  /\ Forall (fun t => t <= now) (queue_of (snd (__call__ rl ip now)) ip).
Proof.
  intros Hs Hb.
  assert (Hd : forall c q, StronglySorted Z.le q -> Forall (fun t => t <= now) q ->
               StronglySorted Z.le (drop_expired c q)
               /\ Forall (fun t => t <= now) (drop_expired c q)).
  { intros c q Hq. induction Hq as [|t q Hq IH Ht]; intros Hn; simpl.
    - split; constructor.
    - inversion Hn; subst. destruct (t <=? c).
      + by apply IH.
      + split; [by constructor | by constructor]. }
  destruct (Hd (now - seconds rl * TICKS_PER_SECOND) _ Hs Hb) as [Hs' Hb'].
  unfold __call__.
  destruct (_ <=? _)%nat eqn:Hfull; simpl; rewrite queue_of_insert.
  - by split.
  - apply Nat.leb_gt in Hfull. rewrite deque_append_room by exact Hfull. split.
    + clear Hfull. induction Hs' as [|t q Hq IH Ht]; simpl.
      * repeat constructor.
      * inversion Hb'; subst. constructor.
        -- by apply IH.
        -- apply Forall_app. split; [exact Ht | by repeat constructor].
    + apply Forall_app. split; [exact Hb' | repeat constructor; lia].
Qed.

(** A client served at non-decreasing times keeps a queue in arrival
    order. *)
Lemma run_keeps_order (rl : t) (ip : string) (clock : list Z) :
  StronglySorted Z.le clock ->
  StronglySorted Z.le (queue_of rl ip) ->
  Forall (fun now => Forall (fun t => t <= now) (queue_of rl ip)) clock ->
  StronglySorted Z.le (queue_of (snd (run rl ip clock)) ip).
Proof.
  intros Hclock. revert rl.
  induction Hclock as [|now clock Hclock IH Hlater]; intros rl Hs Hb.
  - exact Hs.
  - cbn [run].
    destruct (__call__ rl ip now) as [r rl'] eqn:Hcall.
    destruct (run rl' ip clock) as [rs rl''] eqn:Hrun.
    cbn [snd].
    inversion Hb as [|? ? Hnow Hrest]; subst.
    destruct (call_keeps_order rl ip now Hs Hnow) as [Hs' Hb'].
    rewrite Hcall in Hs', Hb'. cbn [snd] in Hs', Hb'.
    specialize (IH rl' Hs'). rewrite Hrun in IH. apply IH.
    eapply Forall_impl; [exact Hlater|].
    intros later Hle. cbn in Hle.
    eapply Forall_impl; [exact Hb'|]. cbn. intros; lia.
Qed.

End RateLimiterFacts.

(** C6.  One invocation of the limiter for a client whose queue is in
    arrival order: the timestamps outside the trailing window of
    [seconds] are dropped; if [times] timestamps remain the request fails
    with 429 (the pruned queue is kept), otherwise the current timestamp
    is appended and the request passes.  For [times = 3], [seconds = 5]:
    the fourth request within five seconds of the first fails, and a
    request issued once five seconds have passed since the first
    succeeds. *)
Theorem rate_limiter_sliding_window :
  (forall (rl : RateLimiter.t) (client_ip : string) (now : Z),
      Sorted Z.le (RateLimiter.queue_of rl client_ip) ->
      let kept :=
        List.filter
          (fun t => now - RateLimiter.seconds rl * RateLimiter.TICKS_PER_SECOND <? t)
          (RateLimiter.queue_of rl client_ip) in
      RateLimiter.__call__ rl client_ip now =
        if (RateLimiter.times rl <=? length kept)%nat
        then (Raise (HTTPException 429 "Too many requests"),
              RateLimiter.mk (RateLimiter.times rl) (RateLimiter.seconds rl)
                (<[client_ip := kept]> (RateLimiter.requests rl)))
        else (Return tt,
              RateLimiter.mk (RateLimiter.times rl) (RateLimiter.seconds rl)
                (<[client_ip := kept ++ [now]]> (RateLimiter.requests rl))))
  /\ (forall (client_ip : string) (t1 t2 t3 t4 : Z),
         t1 <= t2 -> t2 <= t3 -> t3 <= t4 ->
         t4 < t1 + 5 * RateLimiter.TICKS_PER_SECOND ->
         fst (RateLimiter.run (RateLimiter.__init__ 3 5) client_ip [t1; t2; t3; t4])
         = [Return tt; Return tt; Return tt;
            Raise (HTTPException 429 "Too many requests")])
  /\ (forall (client_ip : string) (t1 t2 t3 t4 t5 : Z),
         t1 <= t2 -> t2 <= t3 -> t3 <= t4 ->
         t4 < t1 + 5 * RateLimiter.TICKS_PER_SECOND ->
         t4 <= t5 -> t1 + 5 * RateLimiter.TICKS_PER_SECOND <= t5 ->
         fst (RateLimiter.run (RateLimiter.__init__ 3 5) client_ip
                [t1; t2; t3; t4; t5])
         = [Return tt; Return tt; Return tt;
            Raise (HTTPException 429 "Too many requests"); Return tt]).
Proof.
  split; [|split].
  - intros rl ip now Hsorted kept. subst kept.
    apply Sorted_StronglySorted in Hsorted; [|intros x y z; lia].
    unfold RateLimiter.__call__.
    rewrite (drop_expired_filter _ _ Hsorted).
    destruct (_ <=? _)%nat eqn:Hfull; [reflexivity|].
    apply Nat.leb_gt in Hfull.
    by rewrite deque_append_room.
  - intros ip t1 t2 t3 t4 H12 H23 H34 Hwin.
    unfold RateLimiter.TICKS_PER_SECOND in *.
    unfold RateLimiter.run, RateLimiter.__call__, RateLimiter.__init__,
      RateLimiter.queue_of, RateLimiter.TICKS_PER_SECOND; simpl.
    rewrite lookup_empty; simpl.
    rewrite lookup_insert_eq; simpl.
    destruct (Z.leb_spec t1 (t2 - 5 * 1000000)); [lia|]. simpl.
    rewrite lookup_insert_eq; simpl.
    destruct (Z.leb_spec t1 (t3 - 5 * 1000000)); [lia|]. simpl.
    rewrite lookup_insert_eq; simpl.
    destruct (Z.leb_spec t1 (t4 - 5 * 1000000)); [lia|]. simpl.
    reflexivity.
  - intros ip t1 t2 t3 t4 t5 H12 H23 H34 Hwin H45 Hout.
    unfold RateLimiter.TICKS_PER_SECOND in *.
    unfold RateLimiter.run, RateLimiter.__call__, RateLimiter.__init__,
      RateLimiter.queue_of, RateLimiter.TICKS_PER_SECOND; simpl.
    rewrite lookup_empty; simpl.
    rewrite lookup_insert_eq; simpl.
    destruct (Z.leb_spec t1 (t2 - 5 * 1000000)); [lia|]. simpl.
    rewrite lookup_insert_eq; simpl.
    destruct (Z.leb_spec t1 (t3 - 5 * 1000000)); [lia|]. simpl.
    rewrite lookup_insert_eq; simpl.
    destruct (Z.leb_spec t1 (t4 - 5 * 1000000)); [lia|]. simpl.
    rewrite lookup_insert_eq; simpl.
    destruct (Z.leb_spec t1 (t5 - 5 * 1000000)); [|lia]. simpl.
    destruct (Z.leb_spec t2 (t5 - 5 * 1000000)); simpl;
      [destruct (Z.leb_spec t3 (t5 - 5 * 1000000)); simpl|]; reflexivity.
Qed.

Lemma rate_limiter_sliding_window_witness :
  RateLimiter.__call__
    (RateLimiter.mk 3 5 {["10.0.0.7" := [0; 1000000; 6000000]]})
    "10.0.0.7" 6500000
  = (Return tt,
     RateLimiter.mk 3 5 {["10.0.0.7" := [6000000; 6500000]]})
  /\ fst (RateLimiter.run (RateLimiter.__init__ 3 5) "10.0.0.7"
            [0; 1000000; 2000000; 4999999])
     = [Return tt; Return tt; Return tt;
        Raise (HTTPException 429 "Too many requests")]
  /\ fst (RateLimiter.run (RateLimiter.__init__ 3 5) "10.0.0.7"
            [0; 1000000; 2000000; 4999999; 5000000])
     = [Return tt; Return tt; Return tt;
        Raise (HTTPException 429 "Too many requests"); Return tt].
Proof.
  destruct rate_limiter_sliding_window as (Hstep & Hfourth & Hafter).
  split; [|split].
  - rewrite Hstep.
    + vm_compute. reflexivity.
    + vm_compute. repeat constructor; discriminate.
  - apply Hfourth; unfold RateLimiter.TICKS_PER_SECOND; lia.
  - apply Hafter; unfold RateLimiter.TICKS_PER_SECOND; lia.
Defined.

(** ** The authorization guard *)

Section AuthorizationFacts.

Variable config : ApiConfig.t.

Lemma authorize_admin_no_header :
  Functions.authorize_admin config None = Raise (HTTPException 401 "Unauthorized").
Proof. reflexivity. Qed.

(** A header without the word [Bearer] is the token itself. *)
Lemma authorize_admin_raw (authorization : string) :
  authorization <> "" ->
  Str.contains "Bearer" authorization = false ->
  Functions.authorize_admin config (Some authorization)
  = if String.eqb authorization (ApiConfig.MASTER_KEY config)
    then Return true
    else Raise (HTTPException 403 "Forbidden").
Proof.
  intros Hne Hraw. unfold Functions.authorize_admin.
  destruct authorization as [|c s]; [congruence|]. simpl Str.truthy. simpl negb.
  cbv iota. rewrite Hraw. by destruct (String.eqb _ _).
Qed.

Lemma split_no_space (token : string) :
  Str.contains " " token = false -> Str.split " " token = [token].
Proof.
  induction token as [|c s IH]; [reflexivity|].
  simpl. intros Hc. apply orb_false_iff in Hc as [Hhead Htail].
  destruct (Ascii.eqb_spec c " ") as [->|Hne].
  - exfalso. revert Hhead. unfold String.prefix.
    destruct (ascii_dec " " " "); [|congruence]. by destruct s.
  - by rewrite IH.
Qed.

(** [Bearer <token>]: the token is what follows the space. *)
Lemma authorize_admin_bearer (token : string) :
  Str.contains " " token = false ->
  Functions.authorize_admin config (Some ("Bearer " +:+ token))
  = if String.eqb token (ApiConfig.MASTER_KEY config)
    then Return true
    else Raise (HTTPException 403 "Forbidden").
Proof.
  intros Hsp. unfold Functions.authorize_admin.
  change (Str.truthy ("Bearer " +:+ token)) with true.
  assert (Hb : Str.contains "Bearer" ("Bearer " +:+ token) = true)
    by (simpl; destruct token; reflexivity).
  simpl negb. cbv iota. rewrite Hb.
  change (Str.split " " ("Bearer " +:+ token))
    with ("Bearer" :: Str.split " " token).
  rewrite (split_no_space _ Hsp). simpl.
  by destruct (String.eqb _ _).
Qed.

(** A header with the word [Bearer] and no space has nothing at index 1. *)
Lemma authorize_admin_bearer_no_space (authorization : string) :
  Str.contains "Bearer" authorization = true ->
  Str.contains " " authorization = false ->
  Functions.authorize_admin config (Some authorization) = Raise IndexError.
Proof.
  intros Hb Hsp. unfold Functions.authorize_admin.
  destruct authorization as [|c s]; [discriminate|].
  cbn [Str.truthy negb]. rewrite Hb, (split_no_space _ Hsp). reflexivity.
Qed.

End AuthorizationFacts.

(** C7.  A header that contains the word [Bearer] but no space has no
    second piece: [authorization.split(" ")[1]] raises [IndexError], which
    is neither of the guard's two HTTP failures nor a success; the client
    gets the framework's 500. *)
Theorem authorize_admin_bearer_without_token (config : ApiConfig.t) :
  Functions.authorize_admin config (Some "Bearer") = Raise IndexError
  /\ status_of_exn IndexError = 500.
Proof. split; reflexivity. Qed.

(** ** Date parsing *)

(** C8 (as amended).  [fetch_date] maps
    ["2025-05-11 12:56:56.785356+00:00"] to the UTC instant 2025-05-11
    12:56:56.785356 on every host.  The string ["2025-05-11 12:56:56"]
    carries no offset and is read as local time of the host: the result is
    the UTC value of that local reading, and it is 2025-05-11 12:56:56 UTC
    (microsecond 0) when the host's offset from UTC is zero. *)
Theorem fetch_date_examples (h : Functions.host) :
  Functions.fetch_date h "2025-05-11 12:56:56.785356+00:00"
  = Return (Some (Datetime.mk 2025 5 11 12 56 56 785356 (Some 0)))
  /\ Functions.fetch_date h "2025-05-11 12:56:56"
     = Return (Datetime.of_instant
                 (Scenario.noon - Functions.local_utcoffset h Scenario.noon))
  /\ (Functions.local_utcoffset h Scenario.noon = 0 ->
      Functions.fetch_date h "2025-05-11 12:56:56"
      = Return (Some (Datetime.mk 2025 5 11 12 56 56 0 (Some 0)))).
Proof.
  assert (Haware :
    Datetime.fromisoformat "2025-05-11 12:56:56.785356+00:00"
    = Some (Datetime.mk 2025 5 11 12 56 56 785356 (Some 0)))
    by (vm_compute; reflexivity).
  assert (Hnaive :
    Datetime.fromisoformat "2025-05-11 12:56:56"
    = Some (Datetime.mk 2025 5 11 12 56 56 0 None))
    by (vm_compute; reflexivity).
  assert (Hwall : Datetime.wall (Datetime.mk 2025 5 11 12 56 56 0 None)
                  = Scenario.noon) by (vm_compute; reflexivity).
  assert (Hlocal :
    Functions.fetch_date h "2025-05-11 12:56:56"
    = Return (Datetime.of_instant
                (Scenario.noon - Functions.local_utcoffset h Scenario.noon))).
  { unfold Functions.fetch_date. rewrite Hnaive.
    unfold Datetime.astimezone_utc. cbn [Datetime.tzinfo]. rewrite Hwall.
    by destruct (Datetime.of_instant _). }
  split; [|split].
  - unfold Functions.fetch_date. rewrite Haware. vm_compute. reflexivity.
  - exact Hlocal.
  - intros Hzero. rewrite Hlocal, Hzero. vm_compute. reflexivity.
Qed.

Lemma fetch_date_examples_witness :
  Functions.local_utcoffset Scenario.utc_host Scenario.noon = 0
  /\ Functions.fetch_date Scenario.utc_host "2025-05-11 12:56:56"
     = Return (Some (Datetime.mk 2025 5 11 12 56 56 0 (Some 0))).
Proof.
  split; [reflexivity|].
  apply (fetch_date_examples Scenario.utc_host). reflexivity.
Defined.

(** C8 as stated fails on a host whose local time is not UTC: six hours
    east of UTC the string without offset denotes 06:56:56 UTC. *)
Lemma fetch_date_naive_string_is_local_time :
  Functions.fetch_date Scenario.dhaka_host "2025-05-11 12:56:56"
  = Return (Some (Datetime.mk 2025 5 11 6 56 56 0 (Some 0)))
  /\ Functions.fetch_date Scenario.dhaka_host "2025-05-11 12:56:56"
     <> Return (Some (Datetime.mk 2025 5 11 12 56 56 0 (Some 0))).
Proof.
  split; [vm_compute; reflexivity|].
  vm_compute. discriminate.
Qed.

(** ** The files table *)

Section FilesTableFacts.

Import FilesTable.

Lemma touch_keeps_path (now : Z) (p : string) (r : row) :
  has_path p (touch now r) = has_path p r.
Proof. reflexivity. Qed.

(** After the access update the row found under [p] is the touched one. *)
Lemma select_update_access (now : Z) (p : string) (tbl : t) :
  select_by_path p (update_access now p tbl)
  = touch now <$> select_by_path p tbl.
Proof.
  unfold select_by_path, update_access. simpl.
  induction (rows tbl) as [|r rs IH]; [reflexivity|].
  simpl. destruct (has_path p r) eqn:Hr.
  - by rewrite touch_keeps_path, Hr.
  - by rewrite Hr.
Qed.

(** Rows under other paths are left alone. *)
Lemma select_update_access_ne (now : Z) (p q : string) (tbl : t) :
  p <> q ->
  select_by_path q (update_access now p tbl) = select_by_path q tbl.
Proof.
  intros Hne. unfold select_by_path, update_access. simpl.
  induction (rows tbl) as [|r rs IH]; [reflexivity|].
  simpl. destruct (has_path p r) eqn:Hp.
  - rewrite touch_keeps_path.
    assert (Hq : has_path q r = false).
    { unfold has_path in *. apply String.eqb_eq in Hp.
      apply String.eqb_neq. congruence. }
    by rewrite Hq.
  - destruct (has_path q r); [reflexivity | exact IH].
Qed.

Lemma get_file_hit (now : Z) (p : string) (tbl : t) (r : row) :
  select_by_path p tbl = Some r ->
  get_file now p tbl = (Some r, update_access now p tbl).
Proof. intros Hsel. unfold get_file. by rewrite Hsel. Qed.

Lemma get_file_miss (now : Z) (p : string) (tbl : t) :
  select_by_path p tbl = None -> get_file now p tbl = (None, tbl).
Proof. intros Hsel. unfold get_file. by rewrite Hsel. Qed.

Lemma select_delete_file (p : string) (tbl : t) :
  select_by_path p (snd (delete_file p tbl)) = None.
Proof.
  unfold select_by_path, delete_file. simpl.
  induction (rows tbl) as [|r rs IH]; [reflexivity|].
  simpl. destruct (has_path p r) eqn:Hr; simpl; [exact IH|].
  by rewrite Hr.
Qed.

Lemma touch_access_count (now : Z) (r : row) :
  access_count (touch now r) = access_count r + 1.
Proof. reflexivity. Qed.

Lemma touch_last_accessed (now : Z) (r : row) :
  last_accessed (touch now r) = Some (CURRENT_TIMESTAMP now).
Proof. reflexivity. Qed.

End FilesTableFacts.

(** ** The expiry test *)

Section ExpiryFacts.
Context {B : Type} `{Bytes B}.
Variable E : Server.env B.

(** An expiry that parses to an instant before [now] has passed. *)
Lemma is_expired_past (now : Z) (r : FilesTable.row) (text : string)
    (d : Datetime.datetime) (t : Z) :
  FilesTable.expires_at r = Some text ->
  text <> "" ->
  Functions.fetch_date (Server.host E) text = Return (Some d) ->
  Datetime.timestamp d = Some t ->
  t < now ->
  Routes.is_expired E now r = Return true.
Proof.
  intros Hexp Hne Hparse Hts Hlt. unfold Routes.is_expired.
  rewrite Hexp. destruct text as [|c s]; [congruence|]. simpl Str.truthy.
  cbn [negb]. rewrite Hparse.
  unfold Datetime.timestamp in Hts. unfold Datetime.lt_now.
  destruct (Datetime.tzinfo d) as [off|]; [|discriminate].
  injection Hts as <-. f_equal. by apply Z.ltb_lt.
Qed.

(** No expiry, or an expiry that parses to an instant not before [now]. *)
Lemma is_expired_not_yet (now : Z) (r : FilesTable.row) :
  FilesTable.expires_at r = None
  \/ (exists text d t,
         FilesTable.expires_at r = Some text
         /\ Functions.fetch_date (Server.host E) text = Return (Some d)
         /\ Datetime.timestamp d = Some t
         /\ now <= t) ->
  Routes.is_expired E now r = Return false.
Proof.
  intros [Hnone | (text & d & t & Hexp & Hparse & Hts & Hle)];
    unfold Routes.is_expired.
  - by rewrite Hnone.
  - rewrite Hexp. destruct (Str.truthy text); [|reflexivity].
    cbn [negb]. rewrite Hparse.
    unfold Datetime.timestamp in Hts. unfold Datetime.lt_now.
    destruct (Datetime.tzinfo d) as [off|]; [|discriminate].
    injection Hts as <-. f_equal. by apply Z.ltb_ge.
Qed.

End ExpiryFacts.

(** ** Viewing and downloading *)

Section ServeFileFacts.
Context {B : Type} `{Bytes B}.
Variable E : Server.env B.

(** The lookup of a handler on a path that has a row: the row is
    returned as it was, and the table has the access recorded. *)
Lemma db_get_file_hit (now : Z) (p : string) (w : Server.world B)
    (r : FilesTable.row) :
  FilesTable.select_by_path p (Server.db w) = Some r ->
  Routes.db_get_file now p w
  = (Return (Some r),
     Server.set_db (FilesTable.update_access now p (Server.db w)) w).
Proof.
  intros Hsel. unfold Routes.db_get_file.
  by rewrite (get_file_hit _ _ _ _ Hsel).
Qed.

Lemma db_get_file_miss (now : Z) (p : string) (w : Server.world B) :
  FilesTable.select_by_path p (Server.db w) = None ->
  Routes.db_get_file now p w = (Return None, w).
Proof.
  intros Hsel. unfold Routes.db_get_file.
  rewrite (get_file_miss _ _ _ Hsel). by destruct w.
Qed.

(** A view or download that gets past the three checks: the access has
    been recorded once by the lookup, and one more update is pending. *)
Lemma serve_file_success (now : Z) (p : string) (as_download : bool)
    (w : Server.world B) (r : FilesTable.row) :
  FilesTable.select_by_path p (Server.db w) = Some r ->
  Routes.is_expired E now r = Return false ->
  FilesTable.storage_path r <> "" ->
  FS.path_exists (FilesTable.storage_path r) (Server.fs w) = true ->
  exists resp,
    Routes.serve_file E now p as_download w
    = (Return resp,
       Server.mk_world (FilesTable.update_access now p (Server.db w))
         (Server.fs w) (Server.tasks w ++ [UpdateFileAccess p])
         (Server.drawn w) (Server.log w)).
Proof.
  intros Hsel Hexp Hpath Hdisk.
  unfold Routes.serve_file, Server.bind.
  rewrite (db_get_file_hit _ _ _ _ Hsel).
  unfold Server.lift. rewrite Hexp.
  unfold Routes.os_path_exists. cbn [Server.fs Server.set_db]. rewrite Hdisk.
  destruct (FilesTable.storage_path r) as [|c s] eqn:Hsp; [congruence|].
  cbn [Str.truthy negb orb].
  unfold Routes.create_task, Server.modify, Server.ret. cbn.
  repeat match goal with
         | |- context [if ?c then _ else _] => destruct c
         end; eexists; reflexivity.
Qed.

End ServeFileFacts.

(** C1.  The three failures of the view and download endpoints: no row
    under the path gives 404; a row whose expiry is set and lies before
    the current time gives 410, and the row is still in the table; a row
    that has not expired but whose stored file is missing gives 404. *)
Theorem serve_file_error_responses {B : Type} `{Bytes B} (E : Server.env B)
    (now : Z) (file_path : string) (as_download : bool) (w : Server.world B) :
  (FilesTable.select_by_path file_path (Server.db w) = None ->
   fst (Routes.serve_file E now file_path as_download w)
   = Raise (HTTPException 404 "File not found"))
  /\ (forall r text d t,
         FilesTable.select_by_path file_path (Server.db w) = Some r ->
         FilesTable.expires_at r = Some text ->
         text <> "" ->
         Functions.fetch_date (Server.host E) text = Return (Some d) ->
         Datetime.timestamp d = Some t ->
         t < now ->
         fst (Routes.serve_file E now file_path as_download w)
         = Raise (HTTPException 410 "File has expired")
         /\ is_Some (FilesTable.select_by_path file_path
                       (Server.db (snd (Routes.serve_file E now file_path
                                          as_download w)))))
  /\ (forall r,
         FilesTable.select_by_path file_path (Server.db w) = Some r ->
         (FilesTable.expires_at r = None
          \/ exists text d t,
               FilesTable.expires_at r = Some text
               /\ Functions.fetch_date (Server.host E) text = Return (Some d)
               /\ Datetime.timestamp d = Some t
               /\ now <= t) ->
         FS.path_exists (FilesTable.storage_path r) (Server.fs w) = false ->
         fst (Routes.serve_file E now file_path as_download w)
         = Raise (HTTPException 404 "File not found in storage")).
Proof.
  split; [|split].
  - intros Hmiss. unfold Routes.serve_file, Server.bind.
    by rewrite (db_get_file_miss _ _ _ Hmiss).
  - intros r text d t Hsel Hexp Hne Hparse Hts Hlt.
    unfold Routes.serve_file, Server.bind.
    rewrite (db_get_file_hit _ _ _ _ Hsel).
    unfold Server.lift.
    rewrite (is_expired_past E now r text d t Hexp Hne Hparse Hts Hlt).
    unfold Server.raise. cbn [fst snd Server.db Server.set_db].
    split; [reflexivity|].
    rewrite select_update_access, Hsel. by eexists.
  - intros r Hsel Hfresh Hgone.
    unfold Routes.serve_file, Server.bind.
    rewrite (db_get_file_hit _ _ _ _ Hsel).
    unfold Server.lift. rewrite (is_expired_not_yet E now r Hfresh).
    unfold Routes.os_path_exists. cbn [Server.fs Server.set_db]. rewrite Hgone.
    cbn [negb]. by rewrite orb_true_r.
Qed.

Lemma serve_file_error_responses_witness :
  fst (Routes.view_file Scenario.E Scenario.noon "missing.png" Scenario.w0)
  = Raise (HTTPException 404 "File not found")
  /\ fst (Routes.download_file Scenario.E (Scenario.noon + 1) "stale.bin"
            Scenario.w0)
     = Raise (HTTPException 410 "File has expired")
  /\ fst (Routes.view_file Scenario.E Scenario.noon "orphan.bin" Scenario.w0)
     = Raise (HTTPException 404 "File not found in storage").
Proof.
  split; [|split].
  - apply (serve_file_error_responses Scenario.E Scenario.noon "missing.png"
             false Scenario.w0).
    reflexivity.
  - apply (serve_file_error_responses Scenario.E (Scenario.noon + 1) "stale.bin"
             true Scenario.w0)
      with (r := Scenario.stale) (text := "2025-05-11 12:56:56+00:00")
           (d := Datetime.mk 2025 5 11 12 56 56 0 (Some 0)) (t := Scenario.noon).
    + reflexivity.
    + reflexivity.
    + discriminate.
    + vm_compute. reflexivity.
    + vm_compute. reflexivity.
    + lia.
  - apply (serve_file_error_responses Scenario.E Scenario.noon "orphan.bin"
             false Scenario.w0) with (r := Scenario.orphan).
    + reflexivity.
    + left. reflexivity.
    + vm_compute. reflexivity.
Defined.

Section AccessCountFacts.
Context {B : Type} `{Bytes B}.
Variable E : Server.env B.

Lemma is_expired_touch (now t : Z) (r : FilesTable.row) :
  Routes.is_expired E now (FilesTable.touch t r) = Routes.is_expired E now r.
Proof. reflexivity. Qed.

(** One successful view followed by its detached update: the lookup and
    the task each record the access. *)
Lemma view_then_task (now later : Z) (p : string) (as_download : bool)
    (w : Server.world B) (r : FilesTable.row) :
  FilesTable.select_by_path p (Server.db w) = Some r ->
  Routes.is_expired E now r = Return false ->
  FilesTable.storage_path r <> "" ->
  FS.path_exists (FilesTable.storage_path r) (Server.fs w) = true ->
  Server.tasks w = [] ->
  (exists resp, fst (Routes.serve_file E now p as_download w) = Return resp)
  /\ Routes.run_pending E later (snd (Routes.serve_file E now p as_download w))
     = Server.mk_world
         (FilesTable.update_access later p
            (FilesTable.update_access now p (Server.db w)))
         (Server.fs w) [] (Server.drawn w) (Server.log w).
Proof.
  intros Hsel Hexp Hpath Hdisk Htasks.
  destruct (serve_file_success E now p as_download w r Hsel Hexp Hpath Hdisk)
    as [resp ->].
  split; [by exists resp|].
  cbn [snd]. unfold Routes.run_pending. cbn [Server.tasks Server.set_tasks].
  rewrite Htasks. reflexivity.
Qed.

End AccessCountFacts.

(** C2.  What the code does on two views of a stored file, each followed
    by the detached [update_file_access] task it created: the lookup
    counts the access and the task counts it again, so [access_count]
    grows by 4, not by 2; [last_accessed] is the time of the last
    update. *)
Theorem view_twice_counts_four {B : Type} `{Bytes B} (E : Server.env B)
    (t1 t1' t2 t2' : Z) (file_path : string) (w : Server.world B)
    (r : FilesTable.row) :
  FilesTable.select_by_path file_path (Server.db w) = Some r ->
  FilesTable.expires_at r = None ->
  FilesTable.storage_path r <> "" ->
  FS.path_exists (FilesTable.storage_path r) (Server.fs w) = true ->
  Server.tasks w = [] ->
  let w1 := Routes.run_pending E t1' (snd (Routes.view_file E t1 file_path w)) in
  let w2 := Routes.run_pending E t2' (snd (Routes.view_file E t2 file_path w1)) in
  (exists resp, fst (Routes.view_file E t1 file_path w) = Return resp)
  /\ (exists resp, fst (Routes.view_file E t2 file_path w1) = Return resp)
  /\ exists r',
       FilesTable.select_by_path file_path (Server.db w2) = Some r'
       /\ FilesTable.access_count r' = FilesTable.access_count r + 4
       /\ FilesTable.last_accessed r' = Some (FilesTable.CURRENT_TIMESTAMP t2').
Proof.
  intros Hsel Hexp Hpath Hdisk Htasks w1 w2.
  assert (Hfresh : forall now r0, FilesTable.expires_at r0 = None ->
                     Routes.is_expired E now r0 = Return false)
    by (intros now r0 Hr0; unfold Routes.is_expired; by rewrite Hr0).
  destruct (view_then_task E t1 t1' file_path false w r Hsel (Hfresh t1 r Hexp)
              Hpath Hdisk Htasks) as [Hfirst Hw1].
  fold (Routes.view_file E t1 file_path w) in Hfirst, Hw1.
  fold w1 in Hw1.
  set (r1 := FilesTable.touch t1' (FilesTable.touch t1 r)).
  assert (Hsel1 : FilesTable.select_by_path file_path (Server.db w1) = Some r1).
  { rewrite Hw1. cbn [Server.db]. by rewrite !select_update_access, Hsel. }
  assert (Hfs1 : Server.fs w1 = Server.fs w) by (by rewrite Hw1).
  assert (Htasks1 : Server.tasks w1 = []) by (by rewrite Hw1).
  destruct (view_then_task E t2 t2' file_path false w1 r1 Hsel1
              (Hfresh t2 r1 Hexp) Hpath) as [Hsecond Hw2];
    [by rewrite Hfs1 | exact Htasks1 |].
  fold (Routes.view_file E t2 file_path w1) in Hsecond, Hw2.
  fold w2 in Hw2.
  split; [exact Hfirst|]. split; [exact Hsecond|].
  exists (FilesTable.touch t2' (FilesTable.touch t2 r1)).
  split; [|split].
  - rewrite Hw2. cbn [Server.db]. by rewrite !select_update_access, Hsel1.
  - subst r1. rewrite !touch_access_count. lia.
  - reflexivity.
Qed.

Lemma view_twice_counts_four_witness :
  FilesTable.access_count Scenario.photo = 0
  /\ FilesTable.access_count
       <$> FilesTable.select_by_path "photo.jpg"
             (Server.db
                (Routes.run_pending Scenario.E (Scenario.noon + 3)
                   (snd (Routes.view_file Scenario.E (Scenario.noon + 2)
                           "photo.jpg"
                           (Routes.run_pending Scenario.E (Scenario.noon + 1)
                              (snd (Routes.view_file Scenario.E Scenario.noon
                                      "photo.jpg" Scenario.w0)))))))
     = Some 4.
Proof.
  split; [reflexivity|].
  assert (Hpath : FilesTable.storage_path Scenario.photo <> "") by discriminate.
  assert (Hdisk : FS.path_exists (FilesTable.storage_path Scenario.photo)
                    (Server.fs Scenario.w0) = true) by (vm_compute; reflexivity).
  destruct (view_twice_counts_four Scenario.E Scenario.noon (Scenario.noon + 1)
              (Scenario.noon + 2) (Scenario.noon + 3) "photo.jpg" Scenario.w0
              Scenario.photo eq_refl eq_refl Hpath Hdisk eq_refl)
    as (_ & _ & r' & Hsel & Hcount & _).
  rewrite Hsel. cbn [fmap option_fmap option_map]. by rewrite Hcount.
Defined.

(** ** Compression *)

Section CompressionFacts.
Context {B : Type} `{Bytes B}.
Variable E : Server.env B.

(** The compression task run to its end: a readable image that the
    library can re-encode is overwritten and a success line is logged;
    in every other case the disk is left alone and an error line is
    logged.  The task itself never raises. *)
Lemma create_image_compression_task_effect (path : string)
    (p : Routes.compression_params) (w : Server.world B) :
  Routes.create_image_compression_task E path p w
  = (Return tt,
     match FS.read path (Server.fs w) with
     | Return input =>
         match Server.compress_bytes_sync E input (Routes.quality p)
                 (Routes.max_width p) (Routes.to_webp p) (Routes.lossless p) with
         | Some out =>
             Server.mk_world (Server.db w)
               (<[path := FS.File out]> (Server.fs w))
               (Server.tasks w) (Server.drawn w)
               (Server.log w ++ [compressed_ok path])
         | None =>
             Server.set_log (Server.log w ++ [compressed_failed path]) w
         end
     | Raise _ => Server.set_log (Server.log w ++ [compressed_failed path]) w
     end).
Proof.
  unfold Routes.create_image_compression_task, Server.try_except, Server.bind,
    Routes.fs_read, FS.read.
  destruct (Server.fs w !! path) as [[|content]|] eqn:Hnode; try reflexivity.
  unfold Routes.compress_image_bytes.
  destruct (Server.compress_bytes_sync E content _ _ _ _) as [out|];
    [|reflexivity].
  unfold Routes.replace_file, Server.try_except, Server.bind, Server.ret,
    Routes.fs_open_wb, Routes.fs_write, Server.modify, FS.open_wb, FS.write,
    FS.path_exists.
  rewrite bool_decide_eq_true_2 by (rewrite Hnode; by eexists).
  rewrite Hnode. cbn [Server.fs Server.set_fs].
  rewrite lookup_insert_eq. cbn.
  by rewrite insert_insert_eq, concat_empty.
Qed.

Lemma create_image_compression_task_db (path : string)
    (p : Routes.compression_params) (w : Server.world B) :
  Server.db (snd (Routes.create_image_compression_task E path p w))
  = Server.db w
  /\ Server.tasks (snd (Routes.create_image_compression_task E path p w))
     = Server.tasks w.
Proof.
  rewrite create_image_compression_task_effect. cbn [snd].
  destruct (FS.read _ _); [|by split].
  by destruct (Server.compress_bytes_sync _ _ _ _ _ _).
Qed.

(** The handler on a path without a row: the 404 it raises is caught by
    its own [except Exception]. *)
Lemma compress_file_missing (now : Z) (p : string) (body : option json)
    (w : Server.world B) :
  FilesTable.select_by_path p (Server.db w) = None ->
  Routes.compress_file E now p body w = (Return error_compressing, w).
Proof.
  intros Hmiss. unfold Routes.compress_file, Server.try_except, Server.bind.
  by rewrite (db_get_file_miss _ _ _ Hmiss).
Qed.

(** The handler on a path with a row, whatever happens next: the table
    is the one the lookup left, and no task is left pending. *)
Lemma compress_file_db (now : Z) (p : string) (body : option json)
    (w : Server.world B) (r : FilesTable.row) :
  FilesTable.select_by_path p (Server.db w) = Some r ->
  Server.db (snd (Routes.compress_file E now p body w))
  = FilesTable.update_access now p (Server.db w)
  /\ Server.tasks (snd (Routes.compress_file E now p body w)) = Server.tasks w
  /\ exists resp, fst (Routes.compress_file E now p body w) = Return resp.
Proof.
  intros Hsel. unfold Routes.compress_file, Server.try_except, Server.bind.
  rewrite (db_get_file_hit _ _ _ _ Hsel). unfold Server.lift.
  destruct (Routes.is_expired E now r) as [[|]|e]; cbn; eauto.
  destruct body as [b|]; cbn; eauto.
  destruct (Routes.parse_params E b) as [params|e]; cbn.
  - unfold Routes.await_create_task.
    rewrite create_image_compression_task_effect. cbn.
    match goal with
    | |- context [FS.read ?a ?b] => destruct (FS.read a b)
    end; cbn; eauto.
    destruct (Server.compress_bytes_sync _ _ _ _ _ _); cbn; eauto.
  - destruct e; cbn; eauto.
Qed.

End CompressionFacts.

(** C4.  What the compress handler answers when the row is absent or
    expired: the 404 and the 410 are raised inside the handler's
    [try] block and caught by its [except Exception], so the client gets
    the generic 500 body in both cases. *)
Theorem compress_file_masks_not_found_and_gone {B : Type} `{Bytes B}
    (E : Server.env B) (now : Z) (file_path : string) (body : option json)
    (w : Server.world B) :
  (FilesTable.select_by_path file_path (Server.db w) = None ->
   fst (Routes.compress_file E now file_path body w)
   = Return (JSONResponse 500 (JObj [("message", JStr "Error compressing file")])))
  /\ (forall r text d t,
         FilesTable.select_by_path file_path (Server.db w) = Some r ->
         FilesTable.expires_at r = Some text ->
         text <> "" ->
         Functions.fetch_date (Server.host E) text = Return (Some d) ->
         Datetime.timestamp d = Some t ->
         t < now ->
         fst (Routes.compress_file E now file_path body w)
         = Return (JSONResponse 500
                     (JObj [("message", JStr "Error compressing file")]))).
Proof.
  split.
  - intros Hmiss. by rewrite (compress_file_missing E now file_path body w Hmiss).
  - intros r text d t Hsel Hexp Hne Hparse Hts Hlt.
    unfold Routes.compress_file, Server.try_except, Server.bind.
    rewrite (db_get_file_hit _ _ _ _ Hsel). unfold Server.lift.
    by rewrite (is_expired_past E now r text d t Hexp Hne Hparse Hts Hlt).
Qed.

Lemma compress_file_masks_not_found_and_gone_witness :
  fst (Routes.compress_file Scenario.E Scenario.noon "missing.png"
         (Some (JObj [])) Scenario.w0)
  = Return (JSONResponse 500 (JObj [("message", JStr "Error compressing file")]))
  /\ fst (Routes.compress_file Scenario.E (Scenario.noon + 1) "stale.bin"
            (Some (JObj [])) Scenario.w0)
     = Return (JSONResponse 500
                 (JObj [("message", JStr "Error compressing file")])).
Proof.
  split.
  - apply (compress_file_masks_not_found_and_gone Scenario.E Scenario.noon
             "missing.png" (Some (JObj [])) Scenario.w0).
    reflexivity.
  - apply (compress_file_masks_not_found_and_gone Scenario.E (Scenario.noon + 1)
             "stale.bin" (Some (JObj [])) Scenario.w0)
      with (r := Scenario.stale) (text := "2025-05-11 12:56:56+00:00")
           (d := Datetime.mk 2025 5 11 12 56 56 0 (Some 0)) (t := Scenario.noon).
    + reflexivity.
    + reflexivity.
    + discriminate.
    + vm_compute. reflexivity.
    + vm_compute. reflexivity.
    + lia.
Defined.

(** C5 (as amended).  For an accepted compress request (the row exists,
    has not expired, and the body yields parameters) the handler creates
    the re-encoding task and awaits it: the acknowledgment is returned in
    the state the finished task left, with the stored image already
    rewritten when the library could re-encode it, and with no task left
    pending.  The outcome of the task only shows in the log; the response
    is the same acknowledgment in every case. *)
Theorem compress_file_awaits_reencoding {B : Type} `{Bytes B}
    (E : Server.env B) (now : Z) (file_path : string) (body : json)
    (params : Routes.compression_params) (w : Server.world B)
    (r : FilesTable.row) :
  FilesTable.select_by_path file_path (Server.db w) = Some r ->
  (FilesTable.expires_at r = None
   \/ exists text d t,
        FilesTable.expires_at r = Some text
        /\ Functions.fetch_date (Server.host E) text = Return (Some d)
        /\ Datetime.timestamp d = Some t
        /\ now <= t) ->
  Routes.parse_params E body = Return params ->
  let looked_up := snd (Routes.db_get_file now file_path w) in
  let finished :=
    snd (Routes.create_image_compression_task E (FilesTable.storage_path r)
           params looked_up) in
  Routes.compress_file E now file_path (Some body) w
  = (Return (JSONResponse 200
               (JObj [("message", JStr "File compressed successfully")])),
     finished)
  /\ Server.tasks finished = Server.tasks w
  /\ (forall input out,
         Server.fs w !! FilesTable.storage_path r = Some (FS.File input) ->
         Server.compress_bytes_sync E input (Routes.quality params)
           (Routes.max_width params) (Routes.to_webp params)
           (Routes.lossless params) = Some out ->
         Server.fs finished
         = <[FilesTable.storage_path r := FS.File out]> (Server.fs w)
         /\ Server.log finished
            = Server.log w
              ++ [(SUCCESS, "Successfully compressed image "
                            +:+ FilesTable.storage_path r)]).
Proof.
  intros Hsel Hfresh Hparams looked_up finished.
  subst looked_up finished. rewrite (db_get_file_hit _ _ _ _ Hsel). cbn [snd].
  split; [|split].
  - unfold Routes.compress_file, Server.try_except, Server.bind.
    rewrite (db_get_file_hit _ _ _ _ Hsel). unfold Server.lift.
    rewrite (is_expired_not_yet E now r Hfresh). rewrite Hparams.
    unfold Routes.await_create_task, Server.ret.
    by rewrite create_image_compression_task_effect.
  - by destruct (create_image_compression_task_db E (FilesTable.storage_path r)
                   params
                   (Server.set_db
                      (FilesTable.update_access now file_path (Server.db w)) w)).
  - intros input out Hfile Hout.
    rewrite create_image_compression_task_effect. cbn [snd].
    unfold FS.read. cbn [Server.fs Server.set_db]. rewrite Hfile, Hout.
    split; reflexivity.
Qed.

Lemma compress_file_awaits_reencoding_witness :
  Routes.compress_file Scenario.E Scenario.noon "photo.jpg"
    (Some (JObj [("quality", JInt 60)])) Scenario.w0
  = (Return (JSONResponse 200
               (JObj [("message", JStr "File compressed successfully")])),
     snd (Routes.create_image_compression_task Scenario.E "storage/photo.jpg"
            (Routes.mk_params 60 None false false)
            (snd (Routes.db_get_file Scenario.noon "photo.jpg" Scenario.w0)))).
Proof.
  apply (compress_file_awaits_reencoding Scenario.E Scenario.noon "photo.jpg"
           (JObj [("quality", JInt 60)]) (Routes.mk_params 60 None false false)
           Scenario.w0 Scenario.photo).
  - reflexivity.
  - left. reflexivity.
  - reflexivity.
Defined.

(** C5 as stated fails: when the acknowledgment is returned the stored
    image has already been replaced by its re-encoding (2048 bytes before,
    1024 after) and nothing is left to run in the background. *)
Lemma compress_file_returns_after_reencoding :
  fst (Routes.compress_file Scenario.E Scenario.noon "photo.jpg"
         (Some (JObj [])) Scenario.w0)
  = Return (JSONResponse 200
              (JObj [("message", JStr "File compressed successfully")]))
  /\ Server.fs Scenario.w0 !! "storage/photo.jpg" = Some (FS.File 2048%N)
  /\ Server.fs (snd (Routes.compress_file Scenario.E Scenario.noon "photo.jpg"
                       (Some (JObj [])) Scenario.w0))
     !! "storage/photo.jpg" = Some (FS.File 1024%N)
  /\ Server.tasks (snd (Routes.compress_file Scenario.E Scenario.noon
                          "photo.jpg" (Some (JObj [])) Scenario.w0)) = []
  /\ Server.fs (snd (Routes.compress_file Scenario.E Scenario.noon "photo.jpg"
                       (Some (JObj [])) Scenario.w0))
     <> Server.fs Scenario.w0.
Proof.
  repeat split; try (vm_compute; reflexivity).
  intros Heq.
  assert (Hlook : Server.fs (snd (Routes.compress_file Scenario.E Scenario.noon
                                    "photo.jpg" (Some (JObj [])) Scenario.w0))
                  !! "storage/photo.jpg"
                  = Server.fs Scenario.w0 !! "storage/photo.jpg")
    by (by rewrite Heq).
  vm_compute in Hlook. discriminate.
Qed.

(** ** Deleting *)

Lemma db_delete_file_run {B : Type} `{Bytes B} (p : string)
    (w : Server.world B) :
  Routes.db_delete_file p w
  = (Return (fst (FilesTable.delete_file p (Server.db w))),
     Server.set_db (snd (FilesTable.delete_file p (Server.db w))) w).
Proof. unfold Routes.db_delete_file. by destruct (FilesTable.delete_file _ _). Qed.

(** C10.  The admin delete and compress handlers on a path that has a
    row: both start with the access-counting lookup, which adds one to
    [access_count] and stamps [last_accessed].  Every failing delete
    (410, 404 for missing bytes, 500) leaves the row in that state, and
    only a successful delete removes it; the compress handler leaves the
    row in that state whatever it answers. *)
Theorem admin_lookup_records_access {B : Type} `{Bytes B} (E : Server.env B)
    (now : Z) (file_path : string) (w : Server.world B) (r : FilesTable.row) :
  FilesTable.select_by_path file_path (Server.db w) = Some r ->
  let seen := FilesTable.touch now r in
  FilesTable.access_count seen = FilesTable.access_count r + 1
  /\ FilesTable.last_accessed seen = Some (FilesTable.CURRENT_TIMESTAMP now)
  /\ fst (Routes.db_get_file now file_path w) = Return (Some r)
  /\ FilesTable.select_by_path file_path
       (Server.db (snd (Routes.db_get_file now file_path w))) = Some seen
  /\ match fst (Routes.delete_file E now file_path w) with
     | Return _ =>
         FilesTable.select_by_path file_path
           (Server.db (snd (Routes.delete_file E now file_path w))) = None
     | Raise _ =>
         FilesTable.select_by_path file_path
           (Server.db (snd (Routes.delete_file E now file_path w))) = Some seen
     end
  /\ forall body,
       FilesTable.select_by_path file_path
         (Server.db (snd (Routes.compress_file E now file_path body w)))
       = Some seen.
Proof.
  intros Hsel seen.
  assert (Hseen : FilesTable.select_by_path file_path
                    (FilesTable.update_access now file_path (Server.db w))
                  = Some seen)
    by (by rewrite select_update_access, Hsel).
  split; [reflexivity|]. split; [reflexivity|].
  rewrite (db_get_file_hit _ _ _ _ Hsel). cbn [fst snd Server.db Server.set_db].
  split; [reflexivity|]. split; [exact Hseen|]. split.
  - unfold Routes.delete_file, Server.bind.
    rewrite (db_get_file_hit _ _ _ _ Hsel). unfold Server.lift.
    destruct (Routes.is_expired E now r) as [[|]|e]; try exact Hseen.
    unfold Routes.os_path_exists. cbn [Server.fs Server.set_db].
    destruct (negb (Str.truthy (FilesTable.storage_path r))
              || negb (FS.path_exists (FilesTable.storage_path r) (Server.fs w)));
      [exact Hseen|].
    unfold Server.try_except, Server.bind, Routes.os_remove, FS.remove.
    cbn [Server.fs Server.set_db].
    destruct (Server.fs w !! FilesTable.storage_path r) as [[|content]|];
      try exact Hseen.
    rewrite db_delete_file_run.
    cbn [fst snd Server.db Server.set_db Server.set_fs Server.ret].
    apply select_delete_file.
  - intros body.
    destruct (compress_file_db E now file_path body w r Hsel) as (-> & _ & _).
    exact Hseen.
Qed.

Lemma admin_lookup_records_access_witness :
  (fst (Routes.delete_file Scenario.E (Scenario.noon + 1) "stale.bin" Scenario.w0)
   = Raise (HTTPException 410 "File has expired")
   /\ FilesTable.select_by_path "stale.bin"
        (Server.db (snd (Routes.delete_file Scenario.E (Scenario.noon + 1)
                           "stale.bin" Scenario.w0)))
      = Some (FilesTable.touch (Scenario.noon + 1) Scenario.stale))
  /\ (fst (Routes.delete_file Scenario.E Scenario.noon "folder.bin" Scenario.w0)
      = Raise (HTTPException 500 "Error deleting file")
      /\ FilesTable.select_by_path "folder.bin"
           (Server.db (snd (Routes.delete_file Scenario.E Scenario.noon
                              "folder.bin" Scenario.w0)))
         = Some (FilesTable.touch Scenario.noon Scenario.folder))
  /\ FilesTable.select_by_path "orphan.bin"
       (Server.db (snd (Routes.compress_file Scenario.E Scenario.noon
                          "orphan.bin" (Some (JObj [])) Scenario.w0)))
     = Some (FilesTable.touch Scenario.noon Scenario.orphan).
Proof.
  split; [|split].
  - split; [vm_compute; reflexivity|].
    pose proof (admin_lookup_records_access Scenario.E (Scenario.noon + 1)
                  "stale.bin" Scenario.w0 Scenario.stale eq_refl)
      as (_ & _ & _ & _ & Hdelete & _).
    exact Hdelete.
  - split; [vm_compute; reflexivity|].
    pose proof (admin_lookup_records_access Scenario.E Scenario.noon
                  "folder.bin" Scenario.w0 Scenario.folder eq_refl)
      as (_ & _ & _ & _ & Hdelete & _).
    exact Hdelete.
  - pose proof (admin_lookup_records_access Scenario.E Scenario.noon
                  "orphan.bin" Scenario.w0 Scenario.orphan eq_refl)
      as (_ & _ & _ & _ & _ & Hcompress).
    apply Hcompress.
Defined.

(** ** Uploading *)

Section PathFacts.

Lemma list_ascii_of_append (a b : string) :
  list_ascii_of_string (a +:+ b)
  = list_ascii_of_string a ++ list_ascii_of_string b.
Proof. induction a as [|c a IH]; simpl; [reflexivity | by rewrite IH]. Qed.

Lemma append_inv_tail (a b tail : string) :
  a +:+ tail = b +:+ tail -> a = b.
Proof.
  intros Heq. apply (f_equal list_ascii_of_string) in Heq.
  rewrite !list_ascii_of_append in Heq. apply app_inv_tail in Heq.
  apply (f_equal string_of_list_ascii) in Heq.
  by rewrite !string_of_list_ascii_of_string in Heq.
Qed.

(** Distinct counters give distinct numbered paths. *)
Lemma numbered_inj {B : Type} `{Bytes B} (base ext : string) (m n : N) :
  Routes.numbered base m ext = Routes.numbered base n ext -> m = n.
Proof.
  unfold Routes.numbered. intros Heq.
  apply String.app_inj in Heq. apply String.app_inj in Heq.
  apply append_inv_tail in Heq. by apply pretty_N_inj in Heq.
Qed.

End PathFacts.

Section UploadFacts.
Context {B : Type} `{Bytes B}.
Variable E : Server.env B.

(** A loop that ends on an existing path has met an existing path at
    every turn. *)
Lemma first_free_exhausted (fs : gmap string (FS.node B)) (base ext : string)
    (fuel : nat) (counter : N) :
  FS.path_exists (Routes.first_free fs base ext fuel counter) fs = true ->
  forall k : nat, (k <= fuel)%nat ->
    FS.path_exists (Routes.numbered base (counter + N.of_nat k) ext) fs = true.
Proof.
  revert counter. induction fuel as [|fuel IH]; intros counter Hres k Hk.
  - assert (k = 0%nat) as -> by lia. simpl in *. by rewrite N.add_0_r.
  - simpl in Hres.
    destruct (FS.path_exists (Routes.numbered base counter ext) fs) eqn:Hc.
    + destruct k as [|k]; [by rewrite N.add_0_r|].
      replace (counter + N.of_nat (S k))%N with (counter + 1 + N.of_nat k)%N
        by lia.
      apply IH; [exact Hres | lia].
    + congruence.
Qed.

(** The disk cannot hold more numbered paths than it holds paths, so
    the loop stops on a path that does not exist. *)
Lemma first_free_absent (fs : gmap string (FS.node B)) (base ext : string) :
  fs !! Routes.first_free fs base ext (S (size fs)) 1%N = None.
Proof.
  destruct (FS.path_exists (Routes.first_free fs base ext (S (size fs)) 1%N) fs)
    eqn:Hres.
  - exfalso.
    pose proof (first_free_exhausted fs base ext _ _ Hres) as Hall.
    set (candidates :=
           (fun k : nat => Routes.numbered base (1 + N.of_nat k) ext)
             <$> seq 0 (S (size fs))).
    assert (Hnodup : NoDup candidates).
    { apply NoDup_fmap_2_strong; [|apply NoDup_seq].
      intros i j _ _ Heq. apply numbered_inj in Heq. lia. }
    assert (Hsub : list_to_set (C := gset string) candidates ⊆ dom fs).
    { intros path Hin. apply elem_of_list_to_set in Hin.
      apply list_elem_of_fmap in Hin as (k & -> & Hk).
      apply elem_of_seq in Hk. apply elem_of_dom.
      specialize (Hall k ltac:(lia)).
      unfold FS.path_exists in Hall. by apply bool_decide_eq_true in Hall. }
    apply subseteq_size in Hsub.
    rewrite size_list_to_set in Hsub by exact Hnodup.
    rewrite size_dom in Hsub. unfold candidates in Hsub.
    rewrite length_fmap, length_seq in Hsub. lia.
  - unfold FS.path_exists in Hres. apply bool_decide_eq_false in Hres.
    by apply eq_None_not_Some.
Qed.

(** [get_unique_path] returns a path that is not on disk. *)
Lemma get_unique_path_fresh (preferred : string) (w : Server.world B) :
  exists path,
    Routes.get_unique_path preferred w = (Return path, w)
    /\ Server.fs w !! path = None.
Proof.
  unfold Routes.get_unique_path.
  destruct (FS.path_exists preferred (Server.fs w)) eqn:Hpref; cbn [negb].
  - destruct (FS.splitext preferred) as [base ext].
    eexists. split; [reflexivity | apply first_free_absent].
  - exists preferred. split; [reflexivity|].
    unfold FS.path_exists in Hpref. apply bool_decide_eq_false in Hpref.
    by apply eq_None_not_Some.
Qed.

Lemma get_safe_filename_run (name : option string) (w : Server.world B) :
  exists safe,
    Routes.get_safe_filename E name w
    = (Return safe, Server.set_drawn (S (Server.drawn w)) w).
Proof.
  unfold Routes.get_safe_filename, Server.bind, Routes.uuid4, Server.ret.
  destruct name as [name|]; [destruct (negb (Str.truthy name))|];
    eexists; reflexivity.
Qed.

Lemma upload_path_run (file : Routes.UploadFile) (w : Server.world B)
    (safe path : string) :
  Routes.get_safe_filename E (Routes.filename file) w
  = (Return safe, Server.set_drawn (S (Server.drawn w)) w) ->
  Routes.get_unique_path (FS.join Routes.STORAGE_DIR safe)
    (Server.set_drawn (S (Server.drawn w)) w)
  = (Return path, Server.set_drawn (S (Server.drawn w)) w) ->
  upload_path E file w = path.
Proof. intros Hsafe Hpath. unfold upload_path. by rewrite Hsafe, Hpath. Qed.

(** Opening a path that is not on disk: the file is created empty when
    the operating system accepts the path, and nothing happens when it
    refuses. *)
Lemma fs_open_wb_fresh (path : string) (w : Server.world B) :
  Server.fs w !! path = None ->
  Routes.fs_open_wb E path w
  = match Server.refuses E path with
    | Some refusal => (Raise (FS.exn_of_refusal refusal), w)
    | None =>
        (Return tt,
         Server.set_fs (<[path := FS.File bytes_empty]> (Server.fs w)) w)
    end.
Proof.
  intros Hfresh. unfold Routes.fs_open_wb, FS.path_exists, FS.open_wb.
  rewrite bool_decide_eq_false_2 by (rewrite Hfresh; by intros [? ?]).
  by rewrite Hfresh.
Qed.

(** Once the running size goes over the limit the loop removes the file
    opened at [path] and raises 413. *)
Lemma stream_to_disk_too_large (path : string) (chunks : list B)
    (file_size : Z) (w : Server.world B) (content : B) :
  Server.fs w !! path = Some (FS.File content) ->
  Forall (fun chunk => len chunk <> 0) chunks ->
  file_size <= Routes.file_size_limit ->
  Routes.file_size_limit < file_size + received chunks ->
  Routes.stream_to_disk path chunks file_size w
  = (Raise (HTTPException 413 "File too large, max size is 5120.0MB"),
     Server.set_fs (delete path (Server.fs w)) w).
Proof.
  revert file_size w content.
  induction chunks as [|chunk rest IH]; intros file_size w content Hfile Hne Hle Hover.
  - unfold received in Hover. simpl in Hover. lia.
  - inversion Hne as [|? ? Hchunk Hrest]; subst.
    unfold received in Hover. simpl in Hover. fold (received rest) in Hover.
    cbn [Routes.stream_to_disk].
    destruct (Z.eqb_spec (len chunk) 0) as [|_]; [contradiction|].
    destruct (Z.ltb_spec Routes.file_size_limit (file_size + len chunk))
      as [Hbig|Hsmall].
    + unfold Server.bind, Routes.os_remove, FS.remove, Server.raise.
      by rewrite Hfile.
    + unfold Server.bind, Routes.fs_write, Server.modify, FS.write.
      rewrite Hfile.
      rewrite (IH (file_size + len chunk) _ (bytes_concat content chunk)).
      * cbn [Server.fs Server.set_fs]. by rewrite delete_insert_eq.
      * cbn [Server.fs Server.set_fs]. apply lookup_insert_eq.
      * exact Hrest.
      * exact Hsmall.
      * lia.
Qed.

End UploadFacts.

(** C3.  A single upload whose stream carries more than 5 GiB
    (5 * 1024^3 bytes), the storage file having been opened (the
    operating system accepted its path, so that the stream is read at
    all): the handler raises 413, the file it had been writing is removed
    again, so the disk is as before the request, and the table and the
    pending tasks are untouched: no row is inserted. *)
Theorem upload_file_too_large {B : Type} `{Bytes B} (E : Server.env B)
    (now : Z) (file : Routes.UploadFile) (expiry_days : option Z)
    (w : Server.world B) :
  Forall (fun chunk => len chunk <> 0) (Routes.chunks file) ->
  5 * 1024 ^ 3 < fold_right Z.add 0 (List.map len (Routes.chunks file)) ->
  Server.refuses E (upload_path E file w) = None ->
  let answer := Routes.upload_file E now file expiry_days w in
  fst answer = Raise (HTTPException 413 "File too large, max size is 5120.0MB")
  /\ Server.fs (snd answer) = Server.fs w
  /\ Server.db (snd answer) = Server.db w
  /\ Server.tasks (snd answer) = Server.tasks w
  /\ exists safe_filename storage_path,
       fst (Routes.get_safe_filename E (Routes.filename file) w)
       = Return safe_filename
       /\ fst (Routes.get_unique_path
                 (FS.join Routes.STORAGE_DIR safe_filename)
                 (snd (Routes.get_safe_filename E (Routes.filename file) w)))
          = Return storage_path
       /\ Server.fs (snd answer) !! storage_path = None.
Proof.
  intros Hchunks Hover Hopened answer.
  destruct (get_safe_filename_run E (Routes.filename file) w) as [safe Hsafe].
  destruct (get_unique_path_fresh (FS.join Routes.STORAGE_DIR safe)
              (Server.set_drawn (S (Server.drawn w)) w))
    as (path & Hpath & Hfresh).
  rewrite (upload_path_run E file w safe path Hsafe Hpath) in Hopened.
  set (w1 := Server.set_drawn (S (Server.drawn w)) w) in *.
  assert (Hanswer :
    answer = (Raise (HTTPException 413 "File too large, max size is 5120.0MB"),
              w1)).
  { subst answer. unfold Routes.upload_file, Server.try_except, Server.bind.
    rewrite Hsafe, Hpath.
    rewrite (fs_open_wb_fresh E path w1 Hfresh), Hopened.
    rewrite (stream_to_disk_too_large path (Routes.chunks file) 0 _ bytes_empty).
    - cbn [Server.is_HTTPException negb Server.fs Server.set_fs].
      rewrite delete_insert_eq, (delete_id _ _ Hfresh).
      subst w1. by destruct w.
    - cbn [Server.fs Server.set_fs]. apply lookup_insert_eq.
    - exact Hchunks.
    - unfold Routes.file_size_limit. lia.
    - unfold Routes.file_size_limit, received. lia. }
  rewrite Hanswer. cbn [fst snd].
  repeat split.
  exists safe, path. rewrite Hsafe. cbn [fst snd]. rewrite Hpath.
  repeat split. exact Hfresh.
Qed.

Lemma upload_file_too_large_witness :
  5 * 1024 ^ 3
  < fold_right Z.add 0 (List.map len (Routes.chunks Scenario.oversized))
  /\ fst (Routes.upload_file Scenario.E Scenario.noon Scenario.oversized
            (Some 7) Scenario.w0)
     = Raise (HTTPException 413 "File too large, max size is 5120.0MB")
  /\ Server.fs (snd (Routes.upload_file Scenario.E Scenario.noon
                       Scenario.oversized (Some 7) Scenario.w0))
     = Server.fs Scenario.w0
  /\ Server.db (snd (Routes.upload_file Scenario.E Scenario.noon
                       Scenario.oversized (Some 7) Scenario.w0))
     = Server.db Scenario.w0.
Proof.
  assert (Hover : 5 * 1024 ^ 3
                  < fold_right Z.add 0
                      (List.map len (Routes.chunks Scenario.oversized)))
    by (vm_compute; reflexivity).
  assert (Hchunks : Forall (fun chunk : N => len chunk <> 0)
                      (Routes.chunks Scenario.oversized)).
  { apply Forall_forall. intros chunk Hin.
    apply list_elem_of_In in Hin. unfold Scenario.oversized in Hin.
    cbn [Routes.chunks] in Hin. apply in_app_or in Hin as [Hin|Hin].
    - apply repeat_spec in Hin. subst chunk. vm_compute. discriminate.
    - destruct Hin as [<-|[]]. vm_compute. discriminate. }
  split; [exact Hover|].
  pose proof (upload_file_too_large Scenario.E Scenario.noon Scenario.oversized
                (Some 7) Scenario.w0 Hchunks Hover eq_refl)
    as (Hanswer & Hfs & Hdb & _).
  split; [exact Hanswer|]. split; [exact Hfs | exact Hdb].
Defined.

Section MultiUploadFacts.
Context {B : Type} `{Bytes B}.
Variable E : Server.env B.

(** Whatever goes wrong in [upload_file] leaves it as an
    [HTTPException]. *)
Lemma upload_file_raises_http (now : Z) (file : Routes.UploadFile)
    (expiry_days : option Z) (w : Server.world B) (e : exn) :
  fst (Routes.upload_file E now file expiry_days w) = Raise e ->
  Server.is_HTTPException e = true.
Proof.
  unfold Routes.upload_file, Server.try_except.
  match goal with
  | |- context [match ?body w with _ => _ end] =>
      destruct (body w) as [[resp|e'] w']
  end; cbn [fst]; [discriminate|].
  destruct (Server.is_HTTPException e') eqn:He'; cbn [negb].
  - cbn [fst]. congruence.
  - unfold Server.raise. cbn [fst]. intros [= <-]. reflexivity.
Qed.

(** The loop never raises: it adds one entry per file, in order, behind
    the entries it was given. *)
Lemma upload_each_returns (now : Z) (files : list Routes.UploadFile)
    (expiry_days : option Z) (results : list Routes.upload_entry)
    (w : Server.world B) :
  exists added,
    fst (Routes.upload_each E now files expiry_days results w)
    = Return (results ++ added)
    /\ length added = length files.
Proof.
  revert results w. induction files as [|file rest IH]; intros results w.
  - exists []. by rewrite app_nil_r.
  - cbn [Routes.upload_each]. unfold Server.bind at 1.
    unfold Server.try_except, Server.bind, Server.ret.
    destruct (Routes.upload_file E now file expiry_days w) as [[resp|e] w1]
      eqn:Hup.
    + destruct (IH (results ++ [Routes.Uploaded resp]) w1)
        as (added & Hrun & Hlen).
      exists (Routes.Uploaded resp :: added).
      rewrite Hrun, <- app_assoc. split; [reflexivity | simpl; lia].
    + assert (He : Server.is_HTTPException e = true)
        by (apply (upload_file_raises_http now file expiry_days w);
            by rewrite Hup).
      rewrite He.
      destruct (IH (results ++ [Routes.Failed (Routes.str_exn e)
                                  (Routes.filename file)]) w1)
        as (added & Hrun & Hlen).
      exists (Routes.Failed (Routes.str_exn e) (Routes.filename file) :: added).
      rewrite Hrun, <- app_assoc. split; [reflexivity | simpl; lia].
Qed.

(** One response object among the results makes the first membership
    test of the counting step raise. *)
Lemma comprehension_uploaded (results : list Routes.upload_entry) :
  existsb is_uploaded results = true ->
  Routes.comprehension Routes.not_has_error_key results = Raise TypeError.
Proof.
  induction results as [|r rest IH]; [discriminate|].
  simpl. destruct r as [resp|detail name]; simpl; [reflexivity|].
  intros Hrest. by rewrite (IH Hrest).
Qed.

Lemma comprehension_all_failed (results : list Routes.upload_entry) :
  existsb is_uploaded results = false ->
  Routes.comprehension Routes.not_has_error_key results = Return []
  /\ Routes.comprehension Routes.has_error_key results = Return results
  /\ exists rendered,
       Routes.entries_json results = Return rendered
       /\ length rendered = length results.
Proof.
  induction results as [|r rest IH]; [by repeat split; exists []|].
  simpl. destruct r as [resp|detail name]; simpl; [discriminate|].
  intros Hrest. destruct (IH Hrest) as (-> & -> & rendered & -> & Hlen).
  repeat split. eexists. split; [reflexivity | simpl; lia].
Qed.

End MultiUploadFacts.

(** C9.  What the multi-upload endpoint does for a non-empty list of
    files.  The single-upload procedure runs once per file, in order, and
    [results] gets one entry per file.  When every upload failed, the
    aggregate payload is returned with [uploaded_count] 0, [failed_count]
    the number of files and the entries in order.  As soon as one upload
    succeeded, its entry is the response object [upload_file] returned,
    the membership test ["error" not in r] on it raises [TypeError], and
    no payload is returned. *)
Theorem upload_multiple_files_outcome {B : Type} `{Bytes B} (E : Server.env B)
    (now : Z) (files : list Routes.UploadFile) (expiry_days : option Z)
    (w : Server.world B) :
  files <> [] ->
  exists results,
    fst (Routes.upload_each E now files expiry_days [] w) = Return results
    /\ length results = length files
    /\ (existsb is_uploaded results = true ->
        fst (Routes.upload_multiple_files E now files expiry_days w)
        = Raise TypeError)
    /\ (existsb is_uploaded results = false ->
        exists rendered,
          Routes.entries_json results = Return rendered
          /\ length rendered = length files
          /\ fst (Routes.upload_multiple_files E now files expiry_days w)
             = Return
                 (JSONResponse 200
                    (JObj [("success", JBool true);
                           ("uploaded_count", JInt 0);
                           ("failed_count", JInt (Z.of_nat (length files)));
                           ("files", JArr rendered)]))).
Proof.
  intros Hfiles.
  destruct (upload_each_returns E now files expiry_days [] w)
    as (results & Hrun & Hlen).
  rewrite app_nil_l in Hrun. exists results.
  split; [exact Hrun|]. split; [exact Hlen|].
  assert (Hunfold :
    Routes.upload_multiple_files E now files expiry_days w
    = Server.bind (Routes.upload_each E now files expiry_days [])
        (fun results =>
           Server.bind
             (Server.lift
                (Routes.comprehension Routes.not_has_error_key results))
             (fun uploaded =>
                Server.bind
                  (Server.lift
                     (Routes.comprehension Routes.has_error_key results))
                  (fun failed =>
                     Server.bind (Server.lift (Routes.entries_json results))
                       (fun rendered =>
                          Server.ret
                            (JSONResponse 200
                               (JObj [("success", JBool true);
                                      ("uploaded_count",
                                       JInt (Z.of_nat (length uploaded)));
                                      ("failed_count",
                                       JInt (Z.of_nat (length failed)));
                                      ("files", JArr rendered)])))))) w)
    by (destruct files; [congruence | reflexivity]).
  assert (Hstate : exists w1,
             Routes.upload_each E now files expiry_days [] w
             = (Return results, w1)).
  { destruct (Routes.upload_each E now files expiry_days [] w) as [out w1].
    cbn [fst] in Hrun. subst out. by exists w1. }
  destruct Hstate as [w1 Hstate].
  rewrite Hunfold. unfold Server.bind, Server.lift, Server.ret.
  rewrite Hstate.
  split.
  - intros Hsome. by rewrite (comprehension_uploaded results Hsome).
  - intros Hnone.
    destruct (comprehension_all_failed results Hnone)
      as (Hup & Hfail & rendered & Hjson & Hrendered).
    exists rendered. split; [exact Hjson|]. split; [lia|].
    rewrite Hup, Hfail, Hjson. cbn [fst length]. by rewrite Hlen.
Qed.

Lemma upload_multiple_files_outcome_witness :
  fst (Routes.upload_multiple_files Scenario.E Scenario.noon [Scenario.small]
         None Scenario.w0)
  = Raise TypeError.
Proof.
  destruct (upload_multiple_files_outcome Scenario.E Scenario.noon
              [Scenario.small] None Scenario.w0)
    as (results & Hrun & _ & Hcrash & _); [discriminate|].
  apply Hcrash.
  vm_compute in Hrun. injection Hrun as <-. reflexivity.
Defined.

(** ** The life of one upload *)

(** A file uploaded with a two day expiry is stored under the name drawn
    for it, is served until the expiry instant, and is gone right after:
    the expiry text the upload stores is one [fetch_date] reads back. *)
Example upload_then_view_until_expiry :
  FilesTable.expires_at
    <$> FilesTable.select_by_path "id0.txt"
          (Server.db (snd (Routes.upload_file Scenario.E Scenario.noon
                             Scenario.small (Some 2) Scenario.w0)))
  = Some (Some "2025-05-13 12:56:56+00:00")
  /\ fst (Routes.view_file Scenario.E (Scenario.noon + 2 * Datetime.US_PER_DAY)
            "id0.txt"
            (snd (Routes.upload_file Scenario.E Scenario.noon Scenario.small
                    (Some 2) Scenario.w0)))
     = Return (FileResponse "storage/id0.txt" "text/plain"
                 [("Access-Control-Allow-Origin", "*");
                  ("X-Content-Type-Options", "nosniff");
                  ("Content-Disposition", "inline; filename=notes.txt")])
  /\ fst (Routes.view_file Scenario.E
            (Scenario.noon + 2 * Datetime.US_PER_DAY + 1) "id0.txt"
            (snd (Routes.upload_file Scenario.E Scenario.noon Scenario.small
                    (Some 2) Scenario.w0)))
     = Raise (HTTPException 410 "File has expired").
Proof. repeat split; vm_compute; reflexivity. Qed.

(** A successful delete removes the bytes and the row; the next view of
    the path is a 404. *)
Example delete_then_view :
  fst (Routes.delete_file Scenario.E Scenario.noon "photo.jpg" Scenario.w0)
  = Return (JSONResponse 200
              (JObj [("message", JStr "File deleted successfully")]))
  /\ Server.fs (snd (Routes.delete_file Scenario.E Scenario.noon "photo.jpg"
                       Scenario.w0)) !! "storage/photo.jpg" = None
  /\ fst (Routes.view_file Scenario.E (Scenario.noon + 1) "photo.jpg"
            (snd (Routes.delete_file Scenario.E Scenario.noon "photo.jpg"
                    Scenario.w0)))
     = Raise (HTTPException 404 "File not found").
Proof. repeat split; vm_compute; reflexivity. Qed.


(** * Further properties *)

(** ** The rate limiter over a run of requests *)

Section RateLimiterRuns.

Import RateLimiter.

Lemma run_app (rl : t) (ip : string) (a b : list Z) :
  run rl ip (a ++ b)
  = (fst (run rl ip a) ++ fst (run (snd (run rl ip a)) ip b),
     snd (run (snd (run rl ip a)) ip b)).
Proof.
  revert rl. induction a as [|now a IH]; intros rl.
  - cbn [app run fst snd]. by destruct (run rl ip b).
  - cbn [app run]. destruct (__call__ rl ip now) as [r rl1].
    rewrite IH. destruct (run rl1 ip a) as [ra rla]. cbn [fst snd].
    by destruct (run rla ip b).
Qed.

Lemma run_length (rl : t) (ip : string) (clock : list Z) :
  length (fst (run rl ip clock)) = length clock.
Proof.
  revert rl. induction clock as [|now clock IH]; intros rl; [reflexivity|].
  cbn [run]. destruct (__call__ rl ip now) as [r rl1].
  specialize (IH rl1). destruct (run rl1 ip clock). cbn [fst length] in *.
  by rewrite IH.
Qed.

Lemma call_config (rl : t) (ip : string) (now : Z) :
  times (snd (__call__ rl ip now)) = times rl
  /\ seconds (snd (__call__ rl ip now)) = seconds rl.
Proof. unfold __call__. by destruct (_ <=? _)%nat. Qed.

Lemma run_config (rl : t) (ip : string) (clock : list Z) :
  times (snd (run rl ip clock)) = times rl
  /\ seconds (snd (run rl ip clock)) = seconds rl.
Proof.
  revert rl. induction clock as [|now clock IH]; intros rl; [by split|].
  cbn [run]. destruct (__call__ rl ip now) as [r rl1] eqn:Hcall.
  specialize (IH rl1). destruct (run rl1 ip clock). cbn [snd] in *.
  destruct (call_config rl ip now) as [Ht Hs]. rewrite Hcall in Ht, Hs.
  cbn [snd] in Ht, Hs. destruct IH. split; congruence.
Qed.

Lemma allowed_times_snoc (clock : list Z) (results : list (result unit))
    (now : Z) (r : result unit) :
  length results = length clock ->
  allowed_times (clock ++ [now]) (results ++ [r])
  = allowed_times clock results
    ++ match r with Return _ => [now] | Raise _ => [] end.
Proof.
  revert results. induction clock as [|t clock IH]; intros results Hlen.
  - destruct results; [|discriminate]. by destruct r.
  - destruct results as [|r0 results]; [discriminate|].
    cbn [app allowed_times]. injection Hlen as Hlen.
    rewrite (IH results Hlen). by destruct r0.
Qed.

Lemma allowed_times_bounded (clock : list Z) (results : list (result unit))
    (bound : Z) :
  Forall (fun t => t <= bound) clock ->
  Forall (fun t => t <= bound) (allowed_times clock results).
Proof.
  intros Hb. revert results.
  induction Hb as [|t clock Ht _ IH]; intros results; [constructor|].
  destruct results as [|[u|e] results]; cbn [allowed_times];
    [constructor | constructor; [exact Ht | apply IH] | apply IH].
Qed.

Lemma filter_filter_weaker (c1 c2 : Z) (l : list Z) :
  c1 <= c2 ->
  List.filter (fun t => c2 <? t) (List.filter (fun t => c1 <? t) l)
  = List.filter (fun t => c2 <? t) l.
Proof.
  intros Hle. induction l as [|t l IH]; [reflexivity|].
  cbn [List.filter].
  destruct (Z.ltb_spec c1 t), (Z.ltb_spec c2 t); cbn [List.filter];
    try (destruct (Z.ltb_spec c2 t)); try lia; by rewrite ?IH.
Qed.

Lemma filter_length_le (f : Z -> bool) (l : list Z) :
  (length (List.filter f l) <= length l)%nat.
Proof.
  induction l as [|t l IH]; [reflexivity|].
  cbn [List.filter]. destruct (f t); cbn [length]; lia.
Qed.

Lemma strongly_sorted_snoc (clock : list Z) (now : Z) :
  StronglySorted Z.le (clock ++ [now]) ->
  StronglySorted Z.le clock /\ Forall (fun t => t <= now) clock.
Proof.
  induction clock as [|t clock IH]; intros Hs; [split; constructor|].
  cbn [app] in Hs. inversion Hs as [|? ? Hrest Hall]; subst.
  destruct (IH Hrest) as [Hs' Hb']. split.
  - constructor; [exact Hs'|]. apply Forall_app in Hall. tauto.
  - constructor; [|exact Hb'].
    apply Forall_app in Hall as [_ Hnow]. by inversion Hnow.
Qed.

Lemma queue_of_mk_insert (n : nat) (s : Z) (m : gmap string (list Z))
    (ip : string) (q : list Z) :
  queue_of (mk n s (<[ip := q]> m)) ip = q.
Proof. unfold queue_of. cbn [requests]. by rewrite lookup_insert_eq. Qed.

Lemma last_in (l : list Z) (d : Z) : l <> [] -> In (List.last l d) l.
Proof.
  induction l as [|a [|b l] IH]; intros Hne;
    [congruence | by left | right; apply IH; discriminate].
Qed.

(** The queue of a client after a run from a fresh limiter: the allowed
    timestamps still inside the window of the last request, never more
    than [times] of them. *)
Lemma run_queue (N : nat) (W : Z) (ip : string) (clock : list Z) :
  0 < W ->
  StronglySorted Z.le clock ->
  queue_of (snd (run (__init__ N W) ip clock)) ip
  = List.filter (fun t => List.last clock 0 - W * TICKS_PER_SECOND <? t)
      (allowed_times clock (fst (run (__init__ N W) ip clock)))
  /\ (length (queue_of (snd (run (__init__ N W) ip clock)) ip) <= N)%nat.
Proof.
  intros HW. induction clock as [|now clock IH] using rev_ind; intros Hsorted.
  - cbn [run snd fst allowed_times List.filter]. unfold queue_of, __init__.
    cbn [requests]. rewrite lookup_empty. split; [reflexivity | cbn; lia].
  - destruct (strongly_sorted_snoc clock now Hsorted) as [Hclock Hbound].
    destruct (IH Hclock) as [Hqueue Hlen]. clear IH.
    rewrite run_app. cbn [fst snd]. rewrite last_last.
    pose proof (run_length (__init__ N W) ip clock) as Hrl.
    pose proof (run_config (__init__ N W) ip clock) as [Htimes Hseconds].
    assert (Hordered : StronglySorted Z.le
                         (queue_of (snd (run (__init__ N W) ip clock)) ip)).
    { apply run_keeps_order; [exact Hclock | constructor|].
      apply Forall_forall. intros; constructor. }
    set (rl := snd (run (__init__ N W) ip clock)) in *.
    set (rs := fst (run (__init__ N W) ip clock)) in *.
    cbn [__init__ times seconds] in Htimes, Hseconds.
    assert (Hkept :
      drop_expired (now - seconds rl * TICKS_PER_SECOND) (queue_of rl ip)
      = List.filter (fun t => now - W * TICKS_PER_SECOND <? t)
          (allowed_times clock rs)).
    { rewrite (drop_expired_filter _ _ Hordered), Hseconds, Hqueue.
      destruct clock as [|t0 clock0] eqn:Hc.
      - subst rs. reflexivity.
      - rewrite <- Hc in *. apply filter_filter_weaker.
        assert (List.last clock 0 <= now).
        { rewrite Forall_forall in Hbound. apply Hbound.
          apply list_elem_of_In, last_in. rewrite Hc. discriminate. }
        unfold TICKS_PER_SECOND. lia. }
    cbn [run]. unfold __call__. rewrite Hkept, Htimes.
    destruct (N <=? _)%nat eqn:Hfull; cbn [fst snd].
    + rewrite (allowed_times_snoc clock rs now _ Hrl), app_nil_r.
      rewrite queue_of_mk_insert. split; [reflexivity|].
      rewrite <- Hkept, (drop_expired_filter _ _ Hordered).
      etrans; [apply filter_length_le | exact Hlen].
    + apply Nat.leb_gt in Hfull.
      rewrite (allowed_times_snoc clock rs now _ Hrl).
      rewrite queue_of_mk_insert, deque_append_room by exact Hfull.
      rewrite List.filter_app. cbn [List.filter].
      destruct (Z.ltb_spec (now - W * TICKS_PER_SECOND) now) as [_|Hbad];
        [|unfold TICKS_PER_SECOND in Hbad; lia].
      split; [reflexivity|]. rewrite length_app. cbn [length]. lia.
Qed.

(** The outcome of a call and the queue it leaves depend on the
    limiter only through its two settings and the client's queue. *)
Lemma call_outcome (rl : t) (ip : string) (now : Z) :
  let kept :=
    drop_expired (now - seconds rl * TICKS_PER_SECOND) (queue_of rl ip) in
  fst (__call__ rl ip now)
  = (if (times rl <=? length kept)%nat
     then Raise (HTTPException 429 "Too many requests") else Return tt)
  /\ queue_of (snd (__call__ rl ip now)) ip
     = (if (times rl <=? length kept)%nat
        then kept else deque_append (times rl) kept now).
Proof.
  intros kept. subst kept. unfold __call__.
  destruct (_ <=? _)%nat; cbn [fst snd]; by rewrite queue_of_mk_insert.
Qed.

End RateLimiterRuns.

(** X1.  A limiter created with [times = N] and a positive window never
    lets more than [N] requests of one client through within a window:
    in a run of requests at non-decreasing times, the allowed requests
    that fall inside the window ending at the last request are at most
    [N], that request included. *)
Theorem rate_limiter_window_capacity (N : nat) (W : Z) (client_ip : string)
    (clock : list Z) (now : Z) :
  0 < W ->
  Sorted Z.le (clock ++ [now]) ->
  (length
     (List.filter (fun t => (now - W * RateLimiter.TICKS_PER_SECOND <? t)%Z)
        (allowed_times (clock ++ [now])
           (fst (RateLimiter.run (RateLimiter.__init__ N W) client_ip
                   (clock ++ [now])))))
   <= N)%nat.
Proof.
  intros HW Hsorted.
  apply Sorted_StronglySorted in Hsorted; [|intros x y z; lia].
  destruct (run_queue N W client_ip (clock ++ [now]) HW Hsorted) as [Hq Hlen].
  rewrite last_last in Hq. by rewrite <- Hq.
Qed.

Lemma rate_limiter_window_capacity_witness :
  (length
     (List.filter
        (fun t => (1200000 - 1 * RateLimiter.TICKS_PER_SECOND <? t)%Z)
        (allowed_times ([0; 500000; 900000] ++ [1200000])%Z
           (fst (RateLimiter.run (RateLimiter.__init__ 2 1) "10.0.0.7"
                   ([0; 500000; 900000] ++ [1200000])%Z))))
   <= 2)%nat.
Proof.
  apply (rate_limiter_window_capacity 2 1 "10.0.0.7" [0; 500000; 900000]
           1200000).
  - lia.
  - cbn [app]. repeat constructor; discriminate.
Defined.

(** X2.  Clients do not share a budget: a request of one client changes
    neither the outcome of another client's next request nor the queue
    that request leaves. *)
Theorem rate_limiter_clients_independent (rl : RateLimiter.t)
    (ip ip' : string) (now now' : Z) :
  ip <> ip' ->
  fst (RateLimiter.__call__ (snd (RateLimiter.__call__ rl ip now)) ip' now')
  = fst (RateLimiter.__call__ rl ip' now')
  /\ RateLimiter.queue_of
       (snd (RateLimiter.__call__ (snd (RateLimiter.__call__ rl ip now)) ip' now'))
       ip'
     = RateLimiter.queue_of (snd (RateLimiter.__call__ rl ip' now')) ip'.
Proof.
  intros Hne.
  pose proof (call_other_client rl ip ip' now Hne) as Hq.
  pose proof (call_config rl ip now) as [Ht Hs].
  destruct (call_outcome (snd (RateLimiter.__call__ rl ip now)) ip' now')
    as [-> ->].
  destruct (call_outcome rl ip' now') as [-> ->].
  by rewrite Hq, Ht, Hs.
Qed.

Lemma rate_limiter_clients_independent_witness :
  fst (RateLimiter.__call__
         (snd (RateLimiter.__call__ (RateLimiter.__init__ 1 5) "10.0.0.7" 0))
         "10.0.0.8" 1)
  = Return tt.
Proof.
  destruct (rate_limiter_clients_independent (RateLimiter.__init__ 1 5)
              "10.0.0.7" "10.0.0.8" 0 1) as [Hsame _]; [discriminate|].
  rewrite Hsame. reflexivity.
Defined.

(** ** The authorization guard never lets a wrong token through *)

(** X3.  Whenever the guard succeeds, the master key was presented:
    either the whole header is the key (and the word [Bearer] does not
    occur in it), or the word occurs and the second space-separated piece
    of the header is the key. *)
Theorem authorize_admin_sound (config : ApiConfig.t) (header : option string)
    (answer : bool) :
  Functions.authorize_admin config header = Return answer ->
  answer = true
  /\ exists authorization,
       header = Some authorization
       /\ authorization <> ""
       /\ ((Str.contains "Bearer" authorization = false
            /\ authorization = ApiConfig.MASTER_KEY config)
           \/ (Str.contains "Bearer" authorization = true
               /\ nth_error (Str.split " " authorization) 1
                  = Some (ApiConfig.MASTER_KEY config))).
Proof.
  unfold Functions.authorize_admin.
  destruct header as [authorization|]; [|discriminate].
  destruct authorization as [|c s]; [discriminate|].
  cbn [Str.truthy negb].
  destruct (Str.contains "Bearer" (String c s)) eqn:Hb.
  - unfold Str.item.
    destruct (nth_error (Str.split " " (String c s)) 1) as [token|] eqn:Hnth;
      [|discriminate].
    destruct (String.eqb_spec token (ApiConfig.MASTER_KEY config)) as [->|];
      cbn [negb]; [|discriminate].
    intros [= <-]. split; [reflexivity|].
    exists (String c s). split; [reflexivity|]. split; [discriminate|].
    right. by split.
  - destruct (String.eqb_spec (String c s) (ApiConfig.MASTER_KEY config))
      as [Heq|]; cbn [negb]; [|discriminate].
    intros [= <-]. split; [reflexivity|].
    exists (String c s). split; [reflexivity|]. split; [discriminate|].
    left. by split.
Qed.

Lemma authorize_admin_sound_witness :
  nth_error (Str.split " " "Bearer master_key") 1 = Some "master_key".
Proof.
  destruct (authorize_admin_sound (ApiConfig.load None None)
              (Some "Bearer master_key") true eq_refl)
    as (_ & authorization & Hheader & _ & [[Hraw _]|[_ Hpiece]]).
  - injection Hheader as <-. vm_compute in Hraw. discriminate.
  - injection Hheader as <-. exact Hpiece.
Defined.

(** ** The files table: inserting, looking up, deleting *)

Section TableFacts.

Import FilesTable.

Lemma ids_below_next (tbl : t) :
  Forall (fun r => id r < next_id tbl) (rows tbl).
Proof.
  unfold next_id. induction (rows tbl) as [|r rs IH]; [constructor|].
  cbn [List.map fold_right]. constructor; [lia|].
  eapply Forall_impl; [exact IH|]. cbn. intros; lia.
Qed.

Lemma select_none_paths (p : string) (tbl : t) :
  select_by_path p tbl = None <-> ~ In p (List.map file_path (rows tbl)).
Proof.
  unfold select_by_path. induction (rows tbl) as [|r rs IH];
    [cbn; split; [intros _ [] | reflexivity]|].
  cbn [List.find List.map In]. unfold has_path at 1.
  destruct (String.eqb_spec (file_path r) p) as [Heq|Hne].
  - split; [discriminate | intros Hn; exfalso; apply Hn; by left].
  - rewrite IH. split; [intros Hn [?|?]; tauto | intros Hn ?; apply Hn; by right].
Qed.

Lemma select_some_path (p : string) (tbl : t) (r : row) :
  select_by_path p tbl = Some r -> file_path r = p /\ In r (rows tbl).
Proof.
  unfold select_by_path. intros Hfind. apply find_some in Hfind as [Hin Hp].
  split; [by apply String.eqb_eq | exact Hin].
Qed.

Lemma select_app_miss (p : string) (rs : list row) (r : row) (s : Z) :
  List.find (has_path p) rs = None ->
  select_by_path p (mk (rs ++ [r]) s)
  = if has_path p r then Some r else None.
Proof.
  unfold select_by_path. cbn [rows]. induction rs as [|r0 rs IH]; [by cbn|].
  cbn [List.find app]. destruct (has_path p r0); [discriminate | exact IH].
Qed.

Lemma select_app_other (q : string) (rs : list row) (r : row) (s s' : Z) :
  has_path q r = false ->
  select_by_path q (mk (rs ++ [r]) s) = select_by_path q (mk rs s').
Proof.
  intros Hq. unfold select_by_path. cbn [rows].
  induction rs as [|r0 rs IH]; [by cbn; rewrite Hq|].
  cbn [List.find app]. by destruct (has_path q r0).
Qed.

Lemma find_id_app_miss (i : Z) (rs : list row) (r : row) :
  Forall (fun r0 => id r0 < i) rs ->
  List.find (fun r0 => id r0 =? i) (rs ++ [r])
  = if id r =? i then Some r else None.
Proof.
  induction 1 as [|r0 rs Hlt _ IH]; [by cbn|].
  cbn [List.find app]. destruct (Z.eqb_spec (id r0) i); [lia | exact IH].
Qed.

Lemma find_id_app_other (i : Z) (rs : list row) (r : row) :
  id r <> i ->
  List.find (fun r0 => id r0 =? i) (rs ++ [r])
  = List.find (fun r0 => id r0 =? i) rs.
Proof.
  intros Hne. induction rs as [|r0 rs IH].
  - cbn. by destruct (Z.eqb_spec (id r) i).
  - cbn [List.find app]. by destruct (id r0 =? i).
Qed.

Lemma select_delete_other (p q : string) (tbl : t) :
  p <> q ->
  select_by_path q (snd (delete_file p tbl)) = select_by_path q tbl.
Proof.
  intros Hne. unfold select_by_path, delete_file. cbn [snd rows].
  induction (rows tbl) as [|r rs IH]; [reflexivity|].
  cbn [List.filter List.find]. destruct (has_path p r) eqn:Hp; cbn [negb].
  - assert (Hq : has_path q r = false).
    { unfold has_path in *. apply String.eqb_eq in Hp.
      apply String.eqb_neq. congruence. }
    by rewrite Hq.
  - cbn [List.find]. by destruct (has_path q r).
Qed.

Lemma delete_file_reports (p : string) (tbl : t) :
  fst (delete_file p tbl) = bool_decide (is_Some (select_by_path p tbl)).
Proof.
  unfold delete_file, select_by_path. cbn [fst].
  assert (Hgen : forall rs,
    (length (List.filter (fun r => negb (has_path p r)) rs) <= length rs)%nat
    /\ ((length (List.filter (fun r => negb (has_path p r)) rs) <? length rs)%nat
        = bool_decide (is_Some (List.find (has_path p) rs)))).
  { induction rs as [|r rs [IHle IHeq]]; [by split|].
    cbn [List.filter List.find]. destruct (has_path p r); cbn [negb length].
    - split; [lia|]. rewrite bool_decide_eq_true_2 by eauto.
      apply Nat.ltb_lt. lia.
    - split; [lia|]. rewrite <- IHeq.
      destruct (Nat.ltb_spec (length (List.filter (fun r => negb (has_path p r)) rs))
                  (length rs));
        [apply Nat.ltb_lt | apply Nat.ltb_ge]; lia. }
  apply Hgen.
Qed.

End TableFacts.

(** X4.  Inserting and looking up.  On a path that already has a row
    [add_new_file] raises [IntegrityError] and leaves the table as it
    was.  On a free path it returns an id larger than every id in the
    table; the new row is then found under its path and under its id,
    with [access_count] 0 and no [last_accessed]; and every other path and
    id finds what it found before. *)
Theorem add_new_file_then_lookup (p storage name type : string) (size : Z)
    (uploaded : Datetime.datetime) (expires : option Datetime.datetime)
    (tbl : FilesTable.t) :
  match FilesTable.select_by_path p tbl with
  | Some _ =>
      FilesTable.add_new_file p storage name type size uploaded expires tbl
      = (Raise IntegrityError, tbl)
  | None =>
      let i := FilesTable.next_id tbl in
      let tbl' :=
        snd (FilesTable.add_new_file p storage name type size uploaded
               expires tbl) in
      let added :=
        FilesTable.mk_row i p storage name type size 0 None
          (FilesTable.adapt_datetime <$> expires)
          (FilesTable.adapt_datetime uploaded) in
      fst (FilesTable.add_new_file p storage name type size uploaded
             expires tbl) = Return i
      /\ Forall (fun r => FilesTable.id r < i) (FilesTable.rows tbl)
      /\ FilesTable.select_by_path p tbl' = Some added
      /\ FilesTable.get_file_by_id i tbl' = Some added
      /\ (forall q, q <> p ->
            FilesTable.select_by_path q tbl' = FilesTable.select_by_path q tbl)
      /\ (forall j, j <> i ->
            FilesTable.get_file_by_id j tbl' = FilesTable.get_file_by_id j tbl)
  end.
Proof.
  unfold FilesTable.add_new_file.
  destruct (FilesTable.select_by_path p tbl) eqn:Hsel; [reflexivity|].
  cbn [fst snd]. split; [reflexivity|].
  split; [apply ids_below_next|].
  split.
  - rewrite select_app_miss by exact Hsel.
    unfold FilesTable.has_path. cbn [FilesTable.file_path].
    by rewrite String.eqb_refl.
  - split.
    + unfold FilesTable.get_file_by_id. cbn [FilesTable.rows].
      rewrite find_id_app_miss by apply ids_below_next.
      cbn [FilesTable.id]. by rewrite Z.eqb_refl.
    + split.
      * intros q Hq. rewrite (select_app_other q _ _ _ (FilesTable.sequence tbl)).
        -- by destruct tbl.
        -- unfold FilesTable.has_path. cbn [FilesTable.file_path].
           apply String.eqb_neq. congruence.
      * intros j Hj. unfold FilesTable.get_file_by_id. cbn [FilesTable.rows].
        apply find_id_app_other. cbn [FilesTable.id]. congruence.
Qed.

(** X5.  Deleting.  [delete_file] reports [True] exactly when the path
    had a row; afterwards the path has none, every other path finds what
    it found before, and deleting again reports [False]. *)
Theorem delete_file_then_lookup (p : string) (tbl : FilesTable.t) :
  fst (FilesTable.delete_file p tbl)
  = bool_decide (is_Some (FilesTable.select_by_path p tbl))
  /\ FilesTable.select_by_path p (snd (FilesTable.delete_file p tbl)) = None
  /\ (forall q, q <> p ->
        FilesTable.select_by_path q (snd (FilesTable.delete_file p tbl))
        = FilesTable.select_by_path q tbl)
  /\ fst (FilesTable.delete_file p (snd (FilesTable.delete_file p tbl))) = false.
Proof.
  split; [apply delete_file_reports|].
  split; [apply select_delete_file|].
  split; [intros q Hq; by apply select_delete_other|].
  rewrite delete_file_reports, select_delete_file.
  apply bool_decide_eq_false_2. by intros [? ?].
Qed.

(** X6.  The dict [get_file] returns is the row as read before the
    access update: the first lookup of a path shows the old
    [access_count], and a second lookup shows the count and the
    [last_accessed] stamp the first one wrote.  Rows under other paths are
    not touched by either. *)
Theorem get_file_returns_previous_state (t1 t2 : Z) (p : string)
    (tbl : FilesTable.t) (r : FilesTable.row) :
  FilesTable.select_by_path p tbl = Some r ->
  fst (FilesTable.get_file t1 p tbl) = Some r
  /\ fst (FilesTable.get_file t2 p (snd (FilesTable.get_file t1 p tbl)))
     = Some (FilesTable.touch t1 r)
  /\ FilesTable.access_count (FilesTable.touch t1 r)
     = FilesTable.access_count r + 1
  /\ forall q, q <> p ->
       FilesTable.select_by_path q
         (snd (FilesTable.get_file t2 p (snd (FilesTable.get_file t1 p tbl))))
       = FilesTable.select_by_path q tbl.
Proof.
  intros Hsel. rewrite (get_file_hit t1 p tbl r Hsel). cbn [fst snd].
  assert (Hsel1 : FilesTable.select_by_path p (FilesTable.update_access t1 p tbl)
                  = Some (FilesTable.touch t1 r))
    by (by rewrite select_update_access, Hsel).
  rewrite (get_file_hit t2 p _ _ Hsel1). cbn [fst snd].
  repeat split. intros q Hq.
  rewrite !select_update_access_ne by congruence. reflexivity.
Qed.

Lemma get_file_returns_previous_state_witness :
  fst (FilesTable.get_file (Scenario.noon + 5) "photo.jpg"
         (snd (FilesTable.get_file Scenario.noon "photo.jpg"
                 (Server.db Scenario.w0))))
  = Some (FilesTable.touch Scenario.noon Scenario.photo).
Proof.
  apply (get_file_returns_previous_state Scenario.noon (Scenario.noon + 5)
           "photo.jpg" (Server.db Scenario.w0) Scenario.photo).
  reflexivity.
Defined.

Section TableInvariant.

Import FilesTable.

Lemma map_path_update (now : Z) (p : string) (rs : list row) :
  List.map file_path
    (List.map (fun r => if has_path p r then touch now r else r) rs)
  = List.map file_path rs.
Proof.
  induction rs as [|r rs IH]; [reflexivity|].
  cbn [List.map]. rewrite IH. by destruct (has_path p r).
Qed.

Lemma map_id_update (now : Z) (p : string) (rs : list row) :
  List.map id (List.map (fun r => if has_path p r then touch now r else r) rs)
  = List.map id rs.
Proof.
  induction rs as [|r rs IH]; [reflexivity|].
  cbn [List.map]. rewrite IH. by destruct (has_path p r).
Qed.

Lemma NoDup_map_filter {A C : Type} (f : A -> C) (keep : A -> bool)
    (l : list A) :
  NoDup (List.map f l) -> NoDup (List.map f (List.filter keep l)).
Proof.
  induction l as [|a l IH]; [done|].
  cbn [List.map List.filter]. intros Hnd. apply NoDup_cons in Hnd as [Hnotin Hnd].
  destruct (keep a); [|by apply IH].
  cbn [List.map]. apply NoDup_cons. split; [|by apply IH].
  intros Hin. apply Hnotin. apply list_elem_of_In in Hin.
  apply list_elem_of_In. apply in_map_iff in Hin as (x & Hx & Hin).
  apply in_map_iff. exists x. split; [exact Hx|].
  apply filter_In in Hin. tauto.
Qed.

Lemma next_id_ok (tbl : t) :
  Forall (fun r => id r <= sequence tbl) (rows tbl) ->
  next_id tbl = 1 + sequence tbl.
Proof.
  unfold next_id. induction 1 as [|r rs Hle _ IH]; [reflexivity|].
  cbn [List.map fold_right]. lia.
Qed.

Lemma update_access_ok (now : Z) (p : string) (tbl : t) :
  table_ok tbl -> table_ok (update_access now p tbl).
Proof.
  intros (Hpaths & Hids & Hseq). unfold table_ok, update_access.
  cbn [rows sequence]. rewrite map_path_update, map_id_update.
  split; [exact Hpaths|]. split; [exact Hids|].
  apply Forall_forall. intros r Hin. apply list_elem_of_In in Hin.
  apply in_map_iff in Hin as (r0 & <- & Hin).
  rewrite Forall_forall in Hseq. specialize (Hseq r0).
  destruct (has_path p r0); apply Hseq; by apply list_elem_of_In.
Qed.

End TableInvariant.

(** X7.  The table keeps its shape under every operation: paths stay
    unique, ids stay unique and at most the [AUTOINCREMENT] sequence.  The
    id handed out next is one more than the sequence, and deleting rows
    does not lower it, so an id is never handed out twice. *)
Theorem table_ok_preserved (tbl : FilesTable.t) :
  table_ok tbl ->
  FilesTable.next_id tbl = 1 + FilesTable.sequence tbl
  /\ (forall p storage name type size uploaded expires,
        table_ok (snd (FilesTable.add_new_file p storage name type size
                         uploaded expires tbl)))
  /\ (forall now p, table_ok (snd (FilesTable.get_file now p tbl)))
  /\ (forall now p, table_ok (FilesTable.update_file_access now p tbl))
  /\ (forall p,
        table_ok (snd (FilesTable.delete_file p tbl))
        /\ FilesTable.next_id (snd (FilesTable.delete_file p tbl))
           = FilesTable.next_id tbl).
Proof.
  intros Hok. pose proof Hok as (Hpaths & Hids & Hseq).
  split; [by apply next_id_ok|].
  split; [|split; [|split]].
  - intros p storage name type size uploaded expires.
    unfold FilesTable.add_new_file.
    destruct (FilesTable.select_by_path p tbl) eqn:Hsel; [exact Hok|].
    cbn [snd]. unfold table_ok. cbn [FilesTable.rows FilesTable.sequence].
    rewrite !List.map_app. cbn [List.map FilesTable.file_path FilesTable.id].
    pose proof (ids_below_next tbl) as Hbelow.
    split; [|split].
    + apply NoDup_app. split; [exact Hpaths|]. split; [|apply NoDup_singleton].
      intros q Hq Hq'. apply list_elem_of_singleton in Hq'. subst q.
      apply select_none_paths in Hsel. apply Hsel. by apply list_elem_of_In.
    + apply NoDup_app. split; [exact Hids|]. split; [|apply NoDup_singleton].
      intros j Hj Hj'. apply list_elem_of_singleton in Hj'. subst j.
      apply list_elem_of_In, in_map_iff in Hj as (r & Hr & Hin).
      rewrite Forall_forall in Hbelow.
      specialize (Hbelow r ltac:(by apply list_elem_of_In)). lia.
    + apply Forall_app. split.
      * eapply Forall_impl; [exact Hbelow|]. cbn. intros; lia.
      * repeat constructor. cbn. lia.
  - intros now p. unfold FilesTable.get_file.
    destruct (FilesTable.select_by_path p tbl); [|exact Hok].
    by apply update_access_ok.
  - intros now p. by apply update_access_ok.
  - intros p.
    assert (Hok' : table_ok (snd (FilesTable.delete_file p tbl))).
    { unfold table_ok, FilesTable.delete_file.
      cbn [snd FilesTable.rows FilesTable.sequence].
      split; [by apply NoDup_map_filter|]. split; [by apply NoDup_map_filter|].
      apply Forall_forall. intros r Hin. apply list_elem_of_In in Hin.
      apply filter_In in Hin as [Hin _].
      rewrite Forall_forall in Hseq. apply Hseq. by apply list_elem_of_In. }
    split; [exact Hok'|].
    destruct Hok' as (_ & _ & Hseq').
    rewrite (next_id_ok _ Hseq'), (next_id_ok _ Hseq). reflexivity.
Qed.

Lemma table_ok_preserved_witness :
  table_ok (Server.db Scenario.w0)
  /\ FilesTable.next_id
       (snd (FilesTable.delete_file "folder.bin" (Server.db Scenario.w0)))
     = 5.
Proof.
  assert (Hok : table_ok (Server.db Scenario.w0)).
  { unfold table_ok. cbn.
    split; [|split].
    - apply (bool_decide_unpack _). vm_compute. exact I.
    - apply (bool_decide_unpack _). vm_compute. exact I.
    - repeat constructor; cbn; lia. }
  split; [exact Hok|].
  destruct (table_ok_preserved (Server.db Scenario.w0) Hok)
    as (_ & _ & _ & _ & Hdelete).
  destruct (Hdelete "folder.bin") as [_ ->]. reflexivity.
Defined.

(** X8.  [count_all_by_file_type] maps every MIME type that occurs in the
    table to the number of rows that carry it, and has no entry for a
    type that does not occur. *)
Theorem count_all_by_file_type_counts (tbl : FilesTable.t) (type : string) :
  FilesTable.count_all_by_file_type tbl !! type
  = match length (List.filter (fun r => String.eqb (FilesTable.file_type r) type)
                    (FilesTable.rows tbl)) with
    | O => None
    | S n => Some (Z.of_nat (S n))
    end.
Proof.
  unfold FilesTable.count_all_by_file_type.
  induction (FilesTable.rows tbl) as [|r rs IH]; [apply lookup_empty|].
  cbn [fold_right List.filter].
  destruct (String.eqb_spec (FilesTable.file_type r) type) as [->|Hne].
  - rewrite lookup_insert_eq, IH. cbn [length].
    destruct (length _); unfold default; cbn [from_option id]; f_equal; lia.
  - rewrite lookup_insert_ne by exact Hne. exact IH.
Qed.

(** ** What a view, a delete and a compress leave behind *)

Lemma fetch_date_raises (h : Functions.host) (text : string) (e : exn) :
  Functions.fetch_date h text = Raise e -> e = ValueError \/ e = OverflowError.
Proof.
  unfold Functions.fetch_date.
  destruct (Datetime.fromisoformat text) as [d|].
  - by destruct (Datetime.astimezone_utc _ d).
  - destruct (Functions.strptime h text) as [d|]; [|intros [= <-]; by left].
    destruct (Datetime.astimezone_utc _ d); [discriminate|].
    intros [= <-]. by right.
Qed.

(** What the expiry test raises is never an [HTTPException]. *)
Lemma is_expired_raises_plain {B : Type} `{Bytes B} (E : Server.env B)
    (now : Z) (r : FilesTable.row) (e : exn) :
  Routes.is_expired E now r = Raise e -> Server.is_HTTPException e = false.
Proof.
  unfold Routes.is_expired.
  destruct (FilesTable.expires_at r) as [text|]; [|discriminate].
  destruct (negb (Str.truthy text)); [discriminate|].
  destruct (Functions.fetch_date (Server.host E) text) as [[d|]|e'] eqn:Hfetch.
  - unfold Datetime.lt_now. destruct (Datetime.tzinfo d); [discriminate|].
    by intros [= <-].
  - by intros [= <-].
  - intros [= <-]. by destruct (fetch_date_raises _ _ _ Hfetch) as [->| ->].
Qed.

(** X9.  A view or download that answers: the row exists, the response
    reads the row's storage path, which is on disk, and carries
    [Access-Control-Allow-Origin: *] and [X-Content-Type-Options: nosniff]
    whatever the content type; a download is always a whole-file response
    with an attachment disposition naming the original file.  The disk is
    not touched, and exactly one access update is left pending.  The only
    [HTTPException]s of [serve_file] are its 404 and 410, and a request
    refused with one of them leaves no task behind: the three checks come
    before the task is created. *)
Theorem serve_file_response {B : Type} `{Bytes B} (E : Server.env B)
    (now : Z) (file_path : string) (as_download : bool) (w : Server.world B) :
  match fst (Routes.serve_file E now file_path as_download w) with
  | Return resp =>
      (exists r,
          FilesTable.select_by_path file_path (Server.db w) = Some r
          /\ served_path resp = Some (FilesTable.storage_path r)
          /\ is_Some (Server.fs w !! FilesTable.storage_path r)
          /\ (as_download = true ->
              header "Content-Disposition" resp
              = Some ("attachment; filename=" +:+ FilesTable.file_name r)
              /\ exists media_type headers,
                   resp = FileResponse (FilesTable.storage_path r) media_type
                            headers))
      /\ header "Access-Control-Allow-Origin" resp = Some "*"
      /\ header "X-Content-Type-Options" resp = Some "nosniff"
      /\ Server.tasks (snd (Routes.serve_file E now file_path as_download w))
         = Server.tasks w ++ [UpdateFileAccess file_path]
  | Raise (HTTPException status _) =>
      (status = 404 \/ status = 410)
      /\ Server.tasks (snd (Routes.serve_file E now file_path as_download w))
         = Server.tasks w
  | Raise _ => True
  end
  /\ Server.fs (snd (Routes.serve_file E now file_path as_download w))
     = Server.fs w.
Proof.
  unfold Routes.serve_file, Server.bind.
  destruct (FilesTable.select_by_path file_path (Server.db w)) as [r|] eqn:Hsel.
  2: { rewrite (db_get_file_miss _ _ _ Hsel). split; [|reflexivity].
       split; [by left | reflexivity]. }
  rewrite (db_get_file_hit _ _ _ _ Hsel). unfold Server.lift.
  destruct (Routes.is_expired E now r) as [[|]|e] eqn:Hexpired.
  { split; [|reflexivity]. split; [by right | reflexivity]. }
  2: { split; [|reflexivity]. cbn [fst].
       pose proof (is_expired_raises_plain E now r e Hexpired) as Hplain.
       destruct e; [discriminate | exact I..]. }
  unfold Routes.os_path_exists. cbn [Server.fs Server.set_db].
  destruct (FS.path_exists (FilesTable.storage_path r) (Server.fs w)) eqn:Hdisk;
    [|rewrite orb_true_r; split; [|reflexivity];
      split; [by left | reflexivity]].
  destruct (Str.truthy (FilesTable.storage_path r));
    [|split; [|reflexivity]; split; [by left | reflexivity]].
  cbn [negb orb].
  unfold Routes.create_task, Server.modify, Server.ret.
  assert (Hon : is_Some (Server.fs w !! FilesTable.storage_path r))
    by (unfold FS.path_exists in Hdisk; by apply bool_decide_eq_true in Hdisk).
  destruct as_download; cbn [negb andb].
  - split; [|reflexivity]. cbn [fst snd Server.tasks Server.set_tasks].
    split; [|by repeat split].
    exists r. repeat split; try done. eauto.
  - repeat match goal with
           | |- context [if ?c then _ else _] => destruct c
           end;
      (split; [|reflexivity]); cbn [fst snd Server.tasks Server.set_tasks];
      (split; [|by repeat split]); exists r; by repeat split.
Qed.

Lemma serve_file_response_witness :
  header "Content-Disposition"
    (FileResponse "storage/photo.jpg" "image/jpeg"
       [("Access-Control-Allow-Origin", "*");
        ("X-Content-Type-Options", "nosniff");
        ("Content-Disposition", "attachment; filename=holiday.jpg")])
  = Some "attachment; filename=holiday.jpg".
Proof.
  pose proof (serve_file_response Scenario.E Scenario.noon "photo.jpg" true
                Scenario.w0) as [Hshape _].
  assert (Hfst :
    fst (Routes.serve_file Scenario.E Scenario.noon "photo.jpg" true Scenario.w0)
    = Return (FileResponse "storage/photo.jpg" "image/jpeg"
                [("Access-Control-Allow-Origin", "*");
                 ("X-Content-Type-Options", "nosniff");
                 ("Content-Disposition", "attachment; filename=holiday.jpg")]))
    by (vm_compute; reflexivity).
  rewrite Hfst in Hshape.
  destruct Hshape as ((r & Hsel & _ & _ & Hdownload) & _).
  destruct (Hdownload eq_refl) as [Hdisposition _].
  vm_compute in Hsel. injection Hsel as <-. exact Hdisposition.
Defined.

(** [fetch_date] raises nothing but the two exceptions of its fallback
    attempt. *)
(** The expiry test raises no HTTP failure of its own: what it raises
    reaches the client as a 500. *)
Lemma is_expired_raises {B : Type} `{Bytes B} (E : Server.env B) (now : Z)
    (r : FilesTable.row) (e : exn) :
  Routes.is_expired E now r = Raise e -> status_of_exn e = 500.
Proof.
  unfold Routes.is_expired.
  destruct (FilesTable.expires_at r) as [text|]; [|discriminate].
  destruct (negb (Str.truthy text)); [discriminate|].
  destruct (Functions.fetch_date (Server.host E) text) as [[d|]|e'] eqn:Hfetch.
  - unfold Datetime.lt_now. destruct (Datetime.tzinfo d); [discriminate|].
    by intros [= <-].
  - by intros [= <-].
  - intros [= <-]. by destruct (fetch_date_raises _ _ _ Hfetch) as [->| ->].
Qed.

(** X10.  The admin delete.  When it answers, the row existed, its bytes
    were a file on disk, the bytes and the row are gone, and any later
    view or download of the path is a 404.  When it raises, with a status
    of 404, 410 or 500, nothing was removed from disk.  In neither case
    is a task created. *)
Theorem delete_file_outcome {B : Type} `{Bytes B} (E : Server.env B)
    (now : Z) (file_path : string) (w : Server.world B) :
  match fst (Routes.delete_file E now file_path w) with
  | Return resp =>
      resp = JSONResponse 200
               (JObj [("message", JStr "File deleted successfully")])
      /\ (exists r content,
             FilesTable.select_by_path file_path (Server.db w) = Some r
             /\ Server.fs w !! FilesTable.storage_path r = Some (FS.File content)
             /\ Server.fs (snd (Routes.delete_file E now file_path w))
                = delete (FilesTable.storage_path r) (Server.fs w))
      /\ forall later as_download,
           fst (Routes.serve_file E later file_path as_download
                  (snd (Routes.delete_file E now file_path w)))
           = Raise (HTTPException 404 "File not found")
  | Raise e =>
      (status_of_exn e = 404 \/ status_of_exn e = 410 \/ status_of_exn e = 500)
      /\ Server.fs (snd (Routes.delete_file E now file_path w)) = Server.fs w
  end
  /\ Server.tasks (snd (Routes.delete_file E now file_path w)) = Server.tasks w.
Proof.
  unfold Routes.delete_file, Server.bind.
  destruct (FilesTable.select_by_path file_path (Server.db w)) as [r|] eqn:Hsel.
  2: { rewrite (db_get_file_miss _ _ _ Hsel). cbn. tauto. }
  rewrite (db_get_file_hit _ _ _ _ Hsel). unfold Server.lift.
  destruct (Routes.is_expired E now r) as [[|]|e] eqn:Hexp.
  - cbn. tauto.
  - unfold Routes.os_path_exists. cbn [Server.fs Server.set_db].
    destruct (negb (Str.truthy (FilesTable.storage_path r))
              || negb (FS.path_exists (FilesTable.storage_path r) (Server.fs w)));
      [cbn; tauto|].
    unfold Server.try_except, Server.bind, Routes.os_remove, FS.remove.
    cbn [Server.fs Server.set_db].
    destruct (Server.fs w !! FilesTable.storage_path r) as [[|content]|] eqn:Hnode;
      [cbn; tauto | | cbn; tauto].
    rewrite db_delete_file_run.
    cbn [fst snd Server.db Server.set_db Server.set_fs Server.ret Server.fs
         Server.tasks].
    split; [|reflexivity]. split; [reflexivity|]. split; [by exists r, content|].
    intros later as_download. unfold Routes.serve_file, Server.bind.
    rewrite db_get_file_miss; [reflexivity|].
    cbn [Server.db]. apply select_delete_file.
  - cbn [fst snd Server.fs Server.set_db Server.tasks].
    split; [|reflexivity]. split; [|reflexivity].
    right. right. exact (is_expired_raises E now r e Hexp).
Qed.

(** X11.  The compress handler never raises: it always answers, with
    status 200, 400 or 500.  It creates no task, changes no file other
    than the stored file of the row, changes nothing at all on disk
    unless it answers 200, and leaves the state untouched when the path
    has no row.  The row keeps the [file_size] and [file_type] it had:
    the metadata is not refreshed after re-encoding. *)
Theorem compress_file_outcome {B : Type} `{Bytes B} (E : Server.env B)
    (now : Z) (file_path : string) (body : option json) (w : Server.world B) :
  exists resp,
    fst (Routes.compress_file E now file_path body w) = Return resp
    /\ (status_code_of resp = 200 \/ status_code_of resp = 400
        \/ status_code_of resp = 500)
    /\ Server.tasks (snd (Routes.compress_file E now file_path body w))
       = Server.tasks w
    /\ (status_code_of resp <> 200 ->
        Server.fs (snd (Routes.compress_file E now file_path body w))
        = Server.fs w)
    /\ match FilesTable.select_by_path file_path (Server.db w) with
       | None => snd (Routes.compress_file E now file_path body w) = w
       | Some r =>
           (forall other, other <> FilesTable.storage_path r ->
              Server.fs (snd (Routes.compress_file E now file_path body w))
              !! other = Server.fs w !! other)
           /\ exists r',
                FilesTable.select_by_path file_path
                  (Server.db (snd (Routes.compress_file E now file_path body w)))
                = Some r'
                /\ FilesTable.file_size r' = FilesTable.file_size r
                /\ FilesTable.file_type r' = FilesTable.file_type r
       end.
Proof.
  destruct (FilesTable.select_by_path file_path (Server.db w)) as [r|] eqn:Hsel.
  2: { rewrite (compress_file_missing E now file_path body w Hsel).
       eexists. cbn. split; [reflexivity|]. tauto. }
  destruct (compress_file_db E now file_path body w r Hsel)
    as (Hdb & Htasks & _).
  assert (Hfs : exists resp,
    fst (Routes.compress_file E now file_path body w) = Return resp
    /\ (status_code_of resp = 200 \/ status_code_of resp = 400
        \/ status_code_of resp = 500)
    /\ (status_code_of resp <> 200 ->
        Server.fs (snd (Routes.compress_file E now file_path body w))
        = Server.fs w)
    /\ (forall other, other <> FilesTable.storage_path r ->
          Server.fs (snd (Routes.compress_file E now file_path body w))
          !! other = Server.fs w !! other)).
  { unfold Routes.compress_file, Server.try_except, Server.bind.
    rewrite (db_get_file_hit _ _ _ _ Hsel). unfold Server.lift.
    destruct (Routes.is_expired E now r) as [[|]|e]; cbn;
      try (eexists; split; [reflexivity|]; cbn; by intuition lia).
    destruct body as [b|]; cbn;
      [|eexists; split; [reflexivity|]; cbn; by intuition lia].
    destruct (Routes.parse_params E b) as [params|e]; cbn.
    - unfold Routes.await_create_task.
      rewrite create_image_compression_task_effect. cbn.
      eexists. split; [reflexivity|]. cbn. split; [tauto|].
      split; [congruence|].
      intros other Hother. unfold FS.read. cbn.
      destruct (Server.fs w !! FilesTable.storage_path r) as [[|content]|];
        cbn; try reflexivity.
      destruct (Server.compress_bytes_sync E content _ _ _ _); cbn;
        [by rewrite lookup_insert_ne | reflexivity].
    - destruct e; cbn; eexists; (split; [reflexivity|]); cbn; by intuition lia. }
  destruct Hfs as (resp & Hresp & Hstatus & Hfail & Hother).
  exists resp. split; [exact Hresp|]. split; [exact Hstatus|].
  split; [exact Htasks|]. split; [exact Hfail|]. split; [exact Hother|].
  exists (FilesTable.touch now r). rewrite Hdb.
  by rewrite select_update_access, Hsel.
Qed.

Lemma compress_file_outcome_witness :
  Server.fs (snd (Routes.compress_file Scenario.E Scenario.noon "photo.jpg"
                    (Some (JObj [])) Scenario.w0)) !! "storage/stale.bin"
  = Server.fs Scenario.w0 !! "storage/stale.bin".
Proof.
  destruct (compress_file_outcome Scenario.E Scenario.noon "photo.jpg"
              (Some (JObj [])) Scenario.w0)
    as (resp & _ & _ & _ & _ & Hrow).
  change (FilesTable.select_by_path "photo.jpg" (Server.db Scenario.w0))
    with (Some Scenario.photo) in Hrow.
  destruct Hrow as [Hother _]. apply Hother. discriminate.
Defined.

(** ** Uploads that fit *)

Section UploadSuccessFacts.
Context {B : Type} `{Bytes B}.
Variable E : Server.env B.

Lemma received_nonneg (chunks : list B) : 0 <= received chunks.
Proof.
  unfold received. induction chunks as [|c chunks IH]; cbn; [lia|].
  pose proof (len_nonneg c). lia.
Qed.

Lemma len_fold_concat (chunks : list B) (content : B) :
  len (fold_left bytes_concat chunks content) = len content + received chunks.
Proof.
  revert content. induction chunks as [|c chunks IH]; intros content.
  - unfold received. cbn. lia.
  - cbn [fold_left]. rewrite IH, len_concat. unfold received. cbn. lia.
Qed.

Lemma set_fs_set_fs (f g : gmap string (FS.node B)) (w : Server.world B) :
  Server.set_fs f (Server.set_fs g w) = Server.set_fs f w.
Proof. reflexivity. Qed.

(** Within the limit the loop writes every chunk, in order, and returns
    the number of bytes received. *)
Lemma stream_to_disk_fits (path : string) (chunks : list B) (file_size : Z)
    (w : Server.world B) (content : B) :
  Server.fs w !! path = Some (FS.File content) ->
  Forall (fun chunk => len chunk <> 0) chunks ->
  file_size + received chunks <= Routes.file_size_limit ->
  Routes.stream_to_disk path chunks file_size w
  = (Return (file_size + received chunks),
     Server.set_fs
       (<[path := FS.File (fold_left bytes_concat chunks content)]> (Server.fs w))
       w).
Proof.
  revert file_size w content.
  induction chunks as [|chunk rest IH]; intros file_size w content Hfile Hne Hfit.
  - cbn [Routes.stream_to_disk fold_left]. unfold Server.ret, received. cbn.
    rewrite Z.add_0_r, (insert_id _ _ _ Hfile). by destruct w.
  - inversion Hne as [|? ? Hchunk Hrest]; subst.
    assert (Hsum : received (chunk :: rest) = len chunk + received rest)
      by reflexivity.
    pose proof (received_nonneg rest).
    cbn [Routes.stream_to_disk fold_left].
    destruct (Z.eqb_spec (len chunk) 0) as [|_]; [contradiction|].
    destruct (Z.ltb_spec Routes.file_size_limit (file_size + len chunk));
      [lia|].
    unfold Server.bind, Routes.fs_write, Server.modify, FS.write.
    rewrite Hfile.
    rewrite (IH (file_size + len chunk) _ (bytes_concat content chunk)).
    + cbn [Server.fs Server.set_fs]. rewrite insert_insert_eq, Hsum.
      rewrite set_fs_set_fs. f_equal. f_equal. lia.
    + cbn [Server.fs Server.set_fs]. apply lookup_insert_eq.
    + exact Hrest.
    + lia.
Qed.

Lemma first_free_nonempty (fs : gmap string (FS.node B)) (base ext : string)
    (fuel : nat) (counter : N) :
  Routes.first_free fs base ext fuel counter <> "".
Proof.
  assert (Hnum : forall k, Routes.numbered base k ext <> "")
    by (intros k; unfold Routes.numbered; by destruct base).
  revert counter. induction fuel as [|fuel IH]; intros counter; [apply Hnum|].
  cbn [Routes.first_free]. destruct (FS.path_exists _ fs); [apply IH | apply Hnum].
Qed.

(** The path an upload is stored under is never the empty string. *)
Lemma get_unique_path_nonempty (safe path : string) (w w' : Server.world B) :
  Routes.get_unique_path (FS.join Routes.STORAGE_DIR safe) w = (Return path, w') ->
  path <> "".
Proof.
  unfold Routes.get_unique_path.
  destruct (negb (FS.path_exists _ (Server.fs w))).
  - intros [= <- _]. unfold FS.join.
    destruct (String.prefix "/" safe) eqn:Hprefix; [|discriminate].
    by destruct safe.
  - destruct (FS.splitext _) as [base ext]. intros [= <- _].
    apply (first_free_nonempty (Server.fs w) base ext (S (size (Server.fs w)))
             1%N).
Qed.

End UploadSuccessFacts.

Lemma upload_file_success {B : Type} `{Bytes B} (E : Server.env B)
    (now : Z) (file : Routes.UploadFile) (expiry_days : option Z)
    (w : Server.world B) (safe : string) :
  fst (Routes.get_safe_filename E (Routes.filename file) w) = Return safe ->
  FilesTable.select_by_path safe (Server.db w) = None ->
  Forall (fun chunk => len chunk <> 0) (Routes.chunks file) ->
  received (Routes.chunks file) <= 5 * 1024 ^ 3 ->
  (forall t, expiry_instant now expiry_days = Some t ->
     is_Some (Datetime.of_instant t)) ->
  Server.refuses E (upload_path E file w) = None ->
  exists fields row path content,
    fst (Routes.upload_file E now file expiry_days w)
    = Return (JSONResponse 200 (JObj fields))
    /\ dict_get "file_size" fields
       = Some (JInt (received (Routes.chunks file)))
    /\ dict_get "file_url" fields
       = Some (JStr (ApiConfig.BASE_URL (Server.config E) +:+ "/file/view/"
                     +:+ safe))
    /\ dict_get "download_url" fields
       = Some (JStr (ApiConfig.BASE_URL (Server.config E) +:+ "/file/download/"
                     +:+ safe))
    /\ FilesTable.select_by_path safe
         (Server.db (snd (Routes.upload_file E now file expiry_days w)))
       = Some row
    /\ FilesTable.file_size row = received (Routes.chunks file)
    /\ FilesTable.storage_path row = path
    /\ path <> ""
    /\ FilesTable.file_name row = original_name (Routes.filename file) safe
    /\ FilesTable.access_count row = 0
    /\ FilesTable.expires_at row
       = (fun t => FilesTable.adapt_datetime (Datetime.utc_fields t))
           <$> expiry_instant now expiry_days
    /\ Server.fs w !! path = None
    /\ Server.fs (snd (Routes.upload_file E now file expiry_days w))
       = <[path := FS.File content]> (Server.fs w)
    /\ len content = received (Routes.chunks file)
    /\ Server.tasks (snd (Routes.upload_file E now file expiry_days w))
       = Server.tasks w
         ++ match expiry_instant now expiry_days with
            | Some _ => [AutoDeleteExpiredFile None (Some (FilesTable.id row))]
            | None => []
            end
    /\ Server.drawn (snd (Routes.upload_file E now file expiry_days w))
       = S (Server.drawn w)
    /\ (forall other, other <> safe ->
         FilesTable.select_by_path other
           (Server.db (snd (Routes.upload_file E now file expiry_days w)))
         = FilesTable.select_by_path other (Server.db w))
    /\ dict_get "content_type" fields = Some (JStr (FilesTable.file_type row))
    /\ FilesTable.file_type row <> ""
    /\ (forall declared,
          Routes.content_type file = Some declared ->
          declared <> "" ->
          declared <> "application/octet-stream" ->
          FilesTable.file_type row = declared).
Proof.
  intros Hsafe Hfree Hchunks Hfit Hexpiry Hopened.
  destruct (get_safe_filename_run E (Routes.filename file) w) as [safe' Hrun].
  rewrite Hrun in Hsafe. cbn [fst] in Hsafe. injection Hsafe as ->.
  destruct (get_unique_path_fresh (FS.join Routes.STORAGE_DIR safe)
              (Server.set_drawn (S (Server.drawn w)) w))
    as (path & Hpath & Hfresh).
  rewrite (upload_path_run E file w safe path Hrun Hpath) in Hopened.
  set (w1 := Server.set_drawn (S (Server.drawn w)) w) in *.
  assert (Hexp : exists expires,
    match expiry_days with
    | Some days =>
        if days =? 0 then Return None
        else match Datetime.of_instant (now + days * Datetime.US_PER_DAY) with
             | Some d => Return (Some d)
             | None => Raise OverflowError
             end
    | None => Return None
    end = Return expires
    /\ expires = Datetime.utc_fields <$> expiry_instant now expiry_days).
  { unfold expiry_instant in *. destruct expiry_days as [days|]; [|by eexists].
    destruct (days =? 0); [by eexists|].
    destruct (Hexpiry _ eq_refl) as [d Hd]. rewrite Hd. exists (Some d).
    split; [reflexivity|]. cbn. f_equal.
    unfold Datetime.of_instant in Hd.
    destruct (_ || _); [discriminate | by injection Hd]. }
  destruct Hexp as (expires & Hexp & Hexpires).
  set (content := fold_left bytes_concat (Routes.chunks file) bytes_empty).
  set (original := original_name (Routes.filename file) safe).
  assert (Horiginal :
    (if Routes.option_truthy (Routes.filename file)
     then default safe (Routes.filename file) else safe) = original).
  { unfold original, original_name, Routes.option_truthy.
    destruct (Routes.filename file) as [name|]; [|reflexivity].
    by destruct (Str.truthy name). }
  unfold Routes.upload_file, Server.try_except, Server.bind.
  rewrite Hrun, Hpath. fold w1.
  rewrite (fs_open_wb_fresh E path w1 Hfresh), Hopened.
  rewrite (stream_to_disk_fits path (Routes.chunks file) 0 _ bytes_empty);
    [|cbn [Server.fs Server.set_fs]; apply lookup_insert_eq | exact Hchunks
     |unfold Routes.file_size_limit; lia].
  fold content. cbn [Server.fs Server.set_fs]. rewrite insert_insert_eq.
  rewrite Z.add_0_l, Horiginal.
  unfold Server.lift. rewrite Hexp.
  unfold Routes.db_add_new_file, FilesTable.add_new_file.
  cbn [Server.db Server.set_fs]. subst w1. cbn [Server.db Server.set_drawn].
  rewrite Hfree.
  set (row := FilesTable.mk_row (FilesTable.next_id (Server.db w)) safe path
                original _ (received (Routes.chunks file)) 0 None
                (FilesTable.adapt_datetime <$> expires) _).
  assert (Hrow : FilesTable.select_by_path safe
                   (FilesTable.mk (FilesTable.rows (Server.db w) ++ [row])
                      (FilesTable.next_id (Server.db w)))
                 = Some row).
  { rewrite select_app_miss by exact Hfree.
    unfold FilesTable.has_path. cbn [FilesTable.file_path row].
    by rewrite String.eqb_refl. }
  assert (Hexprow : FilesTable.adapt_datetime <$> expires
                    = (fun t => FilesTable.adapt_datetime (Datetime.utc_fields t))
                        <$> expiry_instant now expiry_days).
  { rewrite Hexpires. by destruct (expiry_instant now expiry_days). }
  assert (Htask : forall w2 : Server.world B,
    match expires with
    | Some _ =>
        Routes.create_task
          (AutoDeleteExpiredFile None (Some (FilesTable.next_id (Server.db w))))
    | None => Server.ret tt
    end w2
    = (Return tt,
       Server.set_tasks
         (Server.tasks w2
          ++ match expiry_instant now expiry_days with
             | Some _ =>
                 [AutoDeleteExpiredFile None
                    (Some (FilesTable.next_id (Server.db w)))]
             | None => []
             end) w2)).
  { intros w2. rewrite Hexpires.
    destruct (expiry_instant now expiry_days); cbn; [reflexivity|].
    unfold Server.ret. rewrite app_nil_r. by destruct w2. }
  rewrite Htask. unfold Server.ret.
  cbn [fst snd Server.db Server.fs Server.tasks Server.set_tasks Server.set_db
       Server.set_fs Server.set_drawn].
  eexists _, row, path, content.
  split; [reflexivity|].
  pose proof (get_unique_path_nonempty _ _ _ _ Hpath) as Hnonempty.
  repeat (split; [first [reflexivity | exact Hrow | exact Hexprow | exact Hfresh
                        | exact Hnonempty]|]).
  split; [unfold content; rewrite len_fold_concat, len_empty; lia|].
  split; [reflexivity|]. split; [reflexivity|].
  split.
  { intros other Hother.
    rewrite (select_app_other other _ _ _ (FilesTable.sequence (Server.db w))).
    - by destruct (Server.db w).
    - unfold FilesTable.has_path. cbn [FilesTable.file_path row].
      apply String.eqb_neq. congruence. }
  split; [reflexivity|].
  cbn [FilesTable.file_type row]. split.
  - destruct (negb (Routes.option_truthy (Routes.content_type file))
              || bool_decide (Routes.content_type file
                              = Some "application/octet-stream")) eqn:Hguess.
    + destruct (Server.guess_type E original) as [[|c guessed]|]; discriminate.
    + apply orb_false_iff in Hguess as [Htruthy _].
      apply negb_false_iff in Htruthy. unfold Routes.option_truthy in Htruthy.
      destruct (Routes.content_type file) as [[|c declared]|]; discriminate.
  - intros declared Hdeclared Hne Hoctet. rewrite Hdeclared.
    rewrite bool_decide_eq_false_2 by congruence.
    unfold Routes.option_truthy. by destruct declared.
Qed.

(** X12.  An upload that stays within 5 GiB, whose drawn name is not yet
    a path of the table, whose expiry date (if one is asked for) lies
    inside years 1..9999, and whose storage path the operating system
    accepts; the chunks are the non-empty reads of the stream.  The
    handler answers 200; the [file_size] it
    reports and records is the exact number of bytes received, and the
    file it wrote holds that many bytes at a non-empty path that did not
    exist before; nothing else on disk changes.  The row is found under the
    drawn name, with the original file name, [access_count] 0 and the
    expiry [expiry_days] days after the upload; the two URLs end in the
    drawn name; and a deletion task is created exactly when an expiry was
    asked for. *)
Theorem upload_file_stores {B : Type} `{Bytes B} (E : Server.env B)
    (now : Z) (file : Routes.UploadFile) (expiry_days : option Z)
    (w : Server.world B) (safe : string) :
  fst (Routes.get_safe_filename E (Routes.filename file) w) = Return safe ->
  FilesTable.select_by_path safe (Server.db w) = None ->
  Forall (fun chunk => len chunk <> 0) (Routes.chunks file) ->
  received (Routes.chunks file) <= 5 * 1024 ^ 3 ->
  (forall t, expiry_instant now expiry_days = Some t ->
     is_Some (Datetime.of_instant t)) ->
  Server.refuses E (upload_path E file w) = None ->
  exists fields row path content,
    fst (Routes.upload_file E now file expiry_days w)
    = Return (JSONResponse 200 (JObj fields))
    /\ dict_get "file_size" fields
       = Some (JInt (received (Routes.chunks file)))
    /\ dict_get "file_url" fields
       = Some (JStr (ApiConfig.BASE_URL (Server.config E) +:+ "/file/view/"
                     +:+ safe))
    /\ dict_get "download_url" fields
       = Some (JStr (ApiConfig.BASE_URL (Server.config E) +:+ "/file/download/"
                     +:+ safe))
    /\ FilesTable.select_by_path safe
         (Server.db (snd (Routes.upload_file E now file expiry_days w)))
       = Some row
    /\ FilesTable.file_size row = received (Routes.chunks file)
    /\ FilesTable.storage_path row = path
    /\ path <> ""
    /\ FilesTable.file_name row = original_name (Routes.filename file) safe
    /\ FilesTable.access_count row = 0
    /\ FilesTable.expires_at row
       = (fun t => FilesTable.adapt_datetime (Datetime.utc_fields t))
           <$> expiry_instant now expiry_days
    /\ Server.fs w !! path = None
    /\ Server.fs (snd (Routes.upload_file E now file expiry_days w))
       = <[path := FS.File content]> (Server.fs w)
    /\ len content = received (Routes.chunks file)
    /\ Server.tasks (snd (Routes.upload_file E now file expiry_days w))
       = Server.tasks w
         ++ match expiry_instant now expiry_days with
            | Some _ => [AutoDeleteExpiredFile None (Some (FilesTable.id row))]
            | None => []
            end
    /\ Server.drawn (snd (Routes.upload_file E now file expiry_days w))
       = S (Server.drawn w)
    /\ forall other, other <> safe ->
         FilesTable.select_by_path other
           (Server.db (snd (Routes.upload_file E now file expiry_days w)))
         = FilesTable.select_by_path other (Server.db w).
Proof.
  intros Hsafe Hfree Hchunks Hfit Hexpiry Hopened.
  destruct (upload_file_success E now file expiry_days w safe Hsafe Hfree
              Hchunks Hfit Hexpiry Hopened)
    as (fields & row & path & content & Hfacts).
  exists fields, row, path, content. tauto.
Qed.

Lemma upload_file_stores_witness :
  FilesTable.file_size
    <$> FilesTable.select_by_path "id0.txt"
          (Server.db (snd (Routes.upload_file Scenario.E Scenario.noon
                             Scenario.small (Some 2) Scenario.w0)))
  = Some 12.
Proof.
  assert (Hexpiry : forall t,
    expiry_instant Scenario.noon (Some 2) = Some t ->
    is_Some (Datetime.of_instant t)).
  { intros t Ht. vm_compute in Ht. injection Ht as <-.
    vm_compute. by eexists. }
  assert (Hchunks : Forall (fun chunk : N => len chunk <> 0)
                      (Routes.chunks Scenario.small))
    by (repeat constructor; vm_compute; discriminate).
  assert (Hfit : received (Routes.chunks Scenario.small) <= 5 * 1024 ^ 3)
    by (vm_compute; discriminate).
  destruct (upload_file_stores Scenario.E Scenario.noon Scenario.small (Some 2)
              Scenario.w0 "id0.txt" eq_refl eq_refl Hchunks Hfit Hexpiry
              eq_refl)
    as (fields & row & path & content & _ & _ & _ & _ & Hrow & Hsize & _).
  rewrite Hrow. cbn [fmap option_fmap option_map]. by rewrite Hsize.
Defined.

Section UploadFailureFacts.
Context {B : Type} `{Bytes B}.
Variable E : Server.env B.

(** The read loop raises nothing but the 413, or what the removal of the
    oversized file raises. *)
Lemma stream_to_disk_raises (path : string) (chunks : list B) (file_size : Z)
    (w : Server.world B) (e : exn) :
  fst (Routes.stream_to_disk path chunks file_size w) = Raise e ->
  e = HTTPException 413 "File too large, max size is 5120.0MB" \/ e = OSError.
Proof.
  revert file_size w. induction chunks as [|chunk rest IH]; intros file_size w.
  - discriminate.
  - cbn [Routes.stream_to_disk]. destruct (len chunk =? 0); [discriminate|].
    destruct (Routes.file_size_limit <? file_size + len chunk).
    + unfold Server.bind, Routes.os_remove, FS.remove, Server.raise.
      destruct (Server.fs w !! path) as [[|content]|]; cbn [fst];
        intros [= <-]; tauto.
    + unfold Server.bind, Routes.fs_write, Server.modify. apply IH.
Qed.

(** An upload that fails after its bytes were written: the expiry date is
    out of range, or the drawn name is already a path of the table. *)
Lemma upload_file_late_failure (now : Z) (file : Routes.UploadFile)
    (expiry_days : option Z) (w : Server.world B) (safe : string) :
  fst (Routes.get_safe_filename E (Routes.filename file) w) = Return safe ->
  Forall (fun chunk => len chunk <> 0) (Routes.chunks file) ->
  received (Routes.chunks file) <= 5 * 1024 ^ 3 ->
  Server.refuses E (upload_path E file w) = None ->
  (exists t, expiry_instant now expiry_days = Some t
             /\ Datetime.of_instant t = None)
  \/ is_Some (FilesTable.select_by_path safe (Server.db w)) ->
  exists detail path content,
    fst (Routes.upload_file E now file expiry_days w)
    = Raise (HTTPException 500 detail)
    /\ Server.fs w !! path = None
    /\ Server.fs (snd (Routes.upload_file E now file expiry_days w))
       = <[path := FS.File content]> (Server.fs w)
    /\ len content = received (Routes.chunks file)
    /\ Server.db (snd (Routes.upload_file E now file expiry_days w))
       = Server.db w
    /\ Server.tasks (snd (Routes.upload_file E now file expiry_days w))
       = Server.tasks w.
Proof.
  intros Hsafe Hchunks Hfit Hopened Hlate.
  destruct (get_safe_filename_run E (Routes.filename file) w) as [safe' Hrun].
  rewrite Hrun in Hsafe. cbn [fst] in Hsafe. injection Hsafe as ->.
  destruct (get_unique_path_fresh (FS.join Routes.STORAGE_DIR safe)
              (Server.set_drawn (S (Server.drawn w)) w))
    as (path & Hpath & Hfresh).
  rewrite (upload_path_run E file w safe path Hrun Hpath) in Hopened.
  set (w1 := Server.set_drawn (S (Server.drawn w)) w) in *.
  set (content := fold_left bytes_concat (Routes.chunks file) bytes_empty).
  assert (Hlen : len content = received (Routes.chunks file))
    by (unfold content; rewrite len_fold_concat, len_empty; lia).
  unfold Routes.upload_file, Server.try_except, Server.bind.
  rewrite Hrun, Hpath. fold w1.
  rewrite (fs_open_wb_fresh E path w1 Hfresh), Hopened.
  rewrite (stream_to_disk_fits path (Routes.chunks file) 0 _ bytes_empty);
    [|cbn [Server.fs Server.set_fs]; apply lookup_insert_eq | exact Hchunks
     |unfold Routes.file_size_limit; lia].
  fold content. cbn [Server.fs Server.set_fs]. rewrite insert_insert_eq.
  unfold Server.lift.
  destruct (match expiry_days with
            | Some days =>
                if days =? 0 then Return None
                else match Datetime.of_instant (now + days * Datetime.US_PER_DAY) with
                     | Some d => Return (Some d)
                     | None => Raise OverflowError
                     end
            | None => Return None
            end) as [expires|e] eqn:Hexp.
  - destruct Hlate as [(t & Ht & Hnone)|[r Hr]].
    { exfalso. unfold expiry_instant in Ht.
      destruct expiry_days as [days|]; [|discriminate].
      destruct (days =? 0); [discriminate|]. injection Ht as <-.
      by rewrite Hnone in Hexp. }
    unfold Routes.db_add_new_file, FilesTable.add_new_file.
    cbn [Server.db Server.set_fs]. subst w1. cbn [Server.db Server.set_drawn].
    rewrite Hr.
    cbn [fst snd Server.is_HTTPException negb Server.raise Server.fs
         Server.db Server.tasks Server.set_db Server.set_fs Server.set_drawn].
    eexists _, path, content. split; [reflexivity|].
    split; [exact Hfresh|]. split; [reflexivity|]. split; [exact Hlen|].
    split; [by destruct (Server.db w) | reflexivity].
  - assert (He : Server.is_HTTPException e = false).
    { destruct expiry_days as [days|]; [|discriminate].
      destruct (days =? 0); [discriminate|].
      destruct (Datetime.of_instant _); [discriminate|]. by injection Hexp as <-. }
    rewrite He. subst w1.
    cbn [fst snd negb Server.raise Server.fs Server.db Server.tasks
         Server.set_fs Server.set_drawn].
    eexists _, path, content. split; [reflexivity|].
    split; [exact Hfresh|]. by repeat split.
Qed.

End UploadFailureFacts.

(** X13.  An upload can fail after its bytes were written.  Take an
    upload within 5 GiB whose storage file was opened (the operating
    system accepted its path), and whose expiry date [expiry_days] days
    ahead is beyond year 9999 (or before year 1), or whose drawn name is
    already a path of the table.  The client gets a 500, no row is inserted and no task created, but the
    file the handler wrote, holding every byte received, stays on disk. *)
Theorem upload_file_failure_leaves_bytes {B : Type} `{Bytes B}
    (E : Server.env B) (now : Z) (file : Routes.UploadFile)
    (expiry_days : option Z) (w : Server.world B) (safe : string) :
  fst (Routes.get_safe_filename E (Routes.filename file) w) = Return safe ->
  Forall (fun chunk => len chunk <> 0) (Routes.chunks file) ->
  received (Routes.chunks file) <= 5 * 1024 ^ 3 ->
  Server.refuses E (upload_path E file w) = None ->
  (exists t, expiry_instant now expiry_days = Some t
             /\ Datetime.of_instant t = None)
  \/ is_Some (FilesTable.select_by_path safe (Server.db w)) ->
  exists detail path content,
    fst (Routes.upload_file E now file expiry_days w)
    = Raise (HTTPException 500 detail)
    /\ Server.fs w !! path = None
    /\ Server.fs (snd (Routes.upload_file E now file expiry_days w))
       = <[path := FS.File content]> (Server.fs w)
    /\ len content = received (Routes.chunks file)
    /\ Server.db (snd (Routes.upload_file E now file expiry_days w))
       = Server.db w
    /\ Server.tasks (snd (Routes.upload_file E now file expiry_days w))
       = Server.tasks w.
Proof. apply upload_file_late_failure. Qed.

Lemma upload_file_failure_leaves_bytes_witness :
  Server.db (snd (Routes.upload_file Scenario.E Scenario.noon Scenario.small
                    (Some 3000000) Scenario.w0))
  = Server.db Scenario.w0.
Proof.
  assert (Hchunks : Forall (fun chunk : N => len chunk <> 0)
                      (Routes.chunks Scenario.small))
    by (repeat constructor; vm_compute; discriminate).
  assert (Hfit : received (Routes.chunks Scenario.small) <= 5 * 1024 ^ 3)
    by (vm_compute; discriminate).
  assert (Hlate :
    (exists t, expiry_instant Scenario.noon (Some 3000000) = Some t
               /\ Datetime.of_instant t = None)
    \/ is_Some (FilesTable.select_by_path "id0.txt" (Server.db Scenario.w0))).
  { left. exists (Scenario.noon + 3000000 * Datetime.US_PER_DAY).
    split; [reflexivity | vm_compute; reflexivity]. }
  destruct (upload_file_failure_leaves_bytes Scenario.E Scenario.noon
              Scenario.small (Some 3000000) Scenario.w0 "id0.txt" eq_refl
              Hchunks Hfit eq_refl Hlate)
    as (detail & path & content & _ & _ & _ & _ & Hdb & _).
  exact Hdb.
Defined.

(** X14.  Whatever goes wrong inside [upload_file], the caller sees an
    [HTTPException], and only two kinds of it: the 413 of the size check,
    or a 500. *)
Theorem upload_file_failure_status {B : Type} `{Bytes B} (E : Server.env B)
    (now : Z) (file : Routes.UploadFile) (expiry_days : option Z)
    (w : Server.world B) (e : exn) :
  fst (Routes.upload_file E now file expiry_days w) = Raise e ->
  e = HTTPException 413 "File too large, max size is 5120.0MB"
  \/ exists detail, e = HTTPException 500 detail.
Proof.
  unfold Routes.upload_file, Server.try_except.
  match goal with
  | |- context [match ?body w with _ => _ end] =>
      destruct (body w) as [[resp|e'] w'] eqn:Hbody
  end; cbn [fst]; [discriminate|].
  destruct (Server.is_HTTPException e') eqn:He'; cbn [negb];
    [|unfold Server.raise; intros [= <-]; right; by eexists].
  cbn [fst]. intros [= <-]. left.
  unfold Server.bind in Hbody.
  destruct (get_safe_filename_run E (Routes.filename file) w) as [safe Hrun].
  rewrite Hrun in Hbody.
  destruct (get_unique_path_fresh (FS.join Routes.STORAGE_DIR safe)
              (Server.set_drawn (S (Server.drawn w)) w))
    as (path & Hpath & Hfresh).
  rewrite Hpath in Hbody.
  rewrite (fs_open_wb_fresh E path _ Hfresh) in Hbody.
  destruct (Server.refuses E path) as [[|]|];
    [injection Hbody as <- _; discriminate
    |injection Hbody as <- _; discriminate|].
  match type of Hbody with
  | context [Routes.stream_to_disk ?p ?c ?s ?w0] =>
      destruct (Routes.stream_to_disk p c s w0) as [[size|e0] w2] eqn:Hstream
  end.
  - unfold Server.lift in Hbody.
    unfold Routes.db_add_new_file, FilesTable.add_new_file in Hbody.
    destruct expiry_days as [days|];
      [destruct (days =? 0);
       [|destruct (Datetime.of_instant (now + days * Datetime.US_PER_DAY))]|];
      try (injection Hbody as <- _; discriminate);
      destruct (FilesTable.select_by_path safe (Server.db w2));
      cbn in Hbody; injection Hbody as Hbody _; try discriminate;
      subst e'; discriminate.
  - injection Hbody as <- _.
    assert (Hfst : fst (Routes.stream_to_disk path (Routes.chunks file) 0
                          (Server.set_fs
                             (<[path:=FS.File bytes_empty]>
                                (Server.fs
                                   (Server.set_drawn (S (Server.drawn w)) w)))
                             (Server.set_drawn (S (Server.drawn w)) w)))
                   = Raise e0) by (by rewrite Hstream).
    destruct (stream_to_disk_raises _ _ _ _ _ Hfst) as [->| ->];
      [reflexivity | discriminate].
Qed.

Lemma upload_file_failure_status_witness :
  HTTPException 413 "File too large, max size is 5120.0MB"
  = HTTPException 413 "File too large, max size is 5120.0MB"
  \/ exists detail,
       HTTPException 413 "File too large, max size is 5120.0MB"
       = HTTPException 500 detail.
Proof.
  apply (upload_file_failure_status Scenario.E Scenario.noon Scenario.oversized
           None Scenario.w0).
  vm_compute. reflexivity.
Defined.

Section UniquePathFacts.
Context {B : Type} `{Bytes B}.

(** The loop stops at the first counter whose path is free. *)
Lemma first_free_least (fs : gmap string (FS.node B)) (base ext : string)
    (fuel : nat) (counter : N) :
  exists k : nat,
    (k <= fuel)%nat
    /\ Routes.first_free fs base ext fuel counter
       = Routes.numbered base (counter + N.of_nat k) ext
    /\ forall j : nat, (j < k)%nat ->
         is_Some (fs !! Routes.numbered base (counter + N.of_nat j) ext).
Proof.
  revert counter. induction fuel as [|fuel IH]; intros counter.
  - exists 0%nat. split; [lia|]. split; [simpl; by rewrite N.add_0_r|].
    intros j Hj. lia.
  - simpl.
    destruct (FS.path_exists (Routes.numbered base counter ext) fs) eqn:Hc.
    + destruct (IH (counter + 1)%N) as (k & Hk & Hres & Hbelow).
      exists (S k). split; [lia|]. split.
      * rewrite Hres. f_equal. lia.
      * intros [|j] Hj.
        -- rewrite N.add_0_r. unfold FS.path_exists in Hc.
           by apply bool_decide_eq_true in Hc.
        -- replace (counter + N.of_nat (S j))%N
             with (counter + 1 + N.of_nat j)%N by lia.
           apply Hbelow. lia.
    + exists 0%nat. split; [lia|]. split; [by rewrite N.add_0_r|].
      intros j Hj. lia.
Qed.

End UniquePathFacts.

(** X15.  [get_unique_path] never touches the world and always returns a
    path that is not on disk.  It is the preferred path when that one is
    free; otherwise it is [base_k.ext] for the least [k >= 1] whose path
    is free, every smaller counter being taken. *)
Theorem get_unique_path_least {B : Type} `{Bytes B} (preferred : string)
    (w : Server.world B) :
  exists path,
    Routes.get_unique_path preferred w = (Return path, w)
    /\ Server.fs w !! path = None
    /\ (Server.fs w !! preferred = None -> path = preferred)
    /\ (is_Some (Server.fs w !! preferred) ->
        exists k : N,
          (1 <= k)%N
          /\ path = Routes.numbered (fst (FS.splitext preferred)) k
                      (snd (FS.splitext preferred))
          /\ forall j : N, (1 <= j < k)%N ->
               is_Some (Server.fs w
                          !! Routes.numbered (fst (FS.splitext preferred)) j
                               (snd (FS.splitext preferred)))).
Proof.
  destruct (get_unique_path_fresh preferred w) as (path & Hrun & Hfresh).
  exists path. split; [exact Hrun|]. split; [exact Hfresh|].
  unfold Routes.get_unique_path in Hrun.
  unfold FS.path_exists in Hrun at 1.
  split.
  - intros Hnone. rewrite bool_decide_eq_false_2 in Hrun.
    + cbn [negb] in Hrun. by injection Hrun.
    + rewrite Hnone. by intros [? ?].
  - intros Hsome. rewrite bool_decide_eq_true_2 in Hrun by exact Hsome.
    cbn [negb] in Hrun.
    destruct (FS.splitext preferred) as [base ext]. cbn [fst snd].
    injection Hrun as <-.
    destruct (first_free_least (Server.fs w) base ext
                (S (size (Server.fs w))) 1%N) as (k & _ & Hres & Hbelow).
    exists (1 + N.of_nat k)%N. split; [lia|]. split; [exact Hres|].
    intros j Hj.
    replace j with (1 + N.of_nat (N.to_nat (j - 1)))%N by lia.
    apply Hbelow. lia.
Qed.

Section SplitextFacts.

Lemma substring_whole (s : string) : String.substring 0 (String.length s) s = s.
Proof. induction s as [|c s IH]; [reflexivity|]. cbn. by rewrite IH. Qed.

Lemma append_empty_r (s : string) : s +:+ "" = s.
Proof.
  induction s as [|c s IH]; [reflexivity|].
  change (String c (s +:+ "") = String c s). by rewrite IH.
Qed.

(** [p[:n] + p[n:] == p]. *)
Lemma substring_cut (n : nat) (p : string) :
  (n <= String.length p)%nat ->
  String.substring 0 n p +:+ String.substring n (String.length p - n) p = p.
Proof.
  revert p. induction n as [|n IH]; intros p Hn.
  - rewrite Nat.sub_0_r, substring_whole. by destruct p.
  - destruct p as [|c p]; [cbn in Hn; lia|].
    cbn in Hn. cbn [String.substring String.length Nat.sub].
    change (String c (String.substring 0 n p) +:+ ?t)
      with (String c (String.substring 0 n p +:+ t)).
    f_equal. apply IH. lia.
Qed.

(** Where [rfind] points there is the character, and it does not occur
    later. *)
Lemma rfind_from_spec (c : ascii) (s : string) (i found : Z) :
  (FS.rfind_from c s i found = found
   /\ forall k, String.get k s <> Some c)
  \/ exists k : nat,
       FS.rfind_from c s i found = i + Z.of_nat k
       /\ String.get k s = Some c
       /\ forall j, (k < j)%nat -> String.get j s <> Some c.
Proof.
  revert i found. induction s as [|c' s IH]; intros i found.
  - left. split; [reflexivity|]. intros k. by destruct k.
  - cbn [FS.rfind_from].
    destruct (IH (i + 1) (if Ascii.eqb c c' then i else found))
      as [[Heq Hnone]|(k & Heq & Hget & Hlater)].
    + rewrite Heq. destruct (Ascii.eqb_spec c c') as [<-|Hne].
      * right. exists 0%nat. split; [lia|]. split; [reflexivity|].
        intros [|j] Hj; [lia|]. cbn. apply Hnone.
      * left. split; [reflexivity|]. intros [|k]; cbn; [congruence | apply Hnone].
    + right. exists (S k). split; [lia|]. split; [exact Hget|].
      intros [|j] Hj; [lia|]. cbn. apply Hlater. lia.
Qed.

Lemma get_Some_length (k : nat) (s : string) (c : ascii) :
  String.get k s = Some c -> (k < String.length s)%nat.
Proof.
  revert k. induction s as [|c' s IH]; intros [|k]; cbn; try discriminate;
    [lia|]. intros Hget. apply IH in Hget. lia.
Qed.

Lemma substring_tail_head (k : nat) (s : string) (c : ascii) :
  String.get k s = Some c ->
  String.prefix (String c "") (String.substring k (String.length s - k) s)
  = true.
Proof.
  revert k. induction s as [|c' s IH]; intros [|k]; try discriminate.
  - intros [= ->]. rewrite Nat.sub_0_r. cbn.
    destruct (ascii_dec c c); [by destruct (String.substring _ _ _) | congruence].
  - intros Hget. cbn. by apply IH.
Qed.

Lemma get_substring_tail (k j : nat) (s : string) :
  String.get j (String.substring k (String.length s - k) s)
  = String.get (k + j) s
  \/ String.get j (String.substring k (String.length s - k) s) = None.
Proof.
  revert k. induction s as [|c' s IH]; intros [|k].
  - left. by destruct j.
  - left. by destruct j.
  - left. rewrite Nat.sub_0_r, substring_whole. reflexivity.
  - cbn. apply IH.
Qed.

Lemma contains_char_false (c : ascii) (s : string) :
  (forall k, String.get k s <> Some c) ->
  Str.contains (String c "") s = false.
Proof.
  induction s as [|c' s IH]; intros Hnone; [reflexivity|].
  cbn. destruct (ascii_dec c c') as [->|_].
  - by specialize (Hnone 0%nat).
  - cbn. apply IH. intros k. apply (Hnone (S k)).
Qed.

(** [os.path.splitext]: the two parts make up the path; the extension is
    empty or starts with a dot, and holds no slash. *)
Lemma splitext_spec (p : string) :
  fst (FS.splitext p) +:+ snd (FS.splitext p) = p
  /\ (snd (FS.splitext p) = ""
      \/ String.prefix "." (snd (FS.splitext p)) = true)
  /\ Str.contains "/" (snd (FS.splitext p)) = false.
Proof.
  unfold FS.splitext, FS.rfind.
  destruct (rfind_from_spec "." p 0 (-1)) as [[Hdot _]|(d & Hdot & Hget & _)].
  { rewrite Hdot.
    assert (Hsep : -1 <= FS.rfind_from "/" p 0 (-1))
      by (destruct (rfind_from_spec "/" p 0 (-1)) as [[-> _]|(k & -> & _)]; lia).
    destruct (Z.ltb_spec (FS.rfind_from "/" p 0 (-1)) (-1)); [lia|].
    cbn. split; [apply append_empty_r | by split; [left|]]. }
  rewrite Hdot.
  destruct (_ && _) eqn:Hcond; cbn [fst snd];
    [|split; [apply append_empty_r | by split; [left|]]].
  apply andb_prop in Hcond as [Hlt _]. apply Z.ltb_lt in Hlt.
  replace (Z.to_nat (0 + Z.of_nat d)) with d by lia.
  split; [|split].
  - apply substring_cut. apply get_Some_length in Hget. lia.
  - right. by apply substring_tail_head.
  - apply contains_char_false. intros j.
    destruct (get_substring_tail d j p) as [->| ->]; [|discriminate].
    destruct (rfind_from_spec "/" p 0 (-1)) as [[_ Hnone]|(k & Hsep & _ & Hlater)].
    + apply Hnone.
    + apply Hlater. lia.
Qed.

End SplitextFacts.

Lemma prefix_slash_append (u ext : string) :
  String.prefix "/" u = false ->
  String.prefix "." ext = true ->
  String.prefix "/" (u +:+ ext) = false.
Proof.
  intros Hu Hext. destruct u as [|c u].
  - change ("" +:+ ext) with ext. destruct ext as [|c ext]; [reflexivity|].
    cbn [String.prefix] in *. destruct (ascii_dec "." c) as [<-|]; [|discriminate].
    destruct (ascii_dec "/" "."); [discriminate | reflexivity].
  - change (String c u +:+ ext) with (String c (u +:+ ext)).
    cbn [String.prefix] in *. destruct (ascii_dec "/" c); [|reflexivity].
    by destruct u.
Qed.

(** X16.  The stored name is the drawn identifier followed by an
    extension, and the client's file name reaches it through that
    extension only: the extension is [.bin] or the extension of the
    client's name, it starts with a dot and holds no [/].  So unless the
    identifier itself starts with [/], the preferred storage path lies
    directly in the storage directory. *)
Theorem get_safe_filename_extension {B : Type} `{Bytes B} (E : Server.env B)
    (name : option string) (w : Server.world B) :
  exists ext,
    Routes.get_safe_filename E name w
    = (Return (Server.uuid4 E (Server.drawn w) +:+ ext),
       Server.set_drawn (S (Server.drawn w)) w)
    /\ String.prefix "." ext = true
    /\ Str.contains "/" ext = false
    /\ (ext = ".bin"
        \/ exists client, name = Some client
                          /\ fst (FS.splitext client) +:+ ext = client)
    /\ (String.prefix "/" (Server.uuid4 E (Server.drawn w)) = false ->
        FS.join Routes.STORAGE_DIR (Server.uuid4 E (Server.drawn w) +:+ ext)
        = "storage/" +:+ Server.uuid4 E (Server.drawn w) +:+ ext).
Proof.
  assert (Hjoin : forall ext, String.prefix "." ext = true ->
    String.prefix "/" (Server.uuid4 E (Server.drawn w)) = false ->
    FS.join Routes.STORAGE_DIR (Server.uuid4 E (Server.drawn w) +:+ ext)
    = "storage/" +:+ Server.uuid4 E (Server.drawn w) +:+ ext).
  { intros ext Hext Hu. unfold FS.join.
    by rewrite (prefix_slash_append _ _ Hu Hext). }
  assert (Hbin : exists ext,
    (Return (Server.uuid4 E (Server.drawn w) +:+ ".bin"),
     Server.set_drawn (S (Server.drawn w)) w)
    = (Return (Server.uuid4 E (Server.drawn w) +:+ ext),
       Server.set_drawn (S (Server.drawn w)) w)
    /\ String.prefix "." ext = true
    /\ Str.contains "/" ext = false
    /\ (ext = ".bin"
        \/ exists client, name = Some client
                          /\ fst (FS.splitext client) +:+ ext = client)
    /\ (String.prefix "/" (Server.uuid4 E (Server.drawn w)) = false ->
        FS.join Routes.STORAGE_DIR (Server.uuid4 E (Server.drawn w) +:+ ext)
        = "storage/" +:+ Server.uuid4 E (Server.drawn w) +:+ ext)).
  { exists ".bin". repeat split; [by left | by apply Hjoin]. }
  unfold Routes.get_safe_filename, Server.bind, Routes.uuid4, Server.ret.
  destruct name as [client|]; [|exact Hbin].
  destruct (negb (Str.truthy client)); [exact Hbin|].
  destruct (splitext_spec client) as (Hcut & [Hempty|Hdot] & Hslash).
  - rewrite Hempty. exact Hbin.
  - destruct (snd (FS.splitext client)) as [|c ext] eqn:Hext; [discriminate|].
    cbn [Str.truthy]. exists (String c ext).
    split; [reflexivity|]. split; [exact Hdot|]. split; [exact Hslash|].
    split; [right; by exists client | by apply Hjoin].
Qed.

Lemma get_safe_filename_suffix {B : Type} `{Bytes B} (E : Server.env B)
    (name : option string) :
  exists ext, forall w : Server.world B,
    Routes.get_safe_filename E name w
    = (Return (Server.uuid4 E (Server.drawn w) +:+ ext),
       Server.set_drawn (S (Server.drawn w)) w).
Proof.
  unfold Routes.get_safe_filename, Server.bind, Routes.uuid4, Server.ret.
  destruct name as [name|]; [destruct (negb (Str.truthy name))|];
    eexists; reflexivity.
Qed.

(** X17.  The same file uploaded twice, without expiry, is kept twice.
    Take a file within 5 GiB for which the two identifiers drawn differ,
    the two names they give are free in the table, and the operating
    system accepts the two storage paths.  Then the two uploads succeed
    under different names, and afterwards both rows are in the table,
    pointing at different paths that both exist on disk. *)
Theorem upload_twice_keeps_both {B : Type} `{Bytes B} (E : Server.env B)
    (now1 now2 : Z) (file : Routes.UploadFile) (w : Server.world B)
    (safe1 safe2 : string) :
  Server.uuid4 E (Server.drawn w) <> Server.uuid4 E (S (Server.drawn w)) ->
  fst (Routes.get_safe_filename E (Routes.filename file) w) = Return safe1 ->
  fst (Routes.get_safe_filename E (Routes.filename file)
         (snd (Routes.upload_file E now1 file None w))) = Return safe2 ->
  FilesTable.select_by_path safe1 (Server.db w) = None ->
  FilesTable.select_by_path safe2 (Server.db w) = None ->
  Forall (fun chunk => len chunk <> 0) (Routes.chunks file) ->
  received (Routes.chunks file) <= 5 * 1024 ^ 3 ->
  Server.refuses E (upload_path E file w) = None ->
  Server.refuses E
    (upload_path E file (snd (Routes.upload_file E now1 file None w))) = None ->
  safe1 <> safe2
  /\ exists fields1 fields2 row1 row2,
       fst (Routes.upload_file E now1 file None w)
       = Return (JSONResponse 200 (JObj fields1))
       /\ fst (Routes.upload_file E now2 file None
                 (snd (Routes.upload_file E now1 file None w)))
          = Return (JSONResponse 200 (JObj fields2))
       /\ FilesTable.select_by_path safe1
            (Server.db (snd (Routes.upload_file E now2 file None
                               (snd (Routes.upload_file E now1 file None w)))))
          = Some row1
       /\ FilesTable.select_by_path safe2
            (Server.db (snd (Routes.upload_file E now2 file None
                               (snd (Routes.upload_file E now1 file None w)))))
          = Some row2
       /\ FilesTable.storage_path row1 <> FilesTable.storage_path row2
       /\ is_Some (Server.fs (snd (Routes.upload_file E now2 file None
                                (snd (Routes.upload_file E now1 file None w))))
                   !! FilesTable.storage_path row1)
       /\ is_Some (Server.fs (snd (Routes.upload_file E now2 file None
                                (snd (Routes.upload_file E now1 file None w))))
                   !! FilesTable.storage_path row2).
Proof.
  intros Hdraw Hsafe1 Hsafe2 Hfree1 Hfree2 Hchunks Hfit Hopened1 Hopened2.
  assert (Hexpiry : forall now t, expiry_instant now None = Some t ->
            is_Some (Datetime.of_instant t)) by discriminate.
  destruct (upload_file_success E now1 file None w safe1 Hsafe1 Hfree1 Hchunks
              Hfit (Hexpiry now1) Hopened1)
    as (fields1 & row1 & path1 & content1 & Hresp1 & _ & _ & _ & Hrow1 & _
        & Hpath1 & _ & _ & _ & _ & Hnew1 & Hfs1 & _ & _ & Hdrawn1 & Hother1
        & _).
  set (w1 := snd (Routes.upload_file E now1 file None w)) in *.
  assert (Hne : safe1 <> safe2).
  { destruct (get_safe_filename_suffix E (Routes.filename file)) as [ext Hext].
    rewrite Hext in Hsafe1, Hsafe2. cbn [fst] in Hsafe1, Hsafe2.
    injection Hsafe1 as <-. injection Hsafe2 as <-. rewrite Hdrawn1.
    intros Heq. by apply append_inv_tail in Heq. }
  assert (Hfree2' : FilesTable.select_by_path safe2 (Server.db w1) = None).
  { rewrite Hother1 by congruence. exact Hfree2. }
  destruct (upload_file_success E now2 file None w1 safe2 Hsafe2 Hfree2' Hchunks
              Hfit (Hexpiry now2) Hopened2)
    as (fields2 & row2 & path2 & content2 & Hresp2 & _ & _ & _ & Hrow2 & _
        & Hpath2 & _ & _ & _ & _ & Hnew2 & Hfs2 & _ & _ & _ & Hother2 & _).
  split; [exact Hne|].
  exists fields1, fields2, row1, row2.
  split; [exact Hresp1|]. split; [exact Hresp2|].
  split; [rewrite Hother2 by exact Hne; exact Hrow1|].
  split; [exact Hrow2|].
  assert (Hpaths : path1 <> path2).
  { intros <-. rewrite Hfs1, lookup_insert_eq in Hnew2. discriminate. }
  rewrite Hpath1, Hpath2, Hfs2, Hfs1.
  split; [exact Hpaths|]. split.
  - rewrite lookup_insert_ne by congruence. rewrite lookup_insert_eq. by eexists.
  - rewrite lookup_insert_eq. by eexists.
Qed.

Lemma upload_twice_keeps_both_witness :
  "id0.txt" <> "id1.txt"
  /\ exists fields1 fields2 row1 row2,
       fst (Routes.upload_file Scenario.E Scenario.noon Scenario.small None
              Scenario.w0)
       = Return (JSONResponse 200 (JObj fields1))
       /\ fst (Routes.upload_file Scenario.E (Scenario.noon + 1) Scenario.small
                 None
                 (snd (Routes.upload_file Scenario.E Scenario.noon
                         Scenario.small None Scenario.w0)))
          = Return (JSONResponse 200 (JObj fields2))
       /\ FilesTable.select_by_path "id0.txt"
            (Server.db (snd (Routes.upload_file Scenario.E (Scenario.noon + 1)
                               Scenario.small None
                               (snd (Routes.upload_file Scenario.E Scenario.noon
                                       Scenario.small None Scenario.w0)))))
          = Some row1
       /\ FilesTable.select_by_path "id1.txt"
            (Server.db (snd (Routes.upload_file Scenario.E (Scenario.noon + 1)
                               Scenario.small None
                               (snd (Routes.upload_file Scenario.E Scenario.noon
                                       Scenario.small None Scenario.w0)))))
          = Some row2
       /\ FilesTable.storage_path row1 <> FilesTable.storage_path row2
       /\ is_Some (Server.fs (snd (Routes.upload_file Scenario.E
                                (Scenario.noon + 1) Scenario.small None
                                (snd (Routes.upload_file Scenario.E Scenario.noon
                                        Scenario.small None Scenario.w0))))
                   !! FilesTable.storage_path row1)
       /\ is_Some (Server.fs (snd (Routes.upload_file Scenario.E
                                (Scenario.noon + 1) Scenario.small None
                                (snd (Routes.upload_file Scenario.E Scenario.noon
                                        Scenario.small None Scenario.w0))))
                   !! FilesTable.storage_path row2).
Proof.
  apply (upload_twice_keeps_both Scenario.E Scenario.noon (Scenario.noon + 1)
           Scenario.small Scenario.w0 "id0.txt" "id1.txt").
  - vm_compute. discriminate.
  - reflexivity.
  - vm_compute. reflexivity.
  - reflexivity.
  - reflexivity.
  - repeat constructor. vm_compute. discriminate.
  - vm_compute. discriminate.
  - reflexivity.
  - vm_compute. reflexivity.
Defined.

Section DeletionTaskFacts.
Context {B : Type} `{Bytes B}.
Variable E : Server.env B.

(** What the task does to the world: nothing, or the removal of the
    file its row points at. *)
Lemma auto_delete_effect (file_data : option FilesTable.row)
    (data_id : option Z) (w : Server.world B) :
  snd (Routes.auto_delete_expired_file_task E file_data data_id w) = w
  \/ exists row text content,
       task_row file_data data_id (Server.db w) = Some row
       /\ FilesTable.expires_at row = Some text
       /\ Server.fs w !! FilesTable.storage_path row = Some (FS.File content)
       /\ snd (Routes.auto_delete_expired_file_task E file_data data_id w)
          = Server.set_fs (delete (FilesTable.storage_path row) (Server.fs w)) w.
Proof.
  assert (Htail : forall found : option FilesTable.row,
    task_row file_data data_id (Server.db w) = found ->
    let r :=
      match found with
      | None => Server.ret tt
      | Some file_data =>
          match FilesTable.expires_at file_data with
          | Some text =>
              if negb (Str.truthy text) then Server.ret tt
              else
                Server.bind
                  (Server.lift (Functions.fetch_date (Server.host E) text))
                  (fun expires_at =>
                     match expires_at with
                     | None => Server.raise TypeError
                     | Some _ =>
                         Server.try_except
                           (Routes.os_remove (FilesTable.storage_path file_data))
                           Server.is_Exception
                           (fun _ => Server.ret tt)
                     end)
          | None => Server.ret tt
          end
      end w in
    snd r = w
    \/ exists row text content,
         task_row file_data data_id (Server.db w) = Some row
         /\ FilesTable.expires_at row = Some text
         /\ Server.fs w !! FilesTable.storage_path row = Some (FS.File content)
         /\ snd r
            = Server.set_fs (delete (FilesTable.storage_path row) (Server.fs w))
                w).
  { intros found Hfound. cbv zeta.
    destruct found as [row|]; [|by left].
    destruct (FilesTable.expires_at row) as [text|] eqn:Htext; [|by left].
    destruct (negb (Str.truthy text)); [by left|].
    unfold Server.bind, Server.lift.
    destruct (Functions.fetch_date (Server.host E) text) as [[d|]|e];
      try by left.
    unfold Server.try_except, Routes.os_remove, FS.remove.
    destruct (Server.fs w !! FilesTable.storage_path row) as [[|content]|]
      eqn:Hfs; try by left.
    right. by exists row, text, content. }
  unfold Routes.auto_delete_expired_file_task.
  unfold task_row in Htail at 1.
  destruct data_id as [i|]; [destruct (i =? 0)|]; cbn [negb andb default].
  - destruct file_data as [row|]; [|by left].
    rewrite bool_decide_eq_true_2 by (by eexists). cbn [negb andb].
    apply (Htail _ eq_refl).
  - rewrite andb_false_r. apply (Htail _ eq_refl).
  - destruct file_data as [row|]; [|by left].
    rewrite bool_decide_eq_true_2 by (by eexists). cbn [negb andb].
    apply (Htail _ eq_refl).
Qed.

End DeletionTaskFacts.

(** X18.  A deletion task only ever removes bytes: it leaves the table,
    the other tasks and every other path alone, so the row of an expired
    file stays in the table.  The one path it can remove is the storage
    path of its row, and only when that row carries an expiry. *)
Theorem auto_delete_removes_bytes_only {B : Type} `{Bytes B}
    (E : Server.env B) (file_data : option FilesTable.row)
    (data_id : option Z) (w : Server.world B) :
  Server.db (snd (Routes.auto_delete_expired_file_task E file_data data_id w))
  = Server.db w
  /\ Server.tasks
       (snd (Routes.auto_delete_expired_file_task E file_data data_id w))
     = Server.tasks w
  /\ forall path,
       Server.fs
         (snd (Routes.auto_delete_expired_file_task E file_data data_id w))
       !! path <> Server.fs w !! path ->
       Server.fs
         (snd (Routes.auto_delete_expired_file_task E file_data data_id w))
       !! path = None
       /\ exists row,
            task_row file_data data_id (Server.db w) = Some row
            /\ is_Some (FilesTable.expires_at row)
            /\ FilesTable.storage_path row = path.
Proof.
  destruct (auto_delete_effect E file_data data_id w)
    as [->|(row & text & content & Hrow & Htext & Hfs & ->)].
  - split; [reflexivity|]. split; [reflexivity|]. by intros path [].
  - split; [reflexivity|]. split; [reflexivity|].
    cbn [Server.fs Server.set_fs]. intros path Hdiff.
    destruct (decide (path = FilesTable.storage_path row)) as [->|Hne].
    + split; [apply lookup_delete_eq|]. exists row. by rewrite Htext.
    + by rewrite lookup_delete_ne in Hdiff.
Qed.

Lemma auto_delete_run {B : Type} `{Bytes B}
    (E : Server.env B) (file_data : option FilesTable.row)
    (data_id : option Z) (w : Server.world B) (row : FilesTable.row)
    (text : string) (d : Datetime.datetime) (content : B) :
  task_row file_data data_id (Server.db w) = Some row ->
  FilesTable.expires_at row = Some text ->
  text <> "" ->
  Functions.fetch_date (Server.host E) text = Return (Some d) ->
  Server.fs w !! FilesTable.storage_path row = Some (FS.File content) ->
  Routes.auto_delete_expired_file_task E file_data data_id w
  = (Return tt,
     Server.set_fs (delete (FilesTable.storage_path row) (Server.fs w)) w).
Proof.
  intros Hrow Htext Hne Hdate Hfs.
  assert (Htruthy : Str.truthy text = true) by (by destruct text).
  assert (Htail :
    Server.bind (Server.ret (Some row))
      (fun file_data =>
         match file_data with
         | None => Server.ret tt
         | Some file_data =>
             match FilesTable.expires_at file_data with
             | Some text =>
                 if negb (Str.truthy text) then Server.ret tt
                 else
                   Server.bind
                     (Server.lift (Functions.fetch_date (Server.host E) text))
                     (fun expires_at =>
                        match expires_at with
                        | None => Server.raise TypeError
                        | Some _ =>
                            Server.try_except
                              (Routes.os_remove
                                 (FilesTable.storage_path file_data))
                              Server.is_Exception
                              (fun _ => Server.ret tt)
                        end)
             | None => Server.ret tt
             end
         end) w
    = (Return tt,
       Server.set_fs (delete (FilesTable.storage_path row) (Server.fs w)) w)).
  { unfold Server.bind at 1. unfold Server.ret at 1. rewrite Htext, Htruthy.
    cbn [negb]. unfold Server.bind, Server.lift. rewrite Hdate.
    unfold Server.try_except, Routes.os_remove, FS.remove. by rewrite Hfs. }
  unfold Routes.auto_delete_expired_file_task.
  unfold task_row in Hrow.
  destruct data_id as [i|]; [destruct (i =? 0)|]; cbn [negb andb default].
  - rewrite Hrow, bool_decide_eq_true_2 by (by eexists). exact Htail.
  - rewrite andb_false_r. unfold Server.bind at 1.
    cbv beta. unfold id. rewrite Hrow. exact Htail.
  - rewrite Hrow, bool_decide_eq_true_2 by (by eexists). exact Htail.
Qed.

(** X19.  When the row of a deletion task carries an expiry that
    [fetch_date] can read and its bytes are a file on disk, the task ends
    normally with those bytes removed. *)
Theorem auto_delete_removes_the_file {B : Type} `{Bytes B}
    (E : Server.env B) (file_data : option FilesTable.row)
    (data_id : option Z) (w : Server.world B) (row : FilesTable.row)
    (text : string) (d : Datetime.datetime) (content : B) :
  task_row file_data data_id (Server.db w) = Some row ->
  FilesTable.expires_at row = Some text ->
  text <> "" ->
  Functions.fetch_date (Server.host E) text = Return (Some d) ->
  Server.fs w !! FilesTable.storage_path row = Some (FS.File content) ->
  Routes.auto_delete_expired_file_task E file_data data_id w
  = (Return tt,
     Server.set_fs (delete (FilesTable.storage_path row) (Server.fs w)) w).
Proof. apply auto_delete_run. Qed.

Lemma auto_delete_removes_the_file_witness :
  Routes.auto_delete_expired_file_task Scenario.E None (Some 2) Scenario.w0
  = (Return tt,
     Server.set_fs (delete "storage/stale.bin" (Server.fs Scenario.w0))
       Scenario.w0).
Proof.
  apply (auto_delete_removes_the_file Scenario.E None (Some 2) Scenario.w0
           Scenario.stale "2025-05-11 12:56:56+00:00"
           (Datetime.mk 2025 5 11 12 56 56 0 (Some 0)) 10%N).
  - reflexivity.
  - reflexivity.
  - discriminate.
  - vm_compute. reflexivity.
  - vm_compute. reflexivity.
Defined.

Section StartupFacts.
Context {B : Type} `{Bytes B}.
Variable E : Server.env B.

(** A detached task never adds to the disk: it leaves it alone or
    removes one file. *)
Lemma run_task_fs (now : Z) (t : task) (w : Server.world B) :
  Server.fs (snd (Routes.run_task E now t w)) = Server.fs w
  \/ exists path content,
       Server.fs w !! path = Some (FS.File content)
       /\ Server.fs (snd (Routes.run_task E now t w))
          = delete path (Server.fs w).
Proof.
  destruct t as [file_path|file_data data_id]; [by left|].
  cbn [Routes.run_task].
  destruct (auto_delete_effect E file_data data_id w)
    as [->|(row & text & content & _ & _ & Hfs & ->)]; [by left|].
  right. by exists (FilesTable.storage_path row), content.
Qed.

Lemma run_task_keeps_absent (now : Z) (t : task) (w : Server.world B)
    (path : string) :
  Server.fs w !! path = None ->
  Server.fs (snd (Routes.run_task E now t w)) !! path = None.
Proof.
  intros Hnone.
  destruct (run_task_fs now t w) as [->|(p & content & _ & ->)];
    [exact Hnone|].
  destruct (decide (path = p)) as [->|Hne];
    [apply lookup_delete_eq | by rewrite lookup_delete_ne].
Qed.

Lemma run_all_keeps_absent (now : Z) (ts : list task) (w : Server.world B)
    (path : string) :
  Server.fs w !! path = None ->
  Server.fs (Routes.run_all E now ts w) !! path = None.
Proof.
  revert w. induction ts as [|t ts IH]; intros w Hnone; [exact Hnone|].
  cbn [Routes.run_all]. apply IH. by apply run_task_keeps_absent.
Qed.

(** Deletion tasks for rows of the table, run one after the other. *)
Lemma run_all_deletions (now : Z) (tbl : FilesTable.t) (ts : list task)
    (w : Server.world B) :
  Forall (deletion_of tbl) ts ->
  Server.db (Routes.run_all E now ts w) = Server.db w
  /\ Server.tasks (Routes.run_all E now ts w) = Server.tasks w
  /\ forall path,
       Server.fs (Routes.run_all E now ts w) !! path <> Server.fs w !! path ->
       Server.fs (Routes.run_all E now ts w) !! path = None
       /\ exists row,
            In row (FilesTable.rows tbl)
            /\ is_Some (FilesTable.expires_at row)
            /\ FilesTable.storage_path row = path.
Proof.
  revert w. induction ts as [|t ts IH]; intros w Hts.
  - cbn. split; [reflexivity|]. split; [reflexivity|]. by intros path [].
  - inversion Hts as [|? ? (row & -> & Hin & Hexp) Hrest]; subst.
    cbn [Routes.run_all Routes.run_task].
    destruct (IH (snd (Routes.auto_delete_expired_file_task E (Some row) None w))
                Hrest) as (Hdb & Htasks & Hfs).
    destruct (auto_delete_effect E (Some row) None w)
      as [Heq|(row' & text & content & [= <-] & Htext & Hfile & Heq)];
      rewrite Heq in Hdb, Htasks, Hfs |- *;
      [exact (conj Hdb (conj Htasks Hfs))|].
    cbn [Server.db Server.tasks Server.fs Server.set_fs] in *.
    split; [exact Hdb|]. split; [exact Htasks|].
    intros path Hdiff.
    destruct (decide (path = FilesTable.storage_path row)) as [->|Hne].
    + split; [|by exists row].
      apply run_all_keeps_absent. cbn [Server.fs Server.set_fs].
      apply lookup_delete_eq.
    + apply Hfs. by rewrite lookup_delete_ne.
Qed.

Lemma run_all_removes (now : Z) (ts : list task) (w : Server.world B)
    (row : FilesTable.row) (text : string) (d : Datetime.datetime) :
  In (AutoDeleteExpiredFile (Some row) None) ts ->
  FilesTable.expires_at row = Some text ->
  text <> "" ->
  Functions.fetch_date (Server.host E) text = Return (Some d) ->
  (Server.fs w !! FilesTable.storage_path row = None
   \/ exists content,
        Server.fs w !! FilesTable.storage_path row = Some (FS.File content)) ->
  Server.fs (Routes.run_all E now ts w) !! FilesTable.storage_path row = None.
Proof.
  intros Hin Htext Hne Hdate. revert w Hin.
  induction ts as [|t ts IH]; intros w Hin Hfs; [destruct Hin|].
  cbn [Routes.run_all]. destruct Hin as [->|Hin].
  - apply run_all_keeps_absent. destruct Hfs as [Hnone|[content Hfile]].
    + by apply run_task_keeps_absent.
    + cbn [Routes.run_task].
      rewrite (auto_delete_run E (Some row) None w row text d
                 content eq_refl Htext Hne Hdate Hfile).
      cbn [snd Server.fs Server.set_fs]. apply lookup_delete_eq.
  - apply IH; [exact Hin|].
    destruct Hfs as [Hnone|[content Hfile]];
      [left; by apply run_task_keeps_absent|].
    destruct (run_task_fs now t w) as [->|(p & c & _ & ->)];
      [right; by exists content|].
    destruct (decide (FilesTable.storage_path row = p)) as [->|Hp].
    + left. apply lookup_delete_eq.
    + right. exists content. by rewrite lookup_delete_ne.
Qed.

End StartupFacts.

Lemma startup_tasks {B : Type} `{Bytes B} (w : Server.world B) :
  Server.tasks w = [] ->
  Routes.startup_event w
  = (Return tt,
     Server.set_tasks
       (List.map (fun row => AutoDeleteExpiredFile (Some row) None)
          (FilesTable.get_file_they_have_expired_at_not_null (Server.db w)))
       w)
  /\ Forall (deletion_of (Server.db w))
       (List.map (fun row => AutoDeleteExpiredFile (Some row) None)
          (FilesTable.get_file_they_have_expired_at_not_null (Server.db w))).
Proof.
  intros Htasks. unfold Routes.startup_event. rewrite Htasks. cbn [app].
  split; [reflexivity|].
  apply List.Forall_forall. intros t Hin. apply in_map_iff in Hin as (row & <- & Hin).
  unfold FilesTable.get_file_they_have_expired_at_not_null in Hin.
  apply filter_In in Hin as [Hin Hexp]. apply bool_decide_eq_true in Hexp.
  by exists row.
Qed.

(** X20.  Start-up followed by the tasks it creates leaves the table as
    it is and no task behind, and removes nothing but the bytes of rows
    that carry an expiry: every path whose content changed has been
    removed and is the storage path of such a row. *)
Theorem startup_event_removes_expiring_only {B : Type} `{Bytes B}
    (E : Server.env B) (now : Z) (w : Server.world B) :
  Server.tasks w = [] ->
  Server.db (Routes.run_pending E now (snd (Routes.startup_event w)))
  = Server.db w
  /\ Server.tasks (Routes.run_pending E now (snd (Routes.startup_event w))) = []
  /\ forall path,
       Server.fs (Routes.run_pending E now (snd (Routes.startup_event w)))
       !! path <> Server.fs w !! path ->
       Server.fs (Routes.run_pending E now (snd (Routes.startup_event w)))
       !! path = None
       /\ exists row,
            In row (FilesTable.rows (Server.db w))
            /\ is_Some (FilesTable.expires_at row)
            /\ FilesTable.storage_path row = path.
Proof.
  intros Htasks. destruct (startup_tasks w Htasks) as [-> Hall].
  unfold Routes.run_pending. cbn [snd Server.tasks Server.set_tasks].
  destruct (run_all_deletions E now (Server.db w) _
              (Server.set_tasks []
                 (Server.set_tasks
                    (List.map (fun row => AutoDeleteExpiredFile (Some row) None)
                       (FilesTable.get_file_they_have_expired_at_not_null
                          (Server.db w))) w)) Hall)
    as (Hdb & Htasks' & Hfs).
  split; [exact Hdb|]. split; [exact Htasks'|]. exact Hfs.
Qed.

Lemma startup_event_removes_expiring_only_witness :
  Server.db (Routes.run_pending Scenario.E Scenario.noon
               (snd (Routes.startup_event Scenario.w0)))
  = Server.db Scenario.w0.
Proof.
  exact (proj1 (startup_event_removes_expiring_only Scenario.E Scenario.noon
                  Scenario.w0 eq_refl)).
Defined.

(** X21.  Once the tasks that start-up creates have run to their end
    (each sleeps until the expiry of its row), the bytes of every row
    whose expiry [fetch_date] can read are gone from the disk; the row
    itself stays in the table. *)
Theorem startup_event_removes_expiring_bytes {B : Type} `{Bytes B}
    (E : Server.env B) (now : Z) (w : Server.world B) (row : FilesTable.row)
    (text : string) (d : Datetime.datetime) (content : B) :
  Server.tasks w = [] ->
  In row (FilesTable.rows (Server.db w)) ->
  FilesTable.expires_at row = Some text ->
  text <> "" ->
  Functions.fetch_date (Server.host E) text = Return (Some d) ->
  Server.fs w !! FilesTable.storage_path row = Some (FS.File content) ->
  Server.fs (Routes.run_pending E now (snd (Routes.startup_event w)))
  !! FilesTable.storage_path row = None
  /\ In row (FilesTable.rows
               (Server.db (Routes.run_pending E now
                             (snd (Routes.startup_event w))))).
Proof.
  intros Htasks Hin Htext Hne Hdate Hfile.
  split.
  - destruct (startup_tasks w Htasks) as [-> _].
    unfold Routes.run_pending. cbn [snd Server.tasks Server.set_tasks].
    apply (run_all_removes E now _ _ row text d); try assumption.
    + apply in_map_iff. exists row. split; [reflexivity|].
      unfold FilesTable.get_file_they_have_expired_at_not_null.
      apply filter_In. split; [exact Hin|].
      apply bool_decide_eq_true. rewrite Htext. by eexists.
    + right. by exists content.
  - destruct (startup_tasks w Htasks) as [-> Hall].
    unfold Routes.run_pending. cbn [snd Server.tasks Server.set_tasks].
    destruct (run_all_deletions E now (Server.db w) _
                (Server.set_tasks []
                   (Server.set_tasks
                      (List.map (fun row => AutoDeleteExpiredFile (Some row) None)
                         (FilesTable.get_file_they_have_expired_at_not_null
                            (Server.db w))) w)) Hall)
      as (Hdb & _).
    rewrite Hdb. exact Hin.
Qed.

Lemma startup_event_removes_expiring_bytes_witness :
  Server.fs (Routes.run_pending Scenario.E Scenario.noon
               (snd (Routes.startup_event Scenario.w0)))
  !! "storage/stale.bin" = None
  /\ In Scenario.stale
       (FilesTable.rows
          (Server.db (Routes.run_pending Scenario.E Scenario.noon
                        (snd (Routes.startup_event Scenario.w0))))).
Proof.
  apply (startup_event_removes_expiring_bytes Scenario.E Scenario.noon
           Scenario.w0 Scenario.stale "2025-05-11 12:56:56+00:00"
           (Datetime.mk 2025 5 11 12 56 56 0 (Some 0)) 10%N).
  - reflexivity.
  - right. left. reflexivity.
  - reflexivity.
  - discriminate.
  - vm_compute. reflexivity.
  - vm_compute. reflexivity.
Defined.

Section UploadManyFacts.
Context {B : Type} `{Bytes B}.
Variable E : Server.env B.

Lemma upload_each_world (now : Z) (files : list Routes.UploadFile)
    (expiry_days : option Z) (results : list Routes.upload_entry)
    (w : Server.world B) :
  snd (Routes.upload_each E now files expiry_days results w)
  = fold_left (fun w file => snd (Routes.upload_file E now file expiry_days w))
      files w.
Proof.
  revert results w. induction files as [|file rest IH]; intros results w;
    [reflexivity|].
  cbn [Routes.upload_each fold_left].
  unfold Server.bind at 1, Server.try_except, Server.bind at 1.
  destruct (Routes.upload_file E now file expiry_days w) as [[resp|e] w1]
    eqn:Hup; cbn [snd].
  - unfold Server.ret at 1. apply IH.
  - destruct (Server.is_HTTPException e) eqn:He.
    + unfold Server.ret at 1. apply IH.
    + exfalso.
      assert (Hfst : fst (Routes.upload_file E now file expiry_days w) = Raise e)
        by (by rewrite Hup).
      pose proof (upload_file_raises_http E now file expiry_days w e Hfst).
      congruence.
Qed.

End UploadManyFacts.

(** X22.  Whatever [upload_multiple_files] answers, what it leaves on
    the server is what uploading the files one by one, in order, leaves:
    a file that fails does not undo the files stored before it, nor stop
    the ones after it. *)
Theorem upload_multiple_files_world {B : Type} `{Bytes B} (E : Server.env B)
    (now : Z) (files : list Routes.UploadFile) (expiry_days : option Z)
    (w : Server.world B) :
  snd (Routes.upload_multiple_files E now files expiry_days w)
  = fold_left (fun w file => snd (Routes.upload_file E now file expiry_days w))
      files w.
Proof.
  destruct files as [|file rest]; [reflexivity|].
  rewrite <- (upload_each_world E now (file :: rest) expiry_days []).
  unfold Routes.upload_multiple_files.
  unfold Server.bind at 1.
  destruct (Routes.upload_each E now (file :: rest) expiry_days [] w)
    as [[results|e] w1]; [|reflexivity].
  unfold Server.bind, Server.lift, Server.ret. cbn [snd].
  destruct (Routes.comprehension Routes.not_has_error_key results);
    [|reflexivity].
  destruct (Routes.comprehension Routes.has_error_key results); [|reflexivity].
  by destruct (Routes.entries_json results).
Qed.

Section BudgetFacts.

Import RateLimiter.


Lemma run_one (rl : t) (ip : string) (now : Z) :
  run rl ip [now] = ([fst (__call__ rl ip now)], snd (__call__ rl ip now)).
Proof. cbn [run]. by destruct (__call__ rl ip now). Qed.



End BudgetFacts.

Section AppFacts.
Context {B : Type} `{Bytes B}.
Variable E : Server.env B.




End AppFacts.



(** X24.  [POST /api/upload/multiple] is not behind the key.  For a
    request that the limiter lets through and whose [Authorization]
    header the guard rejects (missing, wrong, or malformed),
    [/api/upload] fails with the guard's error and stores nothing, while
    [/api/upload/multiple] with the same file leaves on the server
    exactly what an accepted upload of that file leaves. *)
Theorem upload_multiple_needs_no_key {B : Type} `{Bytes B} (E : Server.env B)
    (file : Routes.UploadFile) (expiry_days : option Z) (req : App.request)
    (now : Z) (ls : App.limiters) (w : Server.world B) (e : exn) :
  fst (RateLimiter.__call__ (App.upload_limiter ls) (App.client_host req) now)
  = Return tt ->
  Functions.authorize_admin (Server.config E) (App.authorization req)
  = Raise e ->
  fst (fst (App.dispatch E (App.Upload file expiry_days) req now ls w))
  = Raise e
  /\ snd (App.dispatch E (App.Upload file expiry_days) req now ls w) = w
  /\ snd (App.dispatch E (App.UploadMultiple [file] expiry_days) req now ls w)
     = snd (Routes.upload_file E now file expiry_days w).
Proof.
  intros Hpass Hguard.
  cbn [App.dispatch].
  unfold App.post_upload, App.post_upload_multiple, App.route.
  destruct (RateLimiter.__call__ (App.upload_limiter ls) (App.client_host req)
              now) as [r rl']. cbn [fst] in Hpass. subst r.
  rewrite Hguard. cbn [fst snd]. split; [reflexivity|]. split; [reflexivity|].
  pose proof (upload_each_world E now [file] expiry_days [] w) as Hworld.
  cbn [fold_left] in Hworld. rewrite <- Hworld. clear Hworld.
  unfold Routes.upload_multiple_files. unfold Server.bind at 1.
  destruct (Routes.upload_each E now [file] expiry_days [] w)
    as [[results|e1] w1]; [|reflexivity].
  unfold Server.bind, Server.lift, Server.ret. cbn [snd].
  destruct (Routes.comprehension Routes.not_has_error_key results);
    [|reflexivity].
  destruct (Routes.comprehension Routes.has_error_key results); [|reflexivity].
  by destruct (Routes.entries_json results).
Qed.

Lemma upload_multiple_needs_no_key_witness :
  fst (fst (App.dispatch Scenario.E (App.Upload Scenario.small None)
              (App.mk_request "10.0.0.7" None) Scenario.noon App.boot
              Scenario.w0))
  = Raise (HTTPException 401 "Unauthorized")
  /\ snd (App.dispatch Scenario.E (App.Upload Scenario.small None)
            (App.mk_request "10.0.0.7" None) Scenario.noon App.boot
            Scenario.w0) = Scenario.w0
  /\ snd (App.dispatch Scenario.E (App.UploadMultiple [Scenario.small] None)
            (App.mk_request "10.0.0.7" None) Scenario.noon App.boot
            Scenario.w0)
     = snd (Routes.upload_file Scenario.E Scenario.noon Scenario.small None
              Scenario.w0).
Proof.
  apply (upload_multiple_needs_no_key Scenario.E Scenario.small None
           (App.mk_request "10.0.0.7" None) Scenario.noon App.boot Scenario.w0).
  - vm_compute. reflexivity.
  - reflexivity.
Defined.

Section CalendarFacts.

Import Datetime.

Lemma shiftr5 (n : Z) : Z.shiftr n 5 = n / 32.
Proof. by rewrite Z.shiftr_div_pow2. Qed.

(** The month and day of the [n]-th day of a year, counted from 0. *)
Lemma month_day_spec (y n : Z) (leapyear : bool) :
  0 <= n <= 364 ->
  exists m d,
    (let m := Z.shiftr (n + 50) 5 in
     let preceding :=
       DAYS_BEFORE_MONTH m + (if (2 <? m) && leapyear then 1 else 0) in
     if n <? preceding then
       let m := m - 1 in
       let preceding :=
         preceding
         - (DAYS_IN_MONTH m + (if (m =? 2) && leapyear then 1 else 0)) in
       (y, m, n - preceding + 1)
     else (y, m, n - preceding + 1)) = (y, m, d)
    /\ 1 <= m <= 12
    /\ 1 <= d <= (if (m =? 2) && leapyear then 29 else DAYS_IN_MONTH m)
    /\ DAYS_BEFORE_MONTH m + (if (2 <? m) && leapyear then 1 else 0) + d
       = n + 1.
Proof.
  intros Hn. cbv zeta. rewrite shiftr5.
  assert (Hm : 1 <= (n + 50) / 32 <= 12) by (Z.div_mod_to_equations; lia).
  assert (Hlow : 32 * ((n + 50) / 32) <= n + 50 < 32 * ((n + 50) / 32) + 32)
    by (Z.div_mod_to_equations; lia).
  set (m0 := (n + 50) / 32) in *.
  assert (Hcases : m0 = 1 \/ m0 = 2 \/ m0 = 3 \/ m0 = 4 \/ m0 = 5 \/ m0 = 6
                   \/ m0 = 7 \/ m0 = 8 \/ m0 = 9 \/ m0 = 10 \/ m0 = 11
                   \/ m0 = 12) by lia.
  clearbody m0.
  repeat (destruct Hcases as [->|Hcases]); [..|subst m0];
    destruct leapyear;
    match goal with
    | |- context [if n <? ?p then _ else _] =>
        let p' := eval cbv in p in
        change p with p'; destruct (Z.ltb_spec n p')
    end;
    eexists _, _; (split; [reflexivity|]); cbv zeta;
    repeat match goal with
           | |- context [DAYS_BEFORE_MONTH ?m] =>
               let v := eval cbv in (DAYS_BEFORE_MONTH m) in
               change (DAYS_BEFORE_MONTH m) with v
           | |- context [DAYS_IN_MONTH ?m] =>
               let v := eval cbv in (DAYS_IN_MONTH m) in
               change (DAYS_IN_MONTH m) with v
           | |- context [(?a <? ?b) && ?c] =>
               let v := eval cbv in ((a <? b) && c) in
               change ((a <? b) && c) with v
           | |- context [(?a =? ?b) && ?c] =>
               let v := eval cbv in ((a =? b) && c) in
               change ((a =? b) && c) with v
           end;
    cbv iota; lia.
Qed.

Lemma ord2ymd_spec (n : Z) :
  1 <= n <= MAX_ORDINAL ->
  exists y m d,
    ord2ymd n = (y, m, d)
    /\ 1 <= y <= 9999
    /\ 1 <= m <= 12
    /\ 1 <= d <= days_in_month y m
    /\ ymd2ord y m d = n.
Proof.
  unfold MAX_ORDINAL. intros Hn. unfold ord2ymd. cbv zeta.
  unfold DI400Y, DI100Y, DI4Y.
  set (n400 := (n - 1) / 146097). set (r400 := (n - 1) mod 146097).
  set (n100 := r400 / 36524). set (r100 := r400 mod 36524).
  set (n4 := r100 / 1461). set (r4 := r100 mod 1461).
  set (n1 := r4 / 365). set (r1 := r4 mod 365).
  assert (H400 : n - 1 = 146097 * n400 + r400 /\ 0 <= r400 < 146097)
    by (subst n400 r400; Z.div_mod_to_equations; lia).
  assert (H100 : r400 = 36524 * n100 + r100 /\ 0 <= r100 < 36524)
    by (subst n100 r100; Z.div_mod_to_equations; lia).
  assert (H4 : r100 = 1461 * n4 + r4 /\ 0 <= r4 < 1461)
    by (subst n4 r4; Z.div_mod_to_equations; lia).
  assert (H1 : r4 = 365 * n1 + r1 /\ 0 <= r1 < 365)
    by (subst n1 r1; Z.div_mod_to_equations; lia).
  clearbody n400 r400 n100 r100 n4 r4 n1 r1.
  destruct ((n1 =? 4) || (n100 =? 4)) eqn:Hspecial.
  - set (y := n400 * 400 + 1 + n100 * 100 + n4 * 4 + n1 - 1).
    exists y, 12, 31. split; [reflexivity|].
    assert (Hy : exists k, y = 4 * k
                           /\ (y mod 100 <> 0 \/ y mod 400 = 0)
                           /\ days_before_year y + 366 = n).
    { unfold days_before_year. subst y.
      apply orb_true_iff in Hspecial as [H|H]; apply Z.eqb_eq in H; subst.
      - exists (n400 * 100 + n100 * 25 + n4 + 1).
        split; [lia|]. split; [left|]; Z.div_mod_to_equations; lia.
      - exists (n400 * 100 + 100 + n4 + (n1 - n1 mod 4) / 4).
        assert (n4 = 0 /\ n1 = 0) as [-> ->] by lia.
        split; [Z.div_mod_to_equations; lia|].
        split; [right|]; Z.div_mod_to_equations; lia. }
    destruct Hy as (k & Hk & Hcentury & Hdays).
    assert (Hleap : is_leap y = true).
    { unfold is_leap. apply andb_true_iff. split.
      - apply Z.eqb_eq. Z.div_mod_to_equations; lia.
      - apply orb_true_iff. destruct Hcentury as [Hc|Hc].
        + left. apply negb_true_iff. by apply Z.eqb_neq.
        + right. by apply Z.eqb_eq. }
    split; [subst y; lia|]. split; [lia|].
    split; [unfold days_in_month; cbn; lia|].
    unfold ymd2ord, days_before_month. rewrite Hleap. cbn -[days_before_year].
    lia.
  - apply orb_false_iff in Hspecial as [Hn1 Hn100].
    apply Z.eqb_neq in Hn1, Hn100.
    set (y := n400 * 400 + 1 + n100 * 100 + n4 * 4 + n1).
    set (leapyear := (n1 =? 3) && (negb (n4 =? 24) || (n100 =? 3))).
    assert (Hleap : is_leap y = leapyear).
    { unfold is_leap, leapyear. subst y.
      destruct (Z.eqb_spec n1 3), (Z.eqb_spec n4 24), (Z.eqb_spec n100 3);
        cbn [andb orb negb];
        repeat match goal with
               | |- context [?a mod ?b =? 0] =>
                   destruct (Z.eqb_spec (a mod b) 0)
               end; cbn [andb orb negb]; try reflexivity; exfalso;
        Z.div_mod_to_equations; lia. }
    assert (Hdays : days_before_year y = n - 1 - r1).
    { unfold days_before_year. subst y. Z.div_mod_to_equations. lia. }
    destruct (month_day_spec y r1 leapyear ltac:(lia))
      as (m & d & Heq & Hm & Hd & Hsum).
    cbv zeta in Heq. exists y, m, d. split; [exact Heq|].
    split; [subst y; lia|]. split; [exact Hm|].
    unfold days_in_month, ymd2ord, days_before_month. rewrite Hleap.
    split; [exact Hd | lia].
Qed.

End CalendarFacts.

Section StringFacts.

Lemma append_cons (c : ascii) (a b : string) :
  String c a +:+ b = String c (a +:+ b).
Proof. reflexivity. Qed.

Lemma length_append (a b : string) :
  String.length (a +:+ b) = (String.length a + String.length b)%nat.
Proof.
  induction a as [|c a IH]; [reflexivity|].
  rewrite append_cons. cbn [String.length]. by rewrite IH.
Qed.

Lemma append_assoc (a b c : string) : (a +:+ b) +:+ c = a +:+ (b +:+ c).
Proof.
  induction a as [|x a IH]; [reflexivity|].
  rewrite !append_cons. by rewrite IH.
Qed.

Lemma substring_append_head (a r : string) :
  String.substring 0 (String.length a) (a +:+ r) = a.
Proof.
  induction a as [|c a IH]; [by destruct r|].
  rewrite append_cons. cbn [String.length String.substring]. by rewrite IH.
Qed.

Lemma substring_append_tail (a r : string) :
  String.substring (String.length a)
    (String.length (a +:+ r) - String.length a) (a +:+ r) = r.
Proof.
  induction a as [|c a IH].
  - cbn [String.length]. rewrite Nat.sub_0_r. apply substring_whole.
  - rewrite append_cons. cbn [String.length String.substring Nat.sub].
    exact IH.
Qed.

Lemma get_append (a : string) (c : ascii) (r : string) :
  String.get (String.length a) (a +:+ String c r) = Some c.
Proof.
  induction a as [|x a IH]; [reflexivity|].
  rewrite append_cons. cbn [String.length String.get]. exact IH.
Qed.

End StringFacts.

Section IsoformatFacts.

Import Datetime.

Lemma digit_digit_char (v : Z) : digit (digit_char v) = Some (v mod 10).
Proof.
  unfold digit, digit_char.
  assert (Hv : 0 <= v mod 10 < 10) by (apply Z.mod_pos_bound; lia).
  rewrite N_ascii_embedding by lia. rewrite Z2N.id by lia.
  destruct (Z.leb_spec 48 (48 + v mod 10)); [|lia].
  destruct (Z.leb_spec (48 + v mod 10) 57); [|lia].
  cbn [andb]. f_equal. lia.
Qed.

Lemma digit_not_sign (c : ascii) (v : Z) :
  digit c = Some v -> Ascii.eqb c "+" || Ascii.eqb c "-" = false.
Proof.
  destruct c as [[] [] [] [] [] [] [] []]; vm_compute; congruence.
Qed.

Lemma find_sign_append (a r : string) :
  find_sign a = None ->
  find_sign (a +:+ r) = (fun k => String.length a + k)%nat <$> find_sign r.
Proof.
  induction a as [|c a IH]; intros Hnone.
  - change ("" +:+ r) with r. by destruct (find_sign r).
  - rewrite append_cons. cbn [find_sign] in *.
    destruct (Ascii.eqb c "+" || Ascii.eqb c "-"); [discriminate|].
    destruct (find_sign a); [discriminate|]. rewrite IH by reflexivity.
    by destruct (find_sign r).
Qed.

Lemma digits_acc_append (acc : Z) (a b : string) :
  digits_acc acc (a +:+ b) = digits_acc acc a ≫= fun v => digits_acc v b.
Proof.
  revert acc. induction a as [|c a IH]; intros acc; [reflexivity|].
  rewrite append_cons. cbn [digits_acc]. destruct (digit c); [apply IH|].
  reflexivity.
Qed.

Lemma length_zfill (w : nat) (v : Z) : String.length (zfill w v) = w.
Proof.
  revert v. induction w as [|w IH]; intros v; [reflexivity|].
  cbn [zfill]. rewrite length_append, IH. cbn. lia.
Qed.

Lemma find_sign_zfill (w : nat) (v : Z) : find_sign (zfill w v) = None.
Proof.
  revert v. induction w as [|w IH]; intros v; [reflexivity|].
  cbn [zfill]. rewrite find_sign_append by apply IH.
  cbn [find_sign]. by rewrite (digit_not_sign _ _ (digit_digit_char v)).
Qed.

Lemma digits_acc_zfill (w : nat) (acc v : Z) :
  0 <= v ->
  digits_acc acc (zfill w v) = Some (acc * 10 ^ Z.of_nat w + v mod 10 ^ Z.of_nat w).
Proof.
  revert acc v. induction w as [|w IH]; intros acc v Hv.
  - cbn. f_equal. rewrite Z.mod_1_r. lia.
  - cbn [zfill]. rewrite digits_acc_append, IH by (apply Z.div_pos; lia).
    cbn [mbind option_bind digits_acc]. rewrite digit_digit_char. f_equal.
    rewrite Nat2Z.inj_succ, Z.pow_succ_r by lia.
    rewrite (Z.rem_mul_r v 10 (10 ^ Z.of_nat w)) by lia. lia.
Qed.

Lemma int_digits_zfill (w : nat) (v : Z) :
  (0 < w)%nat -> 0 <= v < 10 ^ Z.of_nat w ->
  int_digits (zfill w v) = Some v.
Proof.
  intros Hw Hv. unfold int_digits.
  pose proof (length_zfill w v) as Hlen.
  destruct (zfill w v) as [|c s] eqn:Hz; [cbn in Hlen; lia|].
  rewrite <- Hz, digits_acc_zfill by lia. f_equal.
  rewrite Z.mod_small by lia. lia.
Qed.

Lemma take_int_zfill (w : nat) (v : Z) (rest : string) :
  (0 < w)%nat -> 0 <= v < 10 ^ Z.of_nat w ->
  take_int w (zfill w v +:+ rest) = Some (v, rest).
Proof.
  intros Hw Hv. unfold take_int.
  pose proof (length_zfill w v) as Hlen.
  pose proof (int_digits_zfill w v Hw Hv) as Hint.
  revert Hlen Hint. generalize (zfill w v). intros a <- Hint.
  rewrite substring_append_head, substring_append_tail, Hint.
  destruct (Nat.ltb_spec (String.length (a +:+ rest)) (String.length a))
    as [Hlt|_]; [rewrite length_append in Hlt; lia | reflexivity].
Qed.

Lemma take_int_4 (v : Z) (rest : string) :
  0 <= v < 10000 -> take_int 4 (zfill 4 v +:+ rest) = Some (v, rest).
Proof. intros Hv. apply take_int_zfill; [lia | exact Hv]. Qed.

Lemma take_int_2 (v : Z) (rest : string) :
  0 <= v < 100 -> take_int 2 (zfill 2 v +:+ rest) = Some (v, rest).
Proof. intros Hv. apply take_int_zfill; [lia | exact Hv]. Qed.

Lemma int_digits_6 (v : Z) :
  0 <= v < 1000000 -> int_digits (zfill 6 v) = Some v.
Proof. intros Hv. apply int_digits_zfill; [lia | exact Hv]. Qed.

Lemma append_char (c : ascii) (r : string) : String c "" +:+ r = String c r.
Proof. reflexivity. Qed.

Ltac parse_step :=
  first [rewrite take_int_4 by assumption | rewrite take_int_2 by assumption];
  cbn [mbind option_bind]; rewrite ?append_char;
  cbn [expect Ascii.eqb Bool.eqb mbind option_bind].

Lemma parse_isoformat_date_zfill (y m d : Z) :
  0 <= y < 10000 -> 0 <= m < 100 -> 0 <= d < 100 ->
  parse_isoformat_date
    (zfill 4 y +:+ "-" +:+ zfill 2 m +:+ "-" +:+ zfill 2 d)
  = Some (y, m, d).
Proof.
  intros Hy Hm Hd. unfold parse_isoformat_date.
  rewrite <- (append_empty_r (zfill 2 d)).
  do 3 parse_step. reflexivity.
Qed.

(** The fraction [isoformat] writes after the seconds. *)
Lemma parse_hh_mm_ss_ff_zfill (hh mm ss us : Z) :
  0 <= hh < 100 -> 0 <= mm < 100 -> 0 <= ss < 100 -> 0 <= us < 1000000 ->
  parse_hh_mm_ss_ff
    (zfill 2 hh +:+ ":" +:+ zfill 2 mm +:+ ":" +:+ zfill 2 ss
     +:+ (if us =? 0 then "" else "." +:+ zfill 6 us))
  = Some (hh, mm, ss, us).
Proof.
  intros Hhh Hmm Hss Hus. unfold parse_hh_mm_ss_ff.
  do 3 parse_step.
  destruct (Z.eqb_spec us 0) as [->|Hne]; [reflexivity|].
  rewrite ?append_char. cbn [expect Ascii.eqb Bool.eqb mbind option_bind].
  rewrite length_zfill, int_digits_6 by assumption. reflexivity.
Qed.

Lemma find_sign_time (hh mm ss us : Z) :
  find_sign
    (zfill 2 hh +:+ ":" +:+ zfill 2 mm +:+ ":" +:+ zfill 2 ss
     +:+ (if us =? 0 then "" else "." +:+ zfill 6 us))
  = None.
Proof.
  rewrite find_sign_append by apply find_sign_zfill. rewrite append_char.
  cbn [find_sign Ascii.eqb Bool.eqb orb].
  rewrite find_sign_append by apply find_sign_zfill. rewrite append_char.
  cbn [find_sign Ascii.eqb Bool.eqb orb].
  rewrite find_sign_append by apply find_sign_zfill.
  destruct (us =? 0); [reflexivity|]. rewrite append_char.
  cbn [find_sign Ascii.eqb Bool.eqb orb]. by rewrite find_sign_zfill.
Qed.

Lemma parse_isoformat_time_utc (hh mm ss us : Z) :
  0 <= hh < 100 -> 0 <= mm < 100 -> 0 <= ss < 100 -> 0 <= us < 1000000 ->
  parse_isoformat_time
    ((zfill 2 hh +:+ ":" +:+ zfill 2 mm +:+ ":" +:+ zfill 2 ss
      +:+ (if us =? 0 then "" else "." +:+ zfill 6 us))
     +:+ "+00:00")
  = Some (hh, mm, ss, us, Some 0).
Proof.
  intros Hhh Hmm Hss Hus. unfold parse_isoformat_time.
  pose proof (parse_hh_mm_ss_ff_zfill hh mm ss us Hhh Hmm Hss Hus) as Hparse.
  pose proof (find_sign_time hh mm ss us) as Hsign.
  match type of Hsign with
  | find_sign ?p = None => assert (Hlen : (8 <= String.length p)%nat)
  end.
  { rewrite !length_append, !length_zfill. cbn [String.length]. lia. }
  revert Hparse Hsign Hlen.
  generalize (zfill 2 hh +:+ ":" +:+ zfill 2 mm +:+ ":" +:+ zfill 2 ss
              +:+ (if us =? 0 then "" else "." +:+ zfill 6 us)).
  intros P Hparse Hsign Hlen.
  destruct (Nat.ltb_spec (String.length (P +:+ "+00:00")) 2) as [Hlt|_];
    [rewrite length_append in Hlt; lia|].
  rewrite (find_sign_append P "+00:00" Hsign).
  cbn [find_sign Ascii.eqb Bool.eqb orb fmap option_fmap option_map].
  rewrite Nat.add_0_r, substring_append_head, Hparse.
  cbn [mbind option_bind].
  assert (Htz : String.substring (S (String.length P))
                  (String.length (P +:+ "+00:00") - S (String.length P))
                  (P +:+ "+00:00") = "00:00").
  { pose proof (substring_append_tail (P +:+ "+") "00:00") as Htail.
    rewrite append_assoc in Htail. rewrite length_append in Htail at 1 2.
    cbn [String.length] in Htail.
    replace (String.length P + 1)%nat with (S (String.length P)) in Htail
      by lia.
    exact Htail. }
  rewrite Htz, get_append. reflexivity.
Qed.

Lemma DAYS_IN_MONTH_le (m : Z) : DAYS_IN_MONTH m <= 31.
Proof.
  unfold DAYS_IN_MONTH.
  repeat match goal with
         | |- context [match ?x with _ => _ end] => destruct x
         end; lia.
Qed.

(** What [isoformat] writes for a value in UTC, [fromisoformat] reads
    back. *)
Lemma fromisoformat_isoformat (d : datetime) :
  valid_fields (year d) (month d) (day d) (hour d) (minute d) (second d)
    (microsecond d) = true ->
  tzinfo d = Some 0 ->
  fromisoformat (isoformat " " d) = Some d.
Proof.
  destruct d as [y m dd hh mm ss us tz].
  cbn [year month day hour minute second microsecond tzinfo].
  intros Hvalid ->. pose proof Hvalid as Hbounds.
  unfold valid_fields, MINYEAR, MAXYEAR in Hbounds.
  repeat (apply andb_prop in Hbounds as [Hbounds ?]).
  assert (Hdim : days_in_month y m <= 31).
  { unfold days_in_month. pose proof (DAYS_IN_MONTH_le m).
    destruct (_ && _); lia. }
  assert (Hy : 0 <= y < 10000) by lia.
  assert (Hm : 0 <= m < 100) by lia.
  assert (Hdd : 0 <= dd < 100) by lia.
  assert (Hhh : 0 <= hh < 100) by lia.
  assert (Hmm : 0 <= mm < 100) by lia.
  assert (Hss : 0 <= ss < 100) by lia.
  assert (Hus : 0 <= us < 1000000) by lia.
  unfold fromisoformat, isoformat.
  cbn [year month day hour minute second microsecond tzinfo].
  change (format_offset 0) with "+00:00".
  set (D := zfill 4 y +:+ "-" +:+ zfill 2 m +:+ "-" +:+ zfill 2 dd).
  set (P := zfill 2 hh +:+ ":" +:+ zfill 2 mm +:+ ":" +:+ zfill 2 ss
            +:+ (if us =? 0 then "" else "." +:+ zfill 6 us)).
  assert (Hstr :
    zfill 4 y +:+ "-" +:+ zfill 2 m +:+ "-" +:+ zfill 2 dd +:+ " "
    +:+ zfill 2 hh +:+ ":" +:+ zfill 2 mm +:+ ":" +:+ zfill 2 ss
    +:+ (if us =? 0 then "" else "." +:+ zfill 6 us) +:+ "+00:00"
    = (D +:+ " ") +:+ (P +:+ "+00:00")).
  { unfold D, P. by rewrite !append_assoc. }
  rewrite Hstr.
  assert (HlenD : String.length D = 10%nat).
  { unfold D. rewrite !length_append, !length_zfill. reflexivity. }
  assert (Hdate : String.substring 0 10 ((D +:+ " ") +:+ (P +:+ "+00:00")) = D).
  { rewrite append_assoc, <- HlenD. apply substring_append_head. }
  assert (Htime :
    String.substring 11
      (String.length ((D +:+ " ") +:+ (P +:+ "+00:00")) - 11)
      ((D +:+ " ") +:+ (P +:+ "+00:00"))
    = P +:+ "+00:00").
  { assert (Hlen11 : String.length (D +:+ " ") = 11%nat)
      by (by rewrite length_append, HlenD).
    rewrite <- Hlen11. apply substring_append_tail. }
  rewrite Hdate, Htime. unfold D.
  rewrite parse_isoformat_date_zfill by assumption. cbn [mbind option_bind].
  assert (Hparse : parse_isoformat_time (P +:+ "+00:00")
                   = Some (hh, mm, ss, us, Some 0))
    by (by apply parse_isoformat_time_utc).
  destruct (P +:+ "+00:00") as [|c T] eqn:HT; [discriminate|].
  rewrite Hparse. cbn [mbind option_bind]. by rewrite Hvalid.
Qed.

End IsoformatFacts.

Section StoredDateFacts.

Import Datetime.

(** The fields of an instant inside years 1..9999 pass the constructor's
    checks, and denote that instant. *)
Lemma of_instant_spec (t : Z) (d : datetime) :
  of_instant t = Some d ->
  valid_fields (year d) (month d) (day d) (hour d) (minute d) (second d)
    (microsecond d) = true
  /\ tzinfo d = Some 0
  /\ wall d = t.
Proof.
  unfold of_instant.
  destruct ((t / US_PER_DAY + EPOCH_ORDINAL <? 1)
            || (MAX_ORDINAL <? t / US_PER_DAY + EPOCH_ORDINAL)) eqn:Hrange;
    [discriminate|].
  intros [= <-].
  apply orb_false_iff in Hrange as [Hlo Hhi].
  apply Z.ltb_ge in Hlo, Hhi.
  destruct (ord2ymd_spec (t / US_PER_DAY + EPOCH_ORDINAL) ltac:(lia))
    as (y & m & dd & Hymd & Hy & Hm & Hdd & Hord).
  unfold utc_fields. rewrite Hymd.
  cbn [year month day hour minute second microsecond tzinfo].
  unfold wall. cbn [year month day hour minute second microsecond tzinfo].
  rewrite Hord. unfold US_PER_DAY, US_PER_SECOND, EPOCH_ORDINAL in *.
  split; [|split; [reflexivity|]].
  - unfold valid_fields, MINYEAR, MAXYEAR.
    repeat (apply andb_true_intro; split); apply Z.leb_le;
      try lia; Z.div_mod_to_equations; lia.
  - Z.div_mod_to_equations. lia.
Qed.

(** The text stored for an expiry is read back by [fetch_date] as the
    same value, whatever the host's time zone. *)
Lemma fetch_date_adapt_datetime (h : Functions.host) (t : Z) (d : datetime) :
  of_instant t = Some d ->
  Functions.fetch_date h (FilesTable.adapt_datetime d) = Return (Some d).
Proof.
  intros Hd. destruct (of_instant_spec t d Hd) as (Hvalid & Htz & Hwall).
  unfold Functions.fetch_date, FilesTable.adapt_datetime.
  rewrite (fromisoformat_isoformat d Hvalid Htz).
  unfold astimezone_utc. rewrite Htz, Hwall, Z.sub_0_r, Hd. reflexivity.
Qed.

End StoredDateFacts.

Lemma isoformat_nonempty (sep : string) (d : Datetime.datetime) :
  Datetime.isoformat sep d <> "".
Proof.
  intros Heq. apply (f_equal String.length) in Heq.
  unfold Datetime.isoformat in Heq.
  rewrite length_append, length_zfill in Heq. cbn in Heq. lia.
Qed.

(** X25.  The text stored for an expiry is read back by [fetch_date] as
    the same instant on every host, whatever its time zone: the stored
    text carries its UTC offset.  So the expiry test of the handlers
    compares the request time with the instant the upload computed. *)
Theorem stored_expiry_reads_back (h : Functions.host) (t now : Z)
    (d : Datetime.datetime) :
  Datetime.of_instant t = Some d ->
  Functions.fetch_date h (FilesTable.adapt_datetime d) = Return (Some d)
  /\ Datetime.timestamp d = Some t
  /\ Datetime.lt_now d now = Return (t <? now).
Proof.
  intros Hd. destruct (of_instant_spec t d Hd) as (_ & Htz & Hwall).
  split; [by apply (fetch_date_adapt_datetime h t)|].
  unfold Datetime.timestamp, Datetime.lt_now. rewrite Htz, Hwall, Z.sub_0_r.
  by split.
Qed.

Lemma stored_expiry_reads_back_witness :
  Functions.fetch_date Scenario.dhaka_host
    (FilesTable.adapt_datetime (Datetime.mk 2025 5 11 12 56 56 0 (Some 0)))
  = Return (Some (Datetime.mk 2025 5 11 12 56 56 0 (Some 0)))
  /\ Datetime.timestamp (Datetime.mk 2025 5 11 12 56 56 0 (Some 0))
     = Some Scenario.noon
  /\ Datetime.lt_now (Datetime.mk 2025 5 11 12 56 56 0 (Some 0))
       (Scenario.noon + 1)
     = Return (Scenario.noon <? Scenario.noon + 1).
Proof.
  apply (stored_expiry_reads_back Scenario.dhaka_host Scenario.noon
           (Scenario.noon + 1) (Datetime.mk 2025 5 11 12 56 56 0 (Some 0))).
  vm_compute. reflexivity.
Defined.

Section ExpiryAfterUpload.
Context {B : Type} `{Bytes B}.
Variable E : Server.env B.

(** The row of an upload with an expiry, tested at a later time. *)
Lemma is_expired_uploaded (now : Z) (row : FilesTable.row) (t : Z)
    (d : Datetime.datetime) :
  Datetime.of_instant t = Some d ->
  FilesTable.expires_at row = Some (FilesTable.adapt_datetime d) ->
  Routes.is_expired E now row = Return (t <? now).
Proof.
  intros Hd Hexp.
  pose proof (fetch_date_adapt_datetime (Server.host E) t d Hd) as Hfetch.
  destruct (of_instant_spec t d Hd) as (_ & Htz & Hwall).
  assert (Hts : Datetime.timestamp d = Some t).
  { unfold Datetime.timestamp. rewrite Htz, Hwall. f_equal. lia. }
  destruct (Z.ltb_spec t now) as [Hlt|Hge].
  - apply (is_expired_past E now row _ d t Hexp); try assumption.
    apply isoformat_nonempty.
  - apply is_expired_not_yet. right.
    by exists (FilesTable.adapt_datetime d), d, t.
Qed.

Lemma serve_file_expired (now : Z) (p : string) (as_download : bool)
    (w : Server.world B) (r : FilesTable.row) :
  FilesTable.select_by_path p (Server.db w) = Some r ->
  Routes.is_expired E now r = Return true ->
  fst (Routes.serve_file E now p as_download w)
  = Raise (HTTPException 410 "File has expired").
Proof.
  intros Hsel Hexp. unfold Routes.serve_file, Server.bind.
  rewrite (db_get_file_hit _ _ _ _ Hsel). unfold Server.lift. by rewrite Hexp.
Qed.

End ExpiryAfterUpload.

(** X26.  A file stored by an upload with [expiry_days = n], [n] not 0,
    and viewed or downloaded later.  The upload is one that succeeds: at
    most 5 GiB (the chunks being the non-empty reads of the stream), a
    name free in the table, an expiry date inside years 1..9999 and a
    storage path the operating system accepts; no task is pending when
    it arrives.  Up to and
    including the instant [n] days after the upload the request passes
    the three checks of [serve_file]: it raises no [HTTPException] and
    creates the access update task.  At any later time it is refused
    with 410, and that holds as well once the deletion task has removed
    the bytes: the expiry is tested before the disk is looked at. *)
Theorem upload_expiry_then_view {B : Type} `{Bytes B} (E : Server.env B)
    (uploaded : Z) (file : Routes.UploadFile) (days : Z) (w : Server.world B)
    (safe : string) (d : Datetime.datetime) (now : Z) (as_download : bool) :
  fst (Routes.get_safe_filename E (Routes.filename file) w) = Return safe ->
  FilesTable.select_by_path safe (Server.db w) = None ->
  Forall (fun chunk => len chunk <> 0) (Routes.chunks file) ->
  received (Routes.chunks file) <= 5 * 1024 ^ 3 ->
  days <> 0 ->
  Datetime.of_instant (uploaded + days * Datetime.US_PER_DAY) = Some d ->
  Server.refuses E (upload_path E file w) = None ->
  Server.tasks w = [] ->
  (now <= uploaded + days * Datetime.US_PER_DAY ->
   (forall status detail,
      fst (Routes.serve_file E now safe as_download
             (snd (Routes.upload_file E uploaded file (Some days) w)))
      <> Raise (HTTPException status detail))
   /\ Server.tasks
        (snd (Routes.serve_file E now safe as_download
                (snd (Routes.upload_file E uploaded file (Some days) w))))
      = Server.tasks (snd (Routes.upload_file E uploaded file (Some days) w))
        ++ [UpdateFileAccess safe])
  /\ (uploaded + days * Datetime.US_PER_DAY < now ->
      fst (Routes.serve_file E now safe as_download
             (snd (Routes.upload_file E uploaded file (Some days) w)))
      = Raise (HTTPException 410 "File has expired")
      /\ fst (Routes.serve_file E now safe as_download
                (Routes.run_pending E (uploaded + days * Datetime.US_PER_DAY)
                   (snd (Routes.upload_file E uploaded file (Some days) w))))
         = Raise (HTTPException 410 "File has expired")).
Proof.
  intros Hsafe Hfree Hchunks Hfit Hdays Hd Hopened Htasks.
  set (t := uploaded + days * Datetime.US_PER_DAY) in *.
  assert (Hinstant : expiry_instant uploaded (Some days) = Some t).
  { unfold expiry_instant. by destruct (Z.eqb_spec days 0). }
  assert (Hexpiry : forall t', expiry_instant uploaded (Some days) = Some t' ->
                               is_Some (Datetime.of_instant t')).
  { intros t' Ht'. rewrite Hinstant in Ht'. injection Ht' as <-. by eexists. }
  destruct (upload_file_success E uploaded file (Some days) w safe Hsafe Hfree
              Hchunks Hfit Hexpiry Hopened)
    as (fields & row & path & content & _ & _ & _ & _ & Hrow & _ & Hpath
        & Hnonempty & _ & _ & Hexp & _ & Hfs & _ & Htasks' & _).
  set (w1 := snd (Routes.upload_file E uploaded file (Some days) w)) in *.
  rewrite Hinstant in Hexp, Htasks'. cbn [fmap option_fmap option_map] in Hexp.
  assert (Hfields : d = Datetime.utc_fields t).
  { unfold Datetime.of_instant in Hd. destruct (_ || _); [discriminate|].
    by injection Hd. }
  rewrite <- Hfields in Hexp.
  pose proof (is_expired_uploaded E now row t d Hd Hexp) as Htest.
  split.
  - intros Hle.
    destruct (Z.ltb_spec t now) as [Hlt|_]; [lia|].
    destruct (serve_file_success E now safe as_download w1 row Hrow Htest)
      as [resp Hresp].
    + by rewrite Hpath.
    + unfold FS.path_exists. apply bool_decide_eq_true.
      rewrite Hpath, Hfs, lookup_insert_eq. by eexists.
    + rewrite Hresp. cbn [fst snd Server.tasks]. by split.
  - intros Hlt.
    destruct (Z.ltb_spec t now) as [_|Hge]; [|lia].
    split; [by apply (serve_file_expired E now safe as_download w1 row)|].
    apply (serve_file_expired E now safe as_download _ row); [|exact Htest].
    unfold Routes.run_pending. rewrite Htasks', Htasks. cbn [app Routes.run_all].
    cbn [Routes.run_task].
    destruct (auto_delete_effect E None (Some (FilesTable.id row))
                (Server.set_tasks [] w1))
      as [->|(row' & text & content' & _ & _ & _ & ->)]; exact Hrow.
Qed.

Lemma upload_expiry_then_view_witness :
  fst (Routes.serve_file Scenario.E (Scenario.noon + 3 * Datetime.US_PER_DAY)
         "id0.txt" false
         (snd (Routes.upload_file Scenario.E Scenario.noon Scenario.small
                 (Some 2) Scenario.w0)))
  = Raise (HTTPException 410 "File has expired").
Proof.
  assert (Hchunks : Forall (fun chunk : N => len chunk <> 0)
                      (Routes.chunks Scenario.small))
    by (repeat constructor; vm_compute; discriminate).
  assert (Hfit : received (Routes.chunks Scenario.small) <= 5 * 1024 ^ 3)
    by (vm_compute; discriminate).
  assert (Hd : Datetime.of_instant (Scenario.noon + 2 * Datetime.US_PER_DAY)
               = Some (Datetime.mk 2025 5 13 12 56 56 0 (Some 0)))
    by (vm_compute; reflexivity).
  destruct (upload_expiry_then_view Scenario.E Scenario.noon Scenario.small 2
              Scenario.w0 "id0.txt" (Datetime.mk 2025 5 13 12 56 56 0 (Some 0))
              (Scenario.noon + 3 * Datetime.US_PER_DAY) false
              eq_refl eq_refl Hchunks Hfit ltac:(discriminate) Hd eq_refl
              eq_refl)
    as [_ Hlate].
  apply Hlate. vm_compute. reflexivity.
Defined.

(** X27.  The MIME type of an upload that succeeds (at most 5 GiB, a
    name free in the table, an expiry date inside years 1..9999 and a
    storage path the operating system accepts).  The type the handler
    reports in its 200 answer is the type it records; it is never empty;
    and a type the client declares is taken as it is, unless it is empty
    or [application/octet-stream], the two cases in which the type is
    guessed from the file name. *)
Theorem upload_file_content_type {B : Type} `{Bytes B} (E : Server.env B)
    (now : Z) (file : Routes.UploadFile) (expiry_days : option Z)
    (w : Server.world B) (safe : string) :
  fst (Routes.get_safe_filename E (Routes.filename file) w) = Return safe ->
  FilesTable.select_by_path safe (Server.db w) = None ->
  Forall (fun chunk => len chunk <> 0) (Routes.chunks file) ->
  received (Routes.chunks file) <= 5 * 1024 ^ 3 ->
  (forall t, expiry_instant now expiry_days = Some t ->
     is_Some (Datetime.of_instant t)) ->
  Server.refuses E (upload_path E file w) = None ->
  exists fields row,
    fst (Routes.upload_file E now file expiry_days w)
    = Return (JSONResponse 200 (JObj fields))
    /\ FilesTable.select_by_path safe
         (Server.db (snd (Routes.upload_file E now file expiry_days w)))
       = Some row
    /\ dict_get "content_type" fields = Some (JStr (FilesTable.file_type row))
    /\ FilesTable.file_type row <> ""
    /\ forall declared,
         Routes.content_type file = Some declared ->
         declared <> "" ->
         declared <> "application/octet-stream" ->
         FilesTable.file_type row = declared.
Proof.
  intros Hsafe Hfree Hchunks Hfit Hexpiry Hopened.
  destruct (upload_file_success E now file expiry_days w safe Hsafe Hfree
              Hchunks Hfit Hexpiry Hopened)
    as (fields & row & path & content & Hresp & _ & _ & _ & Hrow & _ & _ & _
        & _ & _ & _ & _ & _ & _ & _ & _ & _ & Hreported & Hnonempty
        & Hdeclared).
  by exists fields, row.
Qed.

Lemma upload_file_content_type_witness :
  FilesTable.file_type
    <$> FilesTable.select_by_path "id0.txt"
          (Server.db (snd (Routes.upload_file Scenario.E Scenario.noon
                             Scenario.small None Scenario.w0)))
  = Some "text/plain".
Proof.
  assert (Hchunks : Forall (fun chunk : N => len chunk <> 0)
                      (Routes.chunks Scenario.small))
    by (repeat constructor; vm_compute; discriminate).
  assert (Hfit : received (Routes.chunks Scenario.small) <= 5 * 1024 ^ 3)
    by (vm_compute; discriminate).
  destruct (upload_file_content_type Scenario.E Scenario.noon Scenario.small
              None Scenario.w0 "id0.txt" eq_refl eq_refl Hchunks Hfit
              ltac:(discriminate) eq_refl)
    as (fields & row & _ & Hrow & _ & _ & Hdeclared).
  rewrite Hrow. cbn [fmap option_fmap option_map]. f_equal.
  apply Hdeclared; [reflexivity | discriminate | discriminate].
Defined.

Section RefusedRequests.

Import RateLimiter.

Lemma allowed_times_Forall (P : Z -> Prop) (clock : list Z)
    (results : list (result unit)) :
  Forall P clock -> Forall P (allowed_times clock results).
Proof.
  intros HP. revert results.
  induction HP as [|t clock Ht _ IH]; intros results; [constructor|].
  destruct results as [|[u|e] results]; cbn [allowed_times];
    [constructor | constructor; [exact Ht | apply IH] | apply IH].
Qed.

Lemma allowed_times_sorted (clock : list Z) (results : list (result unit)) :
  StronglySorted Z.le clock ->
  StronglySorted Z.le (allowed_times clock results).
Proof.
  intros Hsorted. revert results.
  induction Hsorted as [|t clock _ IH Hall]; intros results; [constructor|].
  destruct results as [|[u|e] results]; cbn [allowed_times];
    [constructor | | apply IH].
  constructor; [apply IH | by apply allowed_times_Forall].
Qed.

(** The timestamps a request at [now] finds in the queue after a run:
    the allowed ones that are still inside its window. *)
Lemma kept_after_run (N : nat) (W : Z) (ip : string) (clock : list Z)
    (now : Z) :
  0 < W ->
  StronglySorted Z.le (clock ++ [now]) ->
  drop_expired (now - W * TICKS_PER_SECOND)
    (queue_of (snd (run (__init__ N W) ip clock)) ip)
  = List.filter (fun t => now - W * TICKS_PER_SECOND <? t)
      (allowed_times clock (fst (run (__init__ N W) ip clock))).
Proof.
  intros HW Hsorted.
  destruct (strongly_sorted_snoc clock now Hsorted) as [Hclock Hbound].
  destruct (run_queue N W ip clock HW Hclock) as [Hqueue _].
  assert (Hordered : StronglySorted Z.le
                       (queue_of (snd (run (__init__ N W) ip clock)) ip)).
  { apply run_keeps_order; [exact Hclock | constructor|].
    apply Forall_forall. intros; constructor. }
  rewrite (drop_expired_filter _ _ Hordered), Hqueue.
  destruct clock as [|t0 clock0] eqn:Hc; [reflexivity|]. rewrite <- Hc in *.
  apply filter_filter_weaker.
  assert (List.last clock 0 <= now).
  { rewrite Forall_forall in Hbound. apply Hbound.
    apply list_elem_of_In, last_in. rewrite Hc. discriminate. }
  lia.
Qed.

Lemma outcome_after_run (N : nat) (W : Z) (ip : string) (clock : list Z)
    (now : Z) :
  0 < W ->
  StronglySorted Z.le (clock ++ [now]) ->
  fst (__call__ (snd (run (__init__ N W) ip clock)) ip now)
  = if (N <=? length
                (List.filter (fun t => (now - W * TICKS_PER_SECOND <? t)%Z)
                   (allowed_times clock (fst (run (__init__ N W) ip clock)))))%nat
    then Raise (HTTPException 429 "Too many requests")
    else Return tt.
Proof.
  intros HW Hsorted.
  destruct (call_outcome (snd (run (__init__ N W) ip clock)) ip now) as [-> _].
  destruct (run_config (__init__ N W) ip clock) as [-> ->].
  cbn [__init__ times seconds]. by rewrite kept_after_run.
Qed.

Lemma strongly_sorted_snoc_intro (clock : list Z) (now : Z) :
  StronglySorted Z.le clock -> Forall (fun t => t <= now) clock ->
  StronglySorted Z.le (clock ++ [now]).
Proof.
  intros Hsorted Hbound.
  induction Hsorted as [|t clock _ IH Hall]; [repeat constructor|].
  inversion Hbound as [|? ? Ht Hrest]; subst. cbn [app].
  constructor; [by apply IH|].
  apply Forall_app. split; [exact Hall | by repeat constructor].
Qed.

(** The requests that were let through, replayed alone, are all let
    through again. *)
Lemma allowed_alone (N : nat) (W : Z) (ip : string) (clock : list Z) :
  0 < W ->
  StronglySorted Z.le clock ->
  allowed_times
    (allowed_times clock (fst (run (__init__ N W) ip clock)))
    (fst (run (__init__ N W) ip
            (allowed_times clock (fst (run (__init__ N W) ip clock)))))
  = allowed_times clock (fst (run (__init__ N W) ip clock)).
Proof.
  intros HW. induction clock as [|now clock IH] using rev_ind; intros Hsorted;
    [reflexivity|].
  destruct (strongly_sorted_snoc clock now Hsorted) as [Hclock Hbound].
  specialize (IH Hclock).
  rewrite run_app, run_one. cbn [fst].
  rewrite allowed_times_snoc by apply run_length.
  pose proof (outcome_after_run N W ip clock now HW Hsorted) as Hout.
  set (A := allowed_times clock (fst (run (__init__ N W) ip clock))) in *.
  destruct (fst (__call__ (snd (run (__init__ N W) ip clock)) ip now))
    as [[]|e] eqn:Hcall; [|by rewrite app_nil_r].
  rewrite run_app, run_one. cbn [fst].
  rewrite allowed_times_snoc by apply run_length. rewrite IH. f_equal.
  assert (HA : StronglySorted Z.le (A ++ [now])).
  { apply strongly_sorted_snoc_intro.
    - by apply allowed_times_sorted.
    - by apply allowed_times_Forall. }
  rewrite (outcome_after_run N W ip A now HW HA), IH, <- Hout.
  reflexivity.
Qed.

End RefusedRequests.

(** X28.  Refused requests leave no trace.  After any run of requests at
    non-decreasing times, the limiter answers the next request as it
    would if only the requests it let through had been made: a client
    that keeps asking while over the limit does not prolong its wait. *)
Theorem refused_requests_are_not_counted (N : nat) (W : Z) (client_ip : string)
    (clock : list Z) (now : Z) :
  0 < W ->
  Sorted Z.le (clock ++ [now]) ->
  fst (RateLimiter.__call__
         (snd (RateLimiter.run (RateLimiter.__init__ N W) client_ip clock))
         client_ip now)
  = fst (RateLimiter.__call__
           (snd (RateLimiter.run (RateLimiter.__init__ N W) client_ip
                   (allowed_times clock
                      (fst (RateLimiter.run (RateLimiter.__init__ N W)
                              client_ip clock)))))
           client_ip now).
Proof.
  intros HW Hsorted.
  apply Sorted_StronglySorted in Hsorted; [|intros x y z; lia].
  destruct (strongly_sorted_snoc clock now Hsorted) as [Hclock Hbound].
  rewrite (outcome_after_run N W client_ip clock now HW Hsorted).
  rewrite outcome_after_run; [|exact HW|].
  - by rewrite (allowed_alone N W client_ip clock HW Hclock).
  - apply strongly_sorted_snoc_intro.
    + by apply allowed_times_sorted.
    + by apply allowed_times_Forall.
Qed.

Lemma refused_requests_are_not_counted_witness :
  fst (RateLimiter.__call__
         (snd (RateLimiter.run (RateLimiter.__init__ 2 1) "10.0.0.7"
                 [0; 100000; 200000; 300000]))
         "10.0.0.7" 1050000)
  = fst (RateLimiter.__call__
           (snd (RateLimiter.run (RateLimiter.__init__ 2 1) "10.0.0.7"
                   (allowed_times [0; 100000; 200000; 300000]
                      (fst (RateLimiter.run (RateLimiter.__init__ 2 1)
                              "10.0.0.7" [0; 100000; 200000; 300000])))))
           "10.0.0.7" 1050000).
Proof.
  apply (refused_requests_are_not_counted 2 1 "10.0.0.7"
           [0; 100000; 200000; 300000] 1050000).
  - lia.
  - cbn [app]. repeat constructor; discriminate.
Defined.

(** X29.  When the operating system refuses the storage path (a client
    extension that makes the name too long, or one that holds a NUL), the
    upload fails before anything is read: the client gets a 500, and the
    disk, the table and the tasks are as they were. *)
Theorem upload_file_path_refused {B : Type} `{Bytes B} (E : Server.env B)
    (now : Z) (file : Routes.UploadFile) (expiry_days : option Z)
    (w : Server.world B) (refusal : FS.refusal) :
  Server.refuses E (upload_path E file w) = Some refusal ->
  (exists detail,
     fst (Routes.upload_file E now file expiry_days w)
     = Raise (HTTPException 500 detail))
  /\ Server.fs (snd (Routes.upload_file E now file expiry_days w))
     = Server.fs w
  /\ Server.db (snd (Routes.upload_file E now file expiry_days w))
     = Server.db w
  /\ Server.tasks (snd (Routes.upload_file E now file expiry_days w))
     = Server.tasks w.
Proof.
  intros Hrefused.
  destruct (get_safe_filename_run E (Routes.filename file) w) as [safe Hrun].
  destruct (get_unique_path_fresh (FS.join Routes.STORAGE_DIR safe)
              (Server.set_drawn (S (Server.drawn w)) w))
    as (path & Hpath & Hfresh).
  rewrite (upload_path_run E file w safe path Hrun Hpath) in Hrefused.
  unfold Routes.upload_file, Server.try_except, Server.bind.
  rewrite Hrun, Hpath, (fs_open_wb_fresh E path _ Hfresh), Hrefused.
  destruct refusal; (split; [by eexists | by repeat split]).
Qed.

Lemma upload_file_path_refused_witness :
  (exists detail,
     fst (Routes.upload_file Scenario.E Scenario.noon Scenario.long_extension
            None Scenario.w0)
     = Raise (HTTPException 500 detail))
  /\ Server.fs (snd (Routes.upload_file Scenario.E Scenario.noon
                       Scenario.long_extension None Scenario.w0))
     = Server.fs Scenario.w0
  /\ Server.db (snd (Routes.upload_file Scenario.E Scenario.noon
                       Scenario.long_extension None Scenario.w0))
     = Server.db Scenario.w0
  /\ Server.tasks (snd (Routes.upload_file Scenario.E Scenario.noon
                          Scenario.long_extension None Scenario.w0))
     = Server.tasks Scenario.w0.
Proof.
  apply (upload_file_path_refused Scenario.E Scenario.noon
           Scenario.long_extension None Scenario.w0 FS.NameTooLong).
  vm_compute. reflexivity.
Defined.
